(** * FMTM backend: the ODK Central relay ([app/central/central_crud.py])

    A shallow embedding of the functions of [central_crud.py] that sequence
    calls to a remote ODK Central server, stage temporary files, rewrite
    XForm documents and convert submissions, together with the properties
    the specification states about them.

    Conventions of the embedding.
    - Python values are the inductive [PyVal]; the text of a Python [str]
      and the content of a [bytes] are Rocq [string]s, an [int] is a [Z],
      a [float] a binary64 float.
    - Code that performs effects runs in the monad [M]: it threads a
      [World] (local files, directories, the history of remote calls, the
      log) and ends either by returning a value or by raising an exception;
      the world is kept when an exception is raised.
    - The ODK Central client of [osm_fieldwork] is outside the repository.
      Every call to it is answered by an oracle [remote], a function of the
      current world and of the call, which either returns a value or
      raises; the call and its outcome are recorded in the world.
    - [Exn] stands for the subclasses of Python's [Exception], the ones an
      [except Exception] clause catches. *)

From Stdlib Require Import ZArith String Ascii List Lia PrimFloat Uint63.
From stdpp Require Import gmap strings list pretty.

Set Warnings "-register-all,-inexact-float".

Local Open Scope Z_scope.
Local Open Scope list_scope.

(** ** Python values *)

Inductive PyVal : Type :=
| PyNone
| PyBool (b : bool)
| PyInt (z : Z)
| PyFloat (f : float)
| PyStr (s : string)
| PyBytes (b : string)
| PyList (l : list PyVal)
| PyDict (d : list (string * PyVal)).

(** [isinstance(v, dict)] *)
Definition is_dict (v : PyVal) : bool :=
  match v with PyDict _ => true | _ => false end.

(** Lookup in an insertion-ordered dict with string keys. *)
Fixpoint assoc_get {A : Type} (k : string) (d : list (string * A)) : option A :=
  match d with
  | [] => None
  | (k', v) :: d' => if String.eqb k k' then Some v else assoc_get k d'
  end.

(** [k in d] *)
Definition assoc_mem {A : Type} (k : string) (d : list (string * A)) : bool :=
  match assoc_get k d with Some _ => true | None => false end.

(** [d[k] = v]: an existing key keeps its position, a new key goes last. *)
Fixpoint assoc_set {A : Type} (k : string) (v : A) (d : list (string * A))
  : list (string * A) :=
  match d with
  | [] => [(k, v)]
  | (k', v') :: d' =>
      if String.eqb k k' then (k', v) :: d' else (k', v') :: assoc_set k v d'
  end.

(** [d.get(k)]: [None] when the key is absent. *)
Definition dict_get (v : PyVal) (k : string) : PyVal :=
  match v with
  | PyDict d => match assoc_get k d with Some x => x | None => PyNone end
  | _ => PyNone
  end.

(** The float nearest to a small non-negative integer (exact below 2^53). *)
Definition float_of_Z (n : Z) : float := PrimFloat.of_uint63 (Uint63.of_Z n).

(** [v == n] for an int literal [n] with [0 <= n < 2^53]: Python compares
    numbers by value across [int], [bool] and [float]; a value that is not
    a number is never equal to an int. *)
Definition py_eq_int (v : PyVal) (n : Z) : bool :=
  match v with
  | PyInt z => z =? n
  | PyBool b => Z.b2z b =? n
  | PyFloat f => PrimFloat.eqb f (float_of_Z n)
  | _ => false
  end.

(** [v == 401.2]: only a float can be equal to this literal, since no
    [int] or [bool] has a fractional part. *)
Definition py_eq_401_2 (v : PyVal) : bool :=
  match v with
  | PyFloat f => PrimFloat.eqb f 401.2%float
  | _ => false
  end.

(** ** Exceptions and outcomes *)

Inductive Exn : Type :=
| HTTPException (status_code : Z) (detail : PyVal)
| PyExn (cls : string) (msg : string).

Inductive Outcome (A : Type) : Type :=
| Returned (a : A)
| Raised (e : Exn).
Arguments Returned {A} a.
Arguments Raised {A} e.

(** ** The remote client and the world *)

Inductive ClientKind : Type := OdkProject | OdkForm | OdkAppUser.

Record Client : Type := mkClient {
  client_kind : ClientKind;
  client_url : string;
  client_user : string;
  client_pw : string
}.

(** The calls made to [osm_fieldwork.OdkCentral]; [Connect] is the
    constructor of a client object. *)
Inductive Call : Type :=
| Connect (c : Client)
| CreateProject (c : Client) (name : string)
| DeleteProject (c : Client) (project_id : Z)
| CreateForm (c : Client) (odk_id : Z) (form_name : string) (filespec : string)
    (draft : bool)
| UploadMedia (c : Client) (odk_id : Z) (form_name : string) (filespec : string)
    (convert_to_draft : bool)
| PublishForm (c : Client) (odk_id : Z) (form_name : string).

Inductive LogLevel : Type := Debug | Info | Warning | Error.

Record World : Type := mkWorld {
  files : gmap string string;
  dirs : gset string;
  trace : list (Call * Outcome PyVal);
  logs : list (LogLevel * string)
}.

Definition set_files (w : World) (fs : gmap string string) : World :=
  mkWorld fs (dirs w) (trace w) (logs w).
Definition set_dirs (w : World) (ds : gset string) : World :=
  mkWorld (files w) ds (trace w) (logs w).
Definition add_event (w : World) (ev : Call * Outcome PyVal) : World :=
  mkWorld (files w) (dirs w) (trace w ++ [ev]) (logs w).
Definition add_log (w : World) (l : LogLevel * string) : World :=
  mkWorld (files w) (dirs w) (trace w) (logs w ++ [l]).

(** ** The monad of effectful code

    A computation over a state [S] ends by returning a value or by raising
    an exception, and gives the state it reached in both cases. *)

Definition ST (S A : Type) : Type := S -> Outcome A * S.

Abbreviation M := (ST World).

Definition ret {S A : Type} (a : A) : ST S A := fun s => (Returned a, s).

Definition bind {S A B : Type} (m : ST S A) (k : A -> ST S B) : ST S B :=
  fun s =>
    match m s with
    | (Returned a, s') => k a s'
    | (Raised e, s') => (Raised e, s')
    end.

Definition raise {S A : Type} (e : Exn) : ST S A := fun s => (Raised e, s).

(** [try: m  except Exception as e: h e] *)
Definition try_except {S A : Type} (m : ST S A) (h : Exn -> ST S A) : ST S A :=
  fun s =>
    match m s with
    | (Returned a, s') => (Returned a, s')
    | (Raised e, s') => h e s'
    end.

(** [for x in l: body x] *)
Fixpoint for_each {S A : Type} (l : list A) (body : A -> ST S unit)
  : ST S unit :=
  match l with
  | [] => ret tt
  | x :: l' => bind (body x) (fun _ => for_each l' body)
  end.

Notation "x <- m ;; k" := (bind m (fun x => k))
  (at level 90, m at next level, right associativity).
Notation "m ;;; k" := (bind m (fun _ => k))
  (at level 90, right associativity).

Definition log (lvl : LogLevel) (msg : string) : M unit :=
  fun w => (Returned tt, add_log w (lvl, msg)).

(** ** Text helpers ([str] methods) *)

(** [s.endswith(suffix)] *)
Fixpoint endswith (s suffix : string) : bool :=
  if String.eqb s suffix then true
  else match s with
       | EmptyString => false
       | String _ s' => endswith s' suffix
       end.

(** [s.startswith(p)] *)
Fixpoint startswith (s p : string) : bool :=
  match p, s with
  | EmptyString, _ => true
  | String b p', String a s' => (Ascii.eqb a b && startswith s' p')%bool
  | String _ _, EmptyString => false
  end.

(** [sub in s] *)
Fixpoint contains (s sub : string) : bool :=
  if startswith s sub then true
  else match s with
       | EmptyString => false
       | String _ s' => contains s' sub
       end.

(** [s.split(c)] for a one-character separator: never empty. *)
Fixpoint split (c : ascii) (s : string) : list string :=
  match s with
  | EmptyString => [EmptyString]
  | String a s' =>
      if Ascii.eqb a c then EmptyString :: split c s'
      else match split c s' with
           | h :: t => String a h :: t
           | [] => [String a EmptyString]
           end
  end.

(** ** Paths ([pathlib.Path])

    A path is its text, as [str(path)] gives it.  [path_str s] is the
    text of [Path(s)]: [pathlib] drops the empty components, the [.]
    components and a trailing separator, keeps [..], and keeps a root of
    exactly two slashes apart from the root of one. *)

(** Split at the last occurrence of [c]: the text before it and after it. *)
Fixpoint rsplit (c : ascii) (s : string) : option (string * string) :=
  match s with
  | EmptyString => None
  | String a s' =>
      match rsplit c s' with
      | Some (pre, post) => Some (String a pre, post)
      | None => if Ascii.eqb a c then Some (EmptyString, s') else None
      end
  end.

(** [sep.join(l)] *)
Fixpoint join (sep : string) (l : list string) : string :=
  match l with
  | [] => ""
  | x :: l' =>
      match l' with
      | [] => x
      | _ :: _ => x +:+ sep +:+ join sep l'
      end
  end.

(** The root of a path: [//] for exactly two leading slashes. *)
Definition path_root (s : string) : string :=
  if startswith s "///" then "/"
  else if startswith s "//" then "//"
  else if startswith s "/" then "/"
  else "".

(** The components of a path, the root apart. *)
Definition path_parts (s : string) : list string :=
  List.filter (fun c => negb (String.eqb c "" || String.eqb c "."))
    (split "/" s).

(** [str(Path(s))] *)
Definition path_str (s : string) : string :=
  let t := path_root s +:+ join "/" (path_parts s) in
  if String.eqb t "" then "." else t.

(** [Path.name]: the final component, empty when there is none. *)
Definition path_name (p : string) : string :=
  default "" (last (path_parts p)).

(** [Path.stem]: the final component without its last suffix; a leading
    or a trailing dot does not start a suffix. *)
Definition path_stem (p : string) : string :=
  let name := path_name p in
  match rsplit "." name with
  | Some (pre, post) =>
      if (String.eqb pre "" || String.eqb post "")%bool then name else pre
  | None => name
  end.

(** [Path.parents[0]] *)
Definition path_parent (p : string) : string :=
  match rsplit "/" p with
  | Some (pre, _) => if String.eqb pre "" then "/" else pre
  | None => "."
  end.

(** A directory and its ancestors, outermost first. *)
Fixpoint dir_chain (acc : string) (s : string) : list string :=
  match s with
  | EmptyString => [acc]
  | String a s' =>
      if Ascii.eqb a "/"
      then (if String.eqb acc "" then "/" else acc)
             :: dir_chain (acc +:+ "/") s'
      else dir_chain (acc +:+ String a EmptyString) s'
  end.

(** ** Local file system *)

Definition is_file (w : World) (p : string) : bool :=
  bool_decide (is_Some (files w !! p)).
Definition is_dir (w : World) (p : string) : bool :=
  bool_decide (p ∈ dirs w).

(** [d.mkdir(parents=True, exist_ok=True)]: creates [d] and its missing
    ancestors; fails with [FileExistsError] when [d] exists as a file,
    with [NotADirectoryError] when one of its ancestors does. *)
Definition mkdir_parents (d : string) : M unit :=
  fun w =>
    let chain := dir_chain "" d in
    if is_file w d
    then (Raised (PyExn "FileExistsError" d), w)
    else if existsb (is_file w) chain
    then (Raised (PyExn "NotADirectoryError" d), w)
    else (Returned tt, set_dirs w (list_to_set chain ∪ dirs w)).

(** [open(p, "w")] or [open(p, "wb")]: creates or truncates the file. *)
Definition open_write (p : string) : M unit :=
  fun w =>
    if is_dir w p then (Raised (PyExn "IsADirectoryError" p), w)
    else if negb (is_dir w (path_parent p))
    then (Raised (PyExn "FileNotFoundError" p), w)
    else (Returned tt, set_files w (<[p := ""]> (files w))).

(** [f.write(text)] on the file opened at [p]. *)
Definition file_write (p : string) (text : string) : M unit :=
  fun w => (Returned tt, set_files w (<[p := text]> (files w))).

(** [open(p, "r").read()] of a regular file that holds text: a file is
    kept as the text it reads back as; a directory at [p] and content
    that does not decode are not represented. *)
Definition read_file (p : string) : M string :=
  fun w =>
    match files w !! p with
    | Some text => (Returned text, w)
    | None => (Raised (PyExn "FileNotFoundError" p), w)
    end.

(** [p.unlink(missing_ok=True)] *)
Definition unlink_missing_ok (p : string) : M unit :=
  fun w =>
    if is_dir w p then (Raised (PyExn "IsADirectoryError" p), w)
    else (Returned tt, set_files w (delete p (files w))).

(** ** Credentials *)

Record ODKCentralDecrypted : Type := mkODKCentral {
  odk_central_url : string;
  odk_central_user : string;
  odk_central_password : string
}.

Record Settings : Type := mkSettings {
  ODK_CENTRAL_URL : string;
  ODK_CENTRAL_USER : string;
  ODK_CENTRAL_PASSWD : string
}.

(** ** The environment of the module

    [Runtime] gathers what the Python runtime and the process
    configuration provide: [str(e)] of an exception, [str(v)] of a value,
    UTF-8 decoding of bytes ([None] stands for [UnicodeDecodeError]) and
    [app.config.settings].  [OdkCentral] is the remote server as seen
    through the [osm_fieldwork] client. *)

Class Runtime : Type := {
  str_exn : Exn -> string;
  str_val : PyVal -> string;
  utf8_decode : string -> option string;
  settings : Settings
}.

Class OdkCentral : Type := {
  remote : World -> Call -> Outcome PyVal
}.

Section Central.
Context `{RT : Runtime} `{ODK : OdkCentral}.

(** A call to the remote client: the oracle answers, the world records. *)
Definition call (c : Call) : M PyVal :=
  fun w => let o := remote w c in (o, add_event w (c, o)).

(** The credentials an operation connects with: the ones it is given,
    else the ones of the process configuration. *)
Definition credentials (kind : ClientKind)
    (odk_central : option ODKCentralDecrypted) : Client :=
  match odk_central with
  | Some oc =>
      mkClient kind (odk_central_url oc) (odk_central_user oc)
        (odk_central_password oc)
  | None =>
      mkClient kind (ODK_CENTRAL_URL settings) (ODK_CENTRAL_USER settings)
        (ODK_CENTRAL_PASSWD settings)
  end.

(** The common body of [get_odk_project], [get_odk_form] and
    [get_odk_app_user]: resolve the credentials, then construct the
    client; a failure of the constructor becomes a 500. *)
Definition odk_client (kind : ClientKind)
    (odk_central : option ODKCentralDecrypted) : M Client :=
  match odk_central with
  | Some _ => ret tt
  | None =>
      log Debug "ODKCentral connection variables not set in function" ;;;
      log Debug "Attempting extraction from environment variables"
  end ;;;
  let c := credentials kind odk_central in
  try_except
    (log Debug ("Connecting to ODKCentral: url=" +:+ client_url c
                  +:+ " user=" +:+ client_user c) ;;;
     call (Connect c) ;;;
     ret c)
    (fun e =>
       log Error (str_exn e) ;;;
       raise (HTTPException 500
                (PyStr ("Error creating project on ODK Central: "
                          +:+ str_exn e)))).

Definition get_odk_project := odk_client OdkProject.
Definition get_odk_form := odk_client OdkForm.
Definition get_odk_app_user := odk_client OdkAppUser.

Definition create_odk_project (name : string)
    (odk_central : option ODKCentralDecrypted) : M PyVal :=
  project <- get_odk_project odk_central ;;
  try_except
    (log Debug ("Attempting ODKCentral project creation: FMTM " +:+ name) ;;;
     result <- call (CreateProject project ("FMTM " +:+ name)) ;;
     (if (is_dict result && py_eq_401_2 (dict_get result "code"))%bool
      then raise (HTTPException 500
                    (PyStr "Could not authenticate to odk central."))
      else ret tt) ;;;
     log Debug ("ODKCentral response: " +:+ str_val result) ;;;
     log Info ("Project " +:+ name
                 +:+ " available on the ODK Central server.") ;;;
     ret result)
    (fun e =>
       log Error (str_exn e) ;;;
       raise (HTTPException 500
                (PyStr ("Error creating project on ODK Central: "
                          +:+ str_exn e)))).

Definition delete_odk_project (project_id : Z)
    (odk_central : option ODKCentralDecrypted) : M PyVal :=
  try_except
    (project <- get_odk_project odk_central ;;
     result <- call (DeleteProject project project_id) ;;
     log Info ("Project " +:+ pretty project_id
                 +:+ " has been deleted from the ODK Central server.") ;;;
     ret result)
    (fun _ => ret (PyStr "Could not delete project from central odk")).

(** The temporary file of the staged geodata:
    [Path(f"/tmp/fmtm/odk/{odk_id}/{xform_category}.geojson")]. *)
Definition geojson_path_of (odk_id : Z) (xform_category : string) : string :=
  path_str ("/tmp/fmtm/odk/" +:+ pretty odk_id +:+ "/" +:+ xform_category
              +:+ ".geojson").

(** The steps of [create_odk_xform] after a [createForm] that answered
    200 or 409: stage, attach, clean up, publish. *)
Definition stage_attach_publish (xform : Client) (odk_id : Z)
    (xform_path : string) (xform_category : string)
    (feature_geojson : string) (convert_to_draft_when_publishing : bool)
  : M PyVal :=
  let geojson_path := geojson_path_of odk_id xform_category in
  mkdir_parents (path_parent geojson_path) ;;;
  open_write geojson_path ;;;
  text <- match utf8_decode feature_geojson with
          | Some t => ret t
          | None => raise (PyExn "UnicodeDecodeError" "utf-8")
          end ;;
  file_write geojson_path text ;;;
  call (UploadMedia xform odk_id (path_stem xform_path) geojson_path
          convert_to_draft_when_publishing) ;;;
  unlink_missing_ok geojson_path ;;;
  call (PublishForm xform odk_id (path_stem xform_path)).

(** The first steps of [create_odk_xform]: connect, then [createForm]. *)
Definition create_form_step (odk_id : Z) (xform_path : string)
    (odk_credentials : option ODKCentralDecrypted) (create_draft : bool)
  : M (Client * PyVal) :=
  xform <- try_except (get_odk_form odk_credentials)
             (fun e =>
                log Error (str_exn e) ;;;
                raise (HTTPException 500
                         (PyDict [("message",
                                   PyStr
                                     "Connection failed to odk central")]))) ;;
  result <- call (CreateForm xform odk_id (path_stem xform_path) xform_path
                    create_draft) ;;
  ret (xform, result).

Definition create_odk_xform (odk_id : Z) (xform_path : string)
    (xform_category : string) (feature_geojson : string)
    (odk_credentials : option ODKCentralDecrypted)
    (create_draft : bool) (convert_to_draft_when_publishing : bool)
  : M PyVal :=
  created <- create_form_step odk_id xform_path odk_credentials create_draft ;;
  let xform := fst created in
  let result := snd created in
  if (negb (py_eq_int result 200) && negb (py_eq_int result 409))%bool
  then ret result
  else stage_attach_publish xform odk_id xform_path xform_category
         feature_geojson convert_to_draft_when_publishing.

(** The world in which the client constructor runs. *)
Definition connect_world (kind : ClientKind)
    (odk_central : option ODKCentralDecrypted) (w : World) : World :=
  let c := credentials kind odk_central in
  add_log
    (match odk_central with
     | Some _ => w
     | None =>
         add_log
           (add_log w
              (Debug, "ODKCentral connection variables not set in function"))
           (Debug, "Attempting extraction from environment variables")
     end)
    (Debug, "Connecting to ODKCentral: url=" +:+ client_url c
              +:+ " user=" +:+ client_user c).

(** The text the generic handler of [create_odk_project] raises with. *)
Definition creation_error (e : Exn) : Exn :=
  HTTPException 500
    (PyStr ("Error creating project on ODK Central: " +:+ str_exn e)).

Definition authentication_failure : Exn :=
  HTTPException 500 (PyStr "Could not authenticate to odk central.").

(** The remote calls made between two worlds of one run. *)
Definition new_events (w w' : World) : list (Call * Outcome PyVal) :=
  drop (length (trace w)) (trace w').

End Central.

(** ** XML trees ([xml.etree.ElementTree.Element])

    A tag is in Clark notation, [{uri}local]; [attrib] keeps the order of
    the attributes, which is the order [tostring] writes them in. *)

Inductive Element : Type := mkElement {
  tag : string;
  attrib : list (string * string);
  text : option string;
  tail : option string;
  children : list Element
}.

Definition set_attrib (e : Element) (a : list (string * string)) : Element :=
  mkElement (tag e) a (text e) (tail e) (children e).
Definition set_children (e : Element) (cs : list Element) : Element :=
  mkElement (tag e) (attrib e) (text e) (tail e) cs.

(** [e.attrib[k] = v] *)
Definition set_attr (e : Element) (k v : string) : Element :=
  set_attrib e (assoc_set k v (attrib e)).

(** The prefix map both XML functions pass to [find] and [findall]. *)
Definition namespaces : list (string * string) :=
  [("h", "http://www.w3.org/1999/xhtml");
   ("odk", "http://www.opendatakit.org/xforms");
   ("xforms", "http://www.w3.org/2002/xforms")].

(** A prefixed name of a path, resolved to Clark notation. *)
Definition qname (pfx local : string) : string :=
  match assoc_get pfx namespaces with
  | Some uri => "{" +:+ uri +:+ "}" +:+ local
  | None => pfx +:+ ":" +:+ local
  end.

(** [bool(e)]: an [Element] is true when it has children. *)
Definition truthy (e : Element) : bool :=
  match children e with [] => false | _ :: _ => true end.

(** [e.find(t)]: the position of the first child tagged [t], with it. *)
Fixpoint find_from (t : string) (i : nat) (l : list Element)
  : option (nat * Element) :=
  match l with
  | [] => None
  | e :: l' =>
      if String.eqb (tag e) t then Some (i, e) else find_from t (S i) l'
  end.
Definition find (e : Element) (t : string) : option (nat * Element) :=
  find_from t 0 (children e).

(** [e.findall(t)]: the positions of the children tagged [t], in order. *)
Fixpoint findall_from (t : string) (i : nat) (l : list Element) : list nat :=
  match l with
  | [] => []
  | e :: l' =>
      if String.eqb (tag e) t then i :: findall_from t (S i) l'
      else findall_from t (S i) l'
  end.
Definition findall (e : Element) (t : string) : list nat :=
  findall_from t 0 (children e).

(** In-place change of the child at position [i]. *)
Definition alter_child (f : Element -> Element) (i : nat) (e : Element)
  : Element :=
  set_children e (alter f i (children e)).

(** [f] applied to every child tagged [t]: what a loop over
    [findall] that changes each element in place amounts to. *)
Definition map_tagged (t : string) (f : Element -> Element)
    (l : list Element) : list Element :=
  map (fun e => if String.eqb (tag e) t then f e else e) l.

(** All descendants of [e] in document order, [e] excluded. *)
Fixpoint descendants (e : Element) : list Element :=
  match e with
  | mkElement _ _ _ _ cs =>
      (fix go (l : list Element) : list Element :=
         match l with
         | [] => []
         | c :: l' => c :: descendants c ++ go l'
         end) cs
  end.

(** ** [generate_updated_xform]: the rewriting of a parsed form *)

Section RewriteBindings.
Variable xform_path : string.
Variable form_category : string.

(** Body of the loop over the [data] children of an instance. *)
Definition update_data (dt : Element) : Element :=
  if assoc_mem "id" (attrib dt)
  then set_attr dt "id" (path_stem xform_path)
  else dt.

(** First statement of the loop over the instances: the data extract. *)
Definition update_src (inst : Element) : Element :=
  if assoc_mem "src" (attrib inst) then
    let src_value := default "" (assoc_get "src" (attrib inst)) in
    if endswith src_value ".geojson"
    then set_attr inst "src" ("jr://file/" +:+ form_category +:+ ".geojson")
    else inst
  else inst.

(** Body of the loop over the instances.  On a parsed tree no
    operation of the [try] block can raise (every attribute value is a
    [str]), so its handler is never entered. *)
Definition update_instance (inst : Element) : Element :=
  let inst1 := update_src inst in
  let data_tags := findall inst1 (qname "xforms" "data") in
  match data_tags with
  | [] => inst1
  | _ :: _ =>
      fold_left (fun i dt => alter_child update_data dt i) data_tags inst1
  end.

(** The model after the loop over the instances. *)
Definition rewritten_model (model : Element) : Element :=
  set_children model
    (map_tagged (qname "xforms" "instance") update_instance (children model)).

(** The instances the function collects, as positions in the model;
    empty unless the head and the model are found and true. *)
Definition located_instances (root : Element)
  : option (nat * Element * (nat * Element) * list nat) :=
  match find root (qname "h" "head") with
  | Some (hi, head) =>
      if truthy head then
        match find head (qname "xforms" "model") with
        | Some (mi, model) =>
            if truthy model
            then Some (hi, head, (mi, model),
                       findall model (qname "xforms" "instance"))
            else None
        | None => None
        end
      else None
  | None => None
  end.

(** From [ElementTree.fromstring(data)] to the tree handed to
    [ElementTree.tostring]: the instances are changed where they are. *)
Definition rewrite_bindings (root : Element) : Element :=
  match located_instances root with
  | Some (hi, head, (mi, model), instances) =>
      let model' :=
        fold_left (fun m i => alter_child update_instance i m)
          instances model in
      alter_child (fun _ => alter_child (fun _ => model') mi head) hi root
  | None => root
  end.

End RewriteBindings.

(** ** The form libraries

    [pyxform] and [ElementTree] are outside the repository:
    [xls2xform_convert] reads the spreadsheet at a path of the current
    world and gives the XML text it writes (or raises), [fromstring]
    parses a text (or raises [ParseError]), [tostring] serialises. *)

Class FormLibs : Type := {
  xls2xform_convert : World -> string -> Outcome string;
  fromstring : string -> Outcome Element;
  tostring : Element -> string
}.

(** What a route function gives back: a plain value, or a
    [fastapi.responses.JSONResponse]. *)
Inductive Response : Type :=
| Plain (v : PyVal)
| JSONResponse (content : PyVal) (status_code : Z).

Section Forms.
Context `{RT : Runtime} `{FL : FormLibs}.

(** [xls2xform_convert(xlsform_path=.., xform_path=.., validate=False)] *)
Definition xls2xform (xlsform_path xform_path : string) : M unit :=
  fun w =>
    match xls2xform_convert w xlsform_path with
    | Returned xml =>
        (Returned tt, set_files w (<[xform_path := xml]> (files w)))
    | Raised e => (Raised e, w)
    end.

(** [p.stat().st_size] *)
Definition stat_size (p : string) : M nat :=
  fun w =>
    match files w !! p with
    | Some content => (Returned (String.length content), w)
    | None => (Raised (PyExn "FileNotFoundError" p), w)
    end.

Definition lift {A : Type} (o : Outcome A) : M A := fun w => (o, w).

Definition generate_updated_xform (input_path xform_path : string)
    (form_file_extension form_category : string) : M string :=
  data <-
    (if negb (String.eqb form_file_extension "xml") then
       try_except
         (log Debug ("Reading & converting xlsform -> xform: "
                       +:+ input_path) ;;;
          xls2xform input_path xform_path)
         (fun e =>
            log Error (str_exn e) ;;;
            let msg := "Couldn't convert " +:+ input_path
                         +:+ " to an XForm!" in
            log Error msg ;;;
            raise (HTTPException 400 (PyStr msg))) ;;;
       size <- stat_size xform_path ;;
       if (size <=? 0)%nat then
         log Warning (xform_path +:+ " is empty!") ;;;
         raise (HTTPException 400 (PyStr (xform_path +:+ " is empty!")))
       else read_file xform_path
     else
       data <- read_file input_path ;;
       log Debug ("Reading XForm directly: " +:+ input_path) ;;;
       ret data) ;;
  log Debug "Updating XML keys in XForm with data extract file & form id" ;;;
  root <- lift (fromstring data) ;;
  let newxml := tostring (rewrite_bindings xform_path form_category root) in
  open_write xform_path ;;;
  file_write xform_path newxml ;;;
  ret xform_path.

(** [f.write(xform_content)] on a file opened in binary mode. *)
Definition file_write_bytes (p : string) (content : PyVal) : M unit :=
  match content with
  | PyBytes b => file_write p b
  | _ => raise (PyExn "TypeError" "a bytes-like object is required")
  end.

(** [l[i]], with [IndexError] as [None]. *)
Definition index {A : Type} (l : list A) (i : nat) : option A := l !! i.

(** Body of the loop of [test_form_validity]: the media name an
    instance asks for; [None] when nothing is appended, which includes
    the [IndexError] its [try] absorbs. *)
Definition geojson_name (inst : Element) : option string :=
  match assoc_get "src" (attrib inst) with
  | Some src =>
      match index (split "." src) 1 with
      | Some ext =>
          if String.eqb ext "geojson" then
            match index (split "." src) 0 with
            | Some base => last (split "/" base)
            | None => None
            end
          else None
      | None => None
      end
  | None => None
  end.

(** [root.findall(".//xforms:instance[@src]", namespaces)] *)
Definition instances_with_src (root : Element) : list Element :=
  filter (fun e => tag e = qname "xforms" "instance"
                   /\ is_Some (assoc_get "src" (attrib e)))
    (descendants root).

(** The two shapes of what [test_form_validity] gives back. *)
Definition valid_form (names : list string) : Response :=
  Plain (PyDict [("required media", PyList (map PyStr names));
                 ("message", PyStr "Your form is valid")]).

Definition invalid_form (e : Exn) : Response :=
  JSONResponse
    (PyDict [("message", PyStr "Your form is invalid");
             ("possible_reason", PyStr (str_exn e))])
    400.

Definition test_form_validity (xform_content : PyVal) (form_type : string)
  : M Response :=
  try_except
    (let xlsform_path := "/tmp/validate_form." +:+ form_type in
     let outfile := "/tmp/outfile.xml" in
     open_write xlsform_path ;;;
     file_write_bytes xlsform_path xform_content ;;;
     xls2xform xlsform_path outfile ;;;
     data <- read_file outfile ;;
     root <- lift (fromstring data) ;;
     let instances := instances_with_src root in
     let geojson_list := omap geojson_name instances in
     ret (Plain (PyDict [("required media", PyList (map PyStr geojson_list));
                         ("message", PyStr "Your form is valid")])))
    (fun e =>
       ret (JSONResponse
              (PyDict [("message", PyStr "Your form is invalid");
                       ("possible_reason", PyStr (str_exn e))])
              400)).

End Forms.

(** ** The submission converter ([convert_csv])

    [osm_fieldwork.CSVDump] is outside the repository.  Its two output
    streams are kept as the lists of the features written to them;
    [parse] and [createEntry] are the library's, and [epdb_installed]
    tells whether [import epdb] finds the debugger module. *)

Definition Feature : Type := list (string * PyVal).

Class CSVDumpLib : Type := {
  parse : string -> option string -> list PyVal;
  createEntry : PyVal -> Feature;
  epdb_installed : bool
}.

Record CSVDump : Type := mkCSVDump {
  yaml : string;
  osm_file : option string;
  geojson_file : option string;
  osm_out : list Feature;
  geojson_out : list Feature;
  osm_finished : bool;
  geojson_finished : bool;
  csv_logs : list (LogLevel * string);
  breakpoints : nat
}.

Definition new_CSVDump (yaml : string) : CSVDump :=
  mkCSVDump yaml None None [] [] false false [] 0.

Definition createOSM (f : string) : ST CSVDump unit :=
  fun c => (Returned tt,
            mkCSVDump (yaml c) (Some f) (geojson_file c) (osm_out c)
              (geojson_out c) (osm_finished c) (geojson_finished c)
              (csv_logs c) (breakpoints c)).
Definition createGeoJson (f : string) : ST CSVDump unit :=
  fun c => (Returned tt,
            mkCSVDump (yaml c) (osm_file c) (Some f) (osm_out c)
              (geojson_out c) (osm_finished c) (geojson_finished c)
              (csv_logs c) (breakpoints c)).
Definition writeOSM (feature : Feature) : ST CSVDump unit :=
  fun c => (Returned tt,
            mkCSVDump (yaml c) (osm_file c) (geojson_file c)
              (osm_out c ++ [feature]) (geojson_out c) (osm_finished c)
              (geojson_finished c) (csv_logs c) (breakpoints c)).
Definition writeGeoJson (feature : Feature) : ST CSVDump unit :=
  fun c => (Returned tt,
            mkCSVDump (yaml c) (osm_file c) (geojson_file c) (osm_out c)
              (geojson_out c ++ [feature]) (osm_finished c)
              (geojson_finished c) (csv_logs c) (breakpoints c)).
Definition finishOSM : ST CSVDump unit :=
  fun c => (Returned tt,
            mkCSVDump (yaml c) (osm_file c) (geojson_file c) (osm_out c)
              (geojson_out c) true (geojson_finished c) (csv_logs c)
              (breakpoints c)).
Definition finishGeoJson : ST CSVDump unit :=
  fun c => (Returned tt,
            mkCSVDump (yaml c) (osm_file c) (geojson_file c) (osm_out c)
              (geojson_out c) (osm_finished c) true (csv_logs c)
              (breakpoints c)).
Definition csv_log (lvl : LogLevel) (msg : string) : ST CSVDump unit :=
  fun c => (Returned tt,
            mkCSVDump (yaml c) (osm_file c) (geojson_file c) (osm_out c)
              (geojson_out c) (osm_finished c) (geojson_finished c)
              (csv_logs c ++ [(lvl, msg)]) (breakpoints c)).

(** [epdb.st()]: the debugger takes over; the run goes on when the
    operator lets it continue. *)
Definition epdb_st : ST CSVDump unit :=
  fun c => (Returned tt,
            mkCSVDump (yaml c) (osm_file c) (geojson_file c) (osm_out c)
              (geojson_out c) (osm_finished c) (geojson_finished c)
              (csv_logs c) (S (breakpoints c))).

(** [d[k]] *)
Definition subscript {S : Type} (d : Feature) (k : string) : ST S PyVal :=
  match assoc_get k d with
  | Some v => ret v
  | None => raise (PyExn "KeyError" k)
  end.

(** [k in v] for a string [k] *)
Definition py_in {S : Type} (k : string) (v : PyVal) : ST S bool :=
  match v with
  | PyDict d => ret (assoc_mem k d)
  | PyList l =>
      ret (existsb (fun x => match x with
                             | PyStr s => String.eqb s k
                             | _ => false
                             end) l)
  | PyStr s => ret (contains s k)
  | _ => raise (PyExn "TypeError" "argument is not iterable")
  end.

Section Submissions.
Context `{RT : Runtime} `{CSV : CSVDumpLib}.

(** [import epdb] *)
Definition import_epdb : ST CSVDump unit :=
  if epdb_installed then ret tt
  else raise (PyExn "ModuleNotFoundError" "No module named 'epdb'").

(** The message logged for a record without tags. *)
Definition bad_record (f : Feature) : LogLevel * string :=
  (Warning, "Bad record! " +:+ str_val (PyDict f)).

(** The warnings of a log. *)
Definition warnings (l : list (LogLevel * string)) : list (LogLevel * string) :=
  List.filter (fun m => match fst m with Warning => true | _ => false end) l.

(** Body of the loop over the parsed records. *)
Definition convert_entry (data : string) (entry : PyVal) : ST CSVDump unit :=
  csv_log Debug ("Parsing csv data " +:+ str_val entry) ;;;
  if (String.length data <=? 1)%nat then ret tt
  else
    let feature := createEntry entry in
    if (0 <? length feature)%nat then
      if negb (assoc_mem "tags" feature) then
        csv_log Warning ("Bad record! " +:+ str_val (PyDict feature))
      else
        attrs <- subscript feature "attrs" ;;
        has_lat <- py_in "lat" attrs ;;
        (if negb has_lat then import_epdb ;;; epdb_st else ret tt) ;;;
        writeOSM feature ;;;
        writeGeoJson feature
    else ret tt.

Definition convert_csv_steps (filespec : string) (data : string)
  : ST CSVDump bool :=
  createOSM (filespec +:+ ".osm") ;;;
  createGeoJson (filespec +:+ ".geojson") ;;;
  (if (String.length data =? 0)%nat then
     csv_log Debug ("Parsing csv file " +:+ str_val (PyStr filespec)) ;;;
     let data' := parse filespec None in
     ret tt
   else
     let csvdata := parse filespec (Some data) in
     for_each csvdata (convert_entry data)) ;;;
  finishOSM ;;;
  finishGeoJson ;;;
  ret true.

(** The function starts from a converter of its own. *)
Definition convert_csv (filespec : string) (data : string)
  : Outcome bool * CSVDump :=
  convert_csv_steps filespec data (new_CSVDump "/xforms.yaml").

End Submissions.

(** ** Kinds of records

    The two tests the loop of [convert_csv] makes on an extracted
    feature, as predicates. *)

(** ["lat" in feature["attrs"]] is evaluated and true. *)
Definition has_coordinates (f : Feature) : bool :=
  match assoc_get "attrs" f with
  | Some (PyDict d) => assoc_mem "lat" d
  | Some (PyList l) =>
      existsb (fun x => match x with
                        | PyStr s => String.eqb s "lat"
                        | _ => false
                        end) l
  | Some (PyStr s) => contains s "lat"
  | _ => false
  end.

(** A record with a populated tag set and geometry. *)
Definition populated (f : Feature) : bool :=
  ((0 <? length f)%nat && assoc_mem "tags" f && has_coordinates f)%bool.

(** A record that is not empty and has no tag set. *)
Definition missing_tags (f : Feature) : bool :=
  ((0 <? length f)%nat && negb (assoc_mem "tags" f))%bool.

(** A record the loop handles without the debugger: empty, without
    tags, or populated. *)
Definition well_formed_or_skipped (f : Feature) : bool :=
  ((length f =? 0)%nat || missing_tags f || populated f)%bool.

(** ** Further notions for the remote operations *)

(** The value [createForm] gave lets [create_odk_xform] go on. *)
Definition accepted (result : PyVal) : bool :=
  (py_eq_int result 200 || py_eq_int result 409)%bool.

(** A path as the local file system keys it: absolute with a root of
    one slash, written as [pathlib] writes it, and without a [..]
    component, so that two such paths are the same file only when they
    are the same text. *)
Definition canonical (p : string) : bool :=
  (startswith p "/" && negb (startswith p "//")
   && String.eqb (path_str p) p
   && negb (existsb (String.eqb "..") (path_parts p)))%bool.

(** The staged file can be opened at [p]: no ancestor of [p] exists as a
    file, and [p] is no directory once its ancestors are created. *)
Definition can_stage (w : World) (p : string) : bool :=
  let chain := dir_chain "" (path_parent p) in
  (negb (existsb (is_file w) chain)
   && negb (bool_decide
              (p ∈ list_to_set (C := gset string) chain ∪ dirs w)))%bool.

(** The detail of the error [create_odk_xform] and [upload_xform_media]
    raise when the client cannot be constructed. *)
Definition connection_failed : Exn :=
  HTTPException 500
    (PyDict [("message", PyStr "Connection failed to odk central")]).

(** A call that belongs to the steps after [createForm]. *)
Definition after_create (c : Call) : bool :=
  match c with
  | UploadMedia _ _ _ _ _ | PublishForm _ _ _ => true
  | _ => false
  end.

(** ** Further notions for the form transformer *)

Section TransformerSteps.
Context `{RT : Runtime} `{FL : FormLibs}.

(** The last steps of [generate_updated_xform], from the text it read:
    parse, rewrite, serialise, write back. *)
Definition rewrite_and_write (xform_path form_category data : string)
  : M string :=
  log Debug "Updating XML keys in XForm with data extract file & form id" ;;;
  root <- lift (fromstring data) ;;
  let newxml := tostring (rewrite_bindings xform_path form_category root) in
  open_write xform_path ;;;
  file_write xform_path newxml ;;;
  ret xform_path.

(** The two errors of class 400 of [generate_updated_xform]. *)
Definition conversion_error (input_path : string) : Exn :=
  HTTPException 400
    (PyStr ("Couldn't convert " +:+ input_path +:+ " to an XForm!")).

Definition empty_output_error (xform_path : string) : Exn :=
  HTTPException 400 (PyStr (xform_path +:+ " is empty!")).

(** The world in which the converter is called. *)
Definition conversion_world (input_path : string) (w : World) : World :=
  add_log w (Debug, "Reading & converting xlsform -> xform: " +:+ input_path).

End TransformerSteps.

(** ** Further kinds of records *)

(** A record that is not empty and has a tag set: the loop of
    [convert_csv] goes on to write it. *)
Definition tagged (f : Feature) : bool :=
  ((0 <? length f)%nat && assoc_mem "tags" f)%bool.

(** [feature["attrs"]] exists and supports the [in] test. *)
Definition attrs_testable (f : Feature) : bool :=
  match assoc_get "attrs" f with
  | Some (PyDict _) | Some (PyList _) | Some (PyStr _) => true
  | _ => false
  end.

(** A tagged record for which the debugger is called. *)
Definition needs_debugger (f : Feature) : bool :=
  (tagged f && negb (has_coordinates f))%bool.

(** The error a record raises in a turn of the loop of [convert_csv],
    if any: a tagged record without [attrs], one whose [attrs] cannot
    be searched, one without [lat] where the debugger module is
    absent. *)
Definition entry_error `{CSVDumpLib} (f : Feature) : option Exn :=
  if tagged f then
    match assoc_get "attrs" f with
    | None => Some (PyExn "KeyError" "attrs")
    | Some _ =>
        if attrs_testable f then
          if (has_coordinates f || epdb_installed)%bool then None
          else Some (PyExn "ModuleNotFoundError" "No module named 'epdb'")
        else Some (PyExn "TypeError" "argument is not iterable")
    end
  else None.

(** ** Further remote operations

    [list_odk_projects], [list_submissions] and [upload_xform_media]
    reach the server through methods of the client that [Call] does not
    list.  [Request] names them; a [Session] is the world together with
    the record of the requests made and of their outcomes. *)

Inductive Request : Type :=
| ListProjects (c : Client)
| ListAppUsers (c : Client) (project_id : Z)
| ListSubmissions (c : Client) (project_id : Z) (name : PyVal)
| UploadMediaFile (c : Client) (project_id : Z) (title : string)
    (filespec : string).

Record Session : Type := mkSession {
  world : World;
  requests : list (Request * Outcome PyVal)
}.

Class OdkCentralMore : Type := {
  answer : Session -> Request -> Outcome PyVal
}.

(** [starlette] renders the content of a [JSONResponse] when the
    response is built: [render] gives the body, or raises for a content
    that JSON cannot hold (bytes, a float that is not finite). *)
Class JsonRenderer : Type := {
  render : PyVal -> Outcome string
}.

(** The characters of a [str], each as a [str] of its own. *)
Class Unicode : Type := {
  characters : string -> list string
}.

(** The values a [for] loop over [v] visits; [None] when [v] is not
    iterable.  A dict gives its keys, bytes give their integers. *)
Definition iterate `{Unicode} (v : PyVal) : option (list PyVal) :=
  match v with
  | PyList l => Some l
  | PyDict d => Some (map (fun kv => PyStr (fst kv)) d)
  | PyStr s => Some (map PyStr (characters s))
  | PyBytes b =>
      Some (map (fun a => PyInt (Z.of_N (N_of_ascii a)))
              (list_ascii_of_string b))
  | _ => None
  end.

(** [iter(v)], visited to the end; the message of the [TypeError] is
    kept as one fixed text. *)
Definition py_iter `{Unicode} {S : Type} (v : PyVal) : ST S (list PyVal) :=
  match iterate v with
  | Some l => ret l
  | None => raise (PyExn "TypeError" "object is not iterable")
  end.

(** [user["displayName"]]: the value of a dict; a dict without the key
    raises [KeyError], every other value [TypeError], whose message (it
    depends on the type of the value) is kept as one fixed text. *)
Definition display_name (user : PyVal) : Outcome PyVal :=
  match user with
  | PyDict d =>
      match assoc_get "displayName" d with
      | Some v => Returned v
      | None => Raised (PyExn "KeyError" "displayName")
      end
  | _ => Raised (PyExn "TypeError" "indices must be integers")
  end.

(** [d[k]] for a dict of strings *)
Definition str_subscript {S : Type} (d : list (string * string)) (k : string)
  : ST S string :=
  match assoc_get k d with
  | Some v => ret v
  | None => raise (PyExn "KeyError" k)
  end.

(** [os.path.basename] *)
Definition basename (p : string) : string :=
  match rsplit "/" p with Some (_, post) => post | None => p end.

(** A name made of dots only; the empty name counts. *)
Fixpoint all_dots (s : string) : bool :=
  match s with
  | EmptyString => true
  | String a s' => (Ascii.eqb a "." && all_dots s')%bool
  end.

(** [os.path.splitext(p)[0]]: [p] without the extension of its last
    component; dots that lead the component do not start one. *)
Definition splitext_root (p : string) : string :=
  match rsplit "." p with
  | Some (pre, post) =>
      if contains post "/" then p
      else if all_dots (basename pre) then p
      else pre
  | None => p
  end.

(** The title [upload_xform_media] derives from the file. *)
Definition media_title (filespec : string) : string :=
  basename (splitext_root filespec).

(** The submissions a recorded answer contributes. *)
Definition submissions_of `{Unicode} (ev : Request * Outcome PyVal)
  : list PyVal :=
  match snd ev with
  | Returned a => default [] (iterate a)
  | Raised _ => []
  end.

Section MoreCentral.
Context `{RT : Runtime} `{ODK : OdkCentral} `{MORE : OdkCentralMore}
  `{UNI : Unicode} `{JSON : JsonRenderer}.

(** A computation on the world, run inside a session. *)
Definition in_world {A : Type} (m : M A) : ST Session A :=
  fun s =>
    let r := m (world s) in
    (fst r, mkSession (snd r) (requests s)).

(** A request to the server: the oracle answers, the session records. *)
Definition request (r : Request) : ST Session PyVal :=
  fun s =>
    let o := answer s r in
    (o, mkSession (world s) (requests s ++ [(r, o)])).

Definition list_odk_projects (odk_central : option ODKCentralDecrypted)
  : ST Session PyVal :=
  project <- in_world (get_odk_project odk_central) ;;
  request (ListProjects project).

(** [JSONResponse(content=content)]: the response with the default
    status, once its content is rendered. *)
Definition json_response (content : PyVal) : ST Session Response :=
  fun s =>
    match render content with
    | Returned _ => (Returned (JSONResponse content 200), s)
    | Raised e => (Raised e, s)
    end.

(** The route [GET /central/projects]. *)
Definition list_projects : ST Session Response :=
  projects <- list_odk_projects None ;;
  match projects with
  | PyNone => ret (Plain (PyDict [("message", PyStr "No projects found")]))
  | _ => json_response (PyDict [("projects", projects)])
  end.

(** [for subm in subms: submissions.append(subm)] *)
Definition append_all (submissions subms : list PyVal) : list PyVal :=
  fold_left (fun acc subm => acc ++ [subm]) subms submissions.

(** The loop of [list_submissions] over the app users. *)
Fixpoint collect_submissions (xform : Client) (project_id : Z)
    (users : list PyVal) (submissions : list PyVal)
  : ST Session (list PyVal) :=
  match users with
  | [] => ret submissions
  | user :: users' =>
      name <- (fun s => (display_name user, s)) ;;
      answered <- request (ListSubmissions xform project_id name) ;;
      subms <- py_iter answered ;;
      collect_submissions xform project_id users'
        (append_all submissions subms)
  end.

Definition list_submissions (project_id : Z)
    (odk_central : option ODKCentralDecrypted) : ST Session (list PyVal) :=
  project <- in_world (get_odk_project odk_central) ;;
  xform <- in_world (get_odk_form odk_central) ;;
  listed <- request (ListAppUsers project project_id) ;;
  users <- py_iter listed ;;
  collect_submissions xform project_id users [].

(** The credentials of [upload_xform_media]: from the dict (of strings)
    when it is given and not empty, else from the process
    configuration. *)
Definition media_credentials (odk_credentials : option (list (string * string)))
  : M Client :=
  match odk_credentials with
  | Some ((_ :: _) as d) =>
      url <- str_subscript d "odk_central_url" ;;
      user <- str_subscript d "odk_central_user" ;;
      pw <- str_subscript d "odk_central_password" ;;
      ret (mkClient OdkForm url user pw)
  | _ =>
      log Debug "ODKCentral connection variables not set in function" ;;;
      log Debug "Attempting extraction from environment variables" ;;;
      ret (mkClient OdkForm (ODK_CENTRAL_URL settings)
             (ODK_CENTRAL_USER settings) (ODK_CENTRAL_PASSWD settings))
  end.

Definition upload_xform_media (project_id : Z) (xform_id : string)
    (filespec : string) (odk_credentials : option (list (string * string)))
  : ST Session PyVal :=
  let title := media_title filespec in
  xform <- in_world (media_credentials odk_credentials) ;;
  in_world
    (try_except
       (call (Connect xform) ;;; ret tt)
       (fun e => log Error (str_exn e) ;;; raise connection_failed)) ;;;
  request (UploadMediaFile xform project_id title filespec) ;;;
  result <- in_world (call (PublishForm xform project_id title)) ;;
  ret result.

End MoreCentral.

(** The record of the request for the submissions of [user], answered
    with something a loop can visit. *)
Definition listed_for `{Unicode} (xform : Client) (project_id : Z)
    (user : PyVal) (ev : Request * Outcome PyVal) : Prop :=
  exists name a l,
    display_name user = Returned name
    /\ ev = (ListSubmissions xform project_id name, Returned a)
    /\ iterate a = Some l.

(** What [list_projects] answers when the server lists nothing. *)
Definition no_projects_found : Response :=
  Plain (PyDict [("message", PyStr "No projects found")]).

(** The keys [upload_xform_media] reads from a dict of credentials. *)
Definition credential_keys : list string :=
  ["odk_central_url"; "odk_central_user"; "odk_central_password"].
(** * Concrete environments

    Small worlds and oracles on which the functions are run. *)

Definition demo_runtime : Runtime :=
  {| str_exn := fun e =>
       match e with
       | HTTPException code (PyStr d) => pretty code +:+ ": " +:+ d
       | HTTPException code _ => pretty code
       | PyExn _ m => m
       end;
     str_val := fun _ => "<value>";
     utf8_decode := Some;
     settings := mkSettings "https://odk.example.org" "admin" "secret" |}.

Definition empty_world : World := mkWorld ∅ ∅ [] [].

(** The form client these settings give. *)
Definition demo_form_client : Client :=
  mkClient OdkForm "https://odk.example.org" "admin" "secret".

(** A server on which every call answers [code]. *)
Definition answering (code : Z) : OdkCentral :=
  {| remote := fun _ _ => Returned (PyInt code) |}.

(** A server that answers [code] to [createForm] and 200 to the rest. *)
Definition create_form_answers (code : Z) : OdkCentral :=
  {| remote := fun _ c =>
       match c with
       | CreateForm _ _ _ _ _ => Returned (PyInt code)
       | _ => Returned (PyInt 200)
       end |}.

(** A server whose media upload fails. *)
Definition upload_fails : OdkCentral :=
  {| remote := fun _ c =>
       match c with
       | UploadMedia _ _ _ _ _ =>
           Raised (PyExn "ConnectionError" "upload failed")
       | _ => Returned (PyInt 200)
       end |}.

(** A server that rejects the credentials inside a successful response
    to [createProject]. *)
Definition auth_rejecting : OdkCentral :=
  {| remote := fun _ c =>
       match c with
       | CreateProject _ _ =>
           Returned
             (PyDict
                [("message",
                  PyStr
                    "Could not authenticate with the provided credentials.");
                 ("code", PyFloat 401.2%float)])
       | _ => Returned PyNone
       end |}.

(** A server that cannot be reached. *)
Definition unreachable : OdkCentral :=
  {| remote := fun _ _ => Raised (PyExn "ConnectionError" "unreachable") |}.

(** A form as [pyxform] writes it: a primary instance holding the [data]
    element, a geojson data extract, a csv attachment. *)
Definition example_primary_instance : Element :=
  mkElement (qname "xforms" "instance") [] None None
    [mkElement (qname "xforms" "data") [("id", "survey"); ("version", "v1")]
       None None
       [mkElement (qname "xforms" "building") [] None None [];
        mkElement (qname "xforms" "status") [] None None []]].

Definition example_geojson_instance : Element :=
  mkElement (qname "xforms" "instance")
    [("id", "features"); ("src", "jr://file/features.geojson")] None None [].

Definition example_csv_instance : Element :=
  mkElement (qname "xforms" "instance")
    [("id", "towns"); ("src", "jr://file-csv/towns.csv")] None None [].

Definition example_model : Element :=
  mkElement (qname "xforms" "model") [] None None
    [example_primary_instance; example_geojson_instance; example_csv_instance;
     mkElement (qname "xforms" "bind")
       [("nodeset", "/data/building"); ("type", "string")] None None []].

Definition example_head : Element :=
  mkElement (qname "h" "head") [] None None
    [mkElement (qname "h" "title") [] (Some "survey") None []; example_model].

Definition example_form : Element :=
  mkElement (qname "h" "html") [] None None
    [example_head; mkElement (qname "h" "body") [] None None []].

(** The feature a structured record holds. *)
Definition open_record (e : PyVal) : Feature :=
  match e with PyDict d => d | _ => [] end.

(** A converter library whose records are already structured: [parse]
    gives [file_batch] for the file and [data_batch] for a payload, and
    [createEntry] opens the record. *)
Definition csv_lib (file_batch data_batch : list PyVal) (epdb : bool)
  : CSVDumpLib :=
  {| parse := fun _ data =>
       match data with None => file_batch | Some _ => data_batch end;
     createEntry := open_record;
     epdb_installed := epdb |}.

Definition building_record : PyVal :=
  PyDict [("attrs", PyDict [("id", PyStr "-1"); ("lat", PyStr "27.70");
                            ("lon", PyStr "85.32")]);
          ("tags", PyDict [("building", PyStr "yes")])].

Definition school_record : PyVal :=
  PyDict [("attrs", PyDict [("id", PyStr "-2"); ("lat", PyStr "27.71");
                            ("lon", PyStr "85.33")]);
          ("tags", PyDict [("amenity", PyStr "school")])].

(** Tags, but no coordinates. *)
Definition no_coordinates_record : PyVal :=
  PyDict [("attrs", PyDict [("id", PyStr "-3")]);
          ("tags", PyDict [("building", PyStr "yes")])].

(** No tag set. *)
Definition no_tags_record : PyVal :=
  PyDict [("private", PyDict [("email", PyStr "a@example.org")])].

Definition empty_record : PyVal := PyDict [].

(** Form libraries for the examples: the conversion wraps the content of
    the workbook it is given and fails on an empty one; the parser knows
    one document, [example_form]. *)
Definition demo_form_libs : FormLibs :=
  {| xls2xform_convert := fun w p =>
       match files w !! p with
       | Some content =>
           if String.eqb content ""
           then Raised (PyExn "PyXFormError" "empty workbook")
           else Returned ("<xform:" +:+ content +:+ ">")
       | None => Raised (PyExn "FileNotFoundError" p)
       end;
     fromstring := fun data =>
       if String.eqb data "<xform:survey>" then Returned example_form
       else Raised (PyExn "ParseError" "syntax error");
     tostring := fun _ => "<xform/>" |}.

(** A machine with a [/tmp] directory. *)
Definition tmp_world : World := mkWorld ∅ {["/"; "/tmp"]} [] [].

(** ** Further environments *)

(** A runtime for which no payload decodes. *)
Definition undecodable_runtime : Runtime :=
  {| str_exn := fun e =>
       match e with
       | HTTPException code _ => pretty code
       | PyExn _ m => m
       end;
     str_val := fun _ => "<value>";
     utf8_decode := fun _ => None;
     settings := mkSettings "https://odk.example.org" "admin" "secret" |}.

(** A machine with a [/tmp] directory that holds a file of notes. *)
Definition kept_world : World :=
  mkWorld {["/tmp/notes.txt" := "keep"]} {["/"; "/tmp"]} [] [].

(** A machine with a workbook to convert. *)
Definition workbook_world : World :=
  mkWorld {["/tmp/in.xlsx" := "survey"]} {["/"; "/tmp"]} [] [].

(** A machine whose input is no form, with an output of an earlier
    run. *)
Definition unparsable_world : World :=
  mkWorld {["/tmp/in.xlsx" := "survey"; "/tmp/form-42.xml" := "<old/>"]}
    {["/"; "/tmp"]} [] [].

(** Form libraries whose conversion writes nothing. *)
Definition blank_form_libs : FormLibs :=
  {| xls2xform_convert := fun _ _ => Returned "";
     fromstring := fun _ => Raised (PyExn "ParseError" "no element found");
     tostring := fun _ => "" |}.

(** Form libraries that read back what they wrote: one document, the
    rewritten [example_form]. *)
Definition round_trip_form_libs : FormLibs :=
  {| xls2xform_convert := fun _ _ => Returned "<rewritten/>";
     fromstring := fun _ =>
       Returned (rewrite_bindings "/tmp/form-42.xml" "buildings" example_form);
     tostring := fun _ => "<rewritten/>" |}.

(** A machine on which [/tmp/form-42.xml] was written by the
    transformer. *)
Definition rewritten_world : World :=
  mkWorld {["/tmp/form-42.xml" := "<rewritten/>"]} {["/"; "/tmp"]} [] [].

(** Characters of a text of one-byte characters. *)
Definition ascii_unicode : Unicode :=
  {| characters := fun s =>
       map (fun a => String a EmptyString) (list_ascii_of_string s) |}.

(** A server with the app users [users]; [alice] has two submissions,
    everybody else one. *)
Definition submissions_server (users : list PyVal) : OdkCentralMore :=
  {| answer := fun _ r =>
       match r with
       | ListProjects _ => Returned (PyList [])
       | ListAppUsers _ _ => Returned (PyList users)
       | ListSubmissions _ _ (PyStr name) =>
           if String.eqb name "alice"
           then Returned (PyList [PyStr "a-1"; PyStr "a-2"])
           else Returned (PyList [PyStr (name +:+ "-1")])
       | ListSubmissions _ _ _ => Returned (PyList [])
       | UploadMediaFile _ _ _ _ => Returned PyNone
       end |}.

Definition alice : PyVal := PyDict [("id", PyInt 1); ("displayName", PyStr "alice")].
Definition bob : PyVal := PyDict [("id", PyInt 2); ("displayName", PyStr "bob")].
Definition nameless : PyVal := PyDict [("id", PyInt 3)].

Definition empty_session : Session := mkSession empty_world [].

(** * The claims the code departs from, as the specification words them *)

(** The run of [create_odk_xform] on which the upload fails. *)
Definition upload_failure_run : Outcome PyVal * World :=
  @create_odk_xform demo_runtime upload_fails 7 "/tmp/form-42.xml"
    "buildings" "{}" None false true empty_world.

(** C1 as the specification words it: once the upload has been called,
    the staged file is gone when [create_odk_xform] completes, however
    the upload ended. *)
Definition cleaned_up_in_every_case : Prop :=
  forall (RT : Runtime) (ODK : OdkCentral)
    (odk_id : Z) (xform_path xform_category feature_geojson : string)
    (odk_credentials : option ODKCentralDecrypted)
    (create_draft convert_to_draft_when_publishing : bool) (w : World),
    let run :=
      create_odk_xform odk_id xform_path xform_category feature_geojson
        odk_credentials create_draft convert_to_draft_when_publishing w in
    let p := geojson_path_of odk_id xform_category in
    (exists c out,
        (UploadMedia c odk_id (path_stem xform_path) p
           convert_to_draft_when_publishing, out)
        ∈ new_events w (snd run)) ->
    files (snd run) !! p = None.

(** C7 as the specification words it: every populated record of the
    batch that [convert_csv] parses is in both outputs. *)
Definition every_populated_record_is_written : Prop :=
  forall (RT : Runtime) (CSV : CSVDumpLib) (filespec data : string)
    (entry : PyVal),
    entry ∈ parse filespec
              (if (String.length data =? 0)%nat then None else Some data) ->
    populated (createEntry entry) = true ->
    createEntry entry ∈ osm_out (snd (convert_csv filespec data))
    /\ createEntry entry ∈ geojson_out (snd (convert_csv filespec data)).

(** * Facts about text *)

Lemma append_cons (a : ascii) (s t : string) :
  String a s +:+ t = String a (s +:+ t).
Proof. reflexivity. Qed.

Lemma string_length_append (s t : string) :
  String.length (s +:+ t) = (String.length s + String.length t)%nat.
Proof.
  induction s as [|a s IH]; [reflexivity|].
  rewrite append_cons. cbn. now rewrite IH.
Qed.

Lemma prefixed_name_differs (name : string) : "FMTM " +:+ name <> name.
Proof.
  intros E. apply (f_equal String.length) in E.
  rewrite string_length_append in E. cbn in E. lia.
Qed.

(** * Proof steps shared by the runs *)

Lemma new_events_app (w w' : World) (evs : list (Call * Outcome PyVal)) :
  trace w' = trace w ++ evs -> new_events w w' = evs.
Proof.
  intros E. unfold new_events. rewrite E. apply drop_app_length.
Qed.

Ltac trace_of Ht :=
  cbn [trace files dirs add_log add_event set_files set_dirs];
  rewrite Ht, <- ?app_assoc; reflexivity.

Ltac in_events :=
  solve
    [ intros; cbn [app] in *;
      repeat match goal with
        | H : _ ∈ _ :: _ |- _ => apply elem_of_cons in H; destruct H as [H|H]
        | H : _ ∈ [] |- _ => apply elem_of_nil in H; destruct H
        | H : (_, _) = (_, _) |- _ => inversion H; clear H; subst
        end;
      first [ discriminate | reflexivity | eexists; repeat constructor ] ].

Ltac world_simpl :=
  cbn [trace files dirs logs add_log add_event set_files set_dirs fst snd].

Ltac raised_early :=
  left; split; [ reflexivity | eexists; reflexivity ].

Ltac case_remote :=
  cbv zeta;
  match goal with
  | |- context [remote ?x ?y] => destruct (remote x y) eqn:?
  end.

Lemma append_nil_r (s : string) : s +:+ "" = s.
Proof.
  induction s as [|a s IH]; [reflexivity|]. now rewrite append_cons, IH.
Qed.

Lemma append_snoc (s t : string) (a : ascii) :
  (s +:+ String a "") +:+ t = s +:+ String a t.
Proof.
  induction s as [|b s IH]; [reflexivity|]. now rewrite !append_cons, IH.
Qed.

(** The chain of a directory ends with the directory. *)
Lemma dir_chain_last (acc s : string) : acc +:+ s ∈ dir_chain acc s.
Proof.
  revert acc. induction s as [|a s IH]; intros acc; cbn [dir_chain].
  - rewrite append_nil_r. apply list_elem_of_here.
  - destruct (Ascii.eqb a "/") eqn:Ha.
    + apply Ascii.eqb_eq in Ha as ->. apply list_elem_of_further.
      rewrite <- append_snoc. apply IH.
    + rewrite <- append_snoc. apply IH.
Qed.

Lemma dir_chain_self (d : string) : d ∈ dir_chain "" d.
Proof. exact (dir_chain_last "" d). Qed.

(** * Properties of the remote operations *)

Section CentralFacts.
Context `{RT : Runtime} `{ODK : OdkCentral}.

Lemma connect_world_trace kind odk_central w :
  trace (connect_world kind odk_central w) = trace w.
Proof. destruct odk_central; reflexivity. Qed.

Lemma connect_world_files kind odk_central w :
  files (connect_world kind odk_central w) = files w.
Proof. destruct odk_central; reflexivity. Qed.

Lemma connect_world_dirs kind odk_central w :
  dirs (connect_world kind odk_central w) = dirs w.
Proof. destruct odk_central; reflexivity. Qed.

(** How [odk_client] runs: one [Connect] call, whose failure is turned
    into a 500. *)
Lemma odk_client_run kind odk_central w :
  let c := credentials kind odk_central in
  let w0 := connect_world kind odk_central w in
  odk_client kind odk_central w =
    match remote w0 (Connect c) with
    | Returned v => (Returned c, add_event w0 (Connect c, Returned v))
    | Raised e =>
        (Raised (HTTPException 500
                   (PyStr ("Error creating project on ODK Central: "
                             +:+ str_exn e))),
         add_log (add_event w0 (Connect c, Raised e)) (Error, str_exn e))
    end.
Proof.
  unfold odk_client, connect_world.
  destruct odk_central as [oc|]; cbn;
    unfold bind, try_except, call, log, ret, raise; cbn;
    match goal with |- context [remote ?x ?y] => destruct (remote x y) end;
    reflexivity.
Qed.

Ltac run_monad :=
  unfold bind, try_except, call, log, ret, raise; cbn.

(** How [create_odk_project] runs. *)
Lemma create_odk_project_run name odk_central w :
  let c := credentials OdkProject odk_central in
  let w0 := connect_world OdkProject odk_central w in
  create_odk_project name odk_central w =
    match remote w0 (Connect c) with
    | Raised e =>
        (Raised (creation_error e),
         add_log (add_event w0 (Connect c, Raised e)) (Error, str_exn e))
    | Returned v =>
        let w1 :=
          add_log (add_event w0 (Connect c, Returned v))
            (Debug, "Attempting ODKCentral project creation: FMTM "
                      +:+ name) in
        let sent := CreateProject c ("FMTM " +:+ name) in
        match remote w1 sent with
        | Raised e =>
            (Raised (creation_error e),
             add_log (add_event w1 (sent, Raised e)) (Error, str_exn e))
        | Returned result =>
            let w2 := add_event w1 (sent, Returned result) in
            if (is_dict result && py_eq_401_2 (dict_get result "code"))%bool
            then (Raised (creation_error authentication_failure),
                  add_log w2 (Error, str_exn authentication_failure))
            else (Returned result,
                  add_log
                    (add_log w2
                       (Debug, "ODKCentral response: " +:+ str_val result))
                    (Info, "Project " +:+ name
                             +:+ " available on the ODK Central server."))
        end
    end.
Proof.
  cbv zeta. unfold create_odk_project, get_odk_project.
  unfold bind at 1. rewrite odk_client_run.
  case_remote; [|reflexivity].
  run_monad. case_remote; [|reflexivity].
  destruct (is_dict a0 && py_eq_401_2 (dict_get a0 "code"))%bool; reflexivity.
Qed.

(** C9. Whatever name the caller gives, what [create_odk_project]
    sends is "FMTM " followed by the name, never the bare name: the run
    opens one connection with the project client and, as soon as that
    connection is established, makes one [createProject] call, which
    carries the prefixed name; no call carries the name as given. *)
Theorem create_odk_project_sends_prefixed_name
    (name : string) (odk_central : option ODKCentralDecrypted) (w : World) :
  let run := create_odk_project name odk_central w in
  let project := credentials OdkProject odk_central in
  let evs := new_events w (snd run) in
  "FMTM " +:+ name <> name
  /\ ((exists e, evs = [(Connect project, Raised e)])
      \/ (exists v out,
             evs = [(Connect project, Returned v);
                    (CreateProject project ("FMTM " +:+ name), out)]))
  /\ (forall c out, (CreateProject c name, out) ∉ evs).
Proof.
  cbv zeta. pose proof (prefixed_name_differs name) as Hne.
  split; [exact Hne|].
  rewrite create_odk_project_run.
  pose proof (connect_world_trace OdkProject odk_central w) as Ht.
  cbv zeta.
  destruct (remote _ (Connect _)) as [v|e].
  - assert (Hshape : forall w' out,
              trace w' = trace w
                         ++ [(Connect (credentials OdkProject odk_central),
                              Returned v);
                             (CreateProject
                                (credentials OdkProject odk_central)
                                ("FMTM " +:+ name), out)] ->
              ((exists e, new_events w w'
                          = [(Connect (credentials OdkProject odk_central),
                              Raised e)])
               \/ (exists v0 out0,
                      new_events w w'
                      = [(Connect (credentials OdkProject odk_central),
                          Returned v0);
                         (CreateProject (credentials OdkProject odk_central)
                            ("FMTM " +:+ name), out0)]))
              /\ (forall c out0, (CreateProject c name, out0)
                                 ∉ new_events w w')).
    { intros w' out Hw'. rewrite (new_events_app _ _ _ Hw'). split.
      - right. exists v, out. reflexivity.
      - intros c out0 Hin.
        apply elem_of_cons in Hin as [Hin|Hin]; [discriminate|].
        apply elem_of_cons in Hin as [Hin|Hin].
        + injection Hin as _ Hname _. now apply Hne.
        + now apply elem_of_nil in Hin. }
    destruct (remote _ (CreateProject _ _)) as [result|e].
    + destruct (is_dict result && py_eq_401_2 (dict_get result "code"))%bool;
        cbn [snd]; apply (Hshape _ (Returned result)); trace_of Ht.
    + cbn [snd]. apply (Hshape _ (Raised e)). trace_of Ht.
  - cbn [snd]. erewrite new_events_app; [|trace_of Ht]. split.
    + left. exists e. reflexivity.
    + intros c out Hin.
      apply elem_of_cons in Hin as [Hin|Hin]; [discriminate|].
      now apply elem_of_nil in Hin.
Qed.

(** [delete_odk_project] returns; what it returns is decided by the
    two remote steps. *)
Lemma delete_odk_project_run project_id odk_central w :
  let c := credentials OdkProject odk_central in
  let w0 := connect_world OdkProject odk_central w in
  let soft := PyStr "Could not delete project from central odk" in
  delete_odk_project project_id odk_central w =
    match remote w0 (Connect c) with
    | Raised e =>
        (Returned soft,
         add_log (add_event w0 (Connect c, Raised e)) (Error, str_exn e))
    | Returned v =>
        let w1 := add_event w0 (Connect c, Returned v) in
        match remote w1 (DeleteProject c project_id) with
        | Raised e =>
            (Returned soft,
             add_event w1 (DeleteProject c project_id, Raised e))
        | Returned result =>
            (Returned result,
             add_log
               (add_event w1 (DeleteProject c project_id, Returned result))
               (Info, "Project " +:+ pretty project_id
                        +:+ " has been deleted from the ODK Central server."))
        end
    end.
Proof.
  cbv zeta. unfold delete_odk_project, get_odk_project.
  unfold try_except at 1, bind at 1. rewrite odk_client_run.
  case_remote; [|reflexivity].
  run_monad. case_remote; reflexivity.
Qed.

(** C8. [delete_odk_project] never raises.  It connects with the
    project client and, when the connection is established, makes the
    [deleteProject] call for the project: a connection or a deletion
    that raises gives the soft-failure text, a deletion that returns
    gives the server's result. *)
Theorem delete_odk_project_never_raises
    (project_id : Z) (odk_central : option ODKCentralDecrypted) (w : World) :
  let run := delete_odk_project project_id odk_central w in
  let project := credentials OdkProject odk_central in
  let evs := new_events w (snd run) in
  let soft := PyStr "Could not delete project from central odk" in
  (exists e,
      evs = [(Connect project, Raised e)] /\ fst run = Returned soft)
  \/ (exists v e,
         evs = [(Connect project, Returned v);
                (DeleteProject project project_id, Raised e)]
         /\ fst run = Returned soft)
  \/ (exists v result,
         evs = [(Connect project, Returned v);
                (DeleteProject project project_id, Returned result)]
         /\ fst run = Returned result).
Proof.
  cbv zeta. rewrite delete_odk_project_run.
  pose proof (connect_world_trace OdkProject odk_central w) as Ht.
  cbv zeta.
  destruct (remote _ (Connect _)) as [v|e].
  - destruct (remote _ (DeleteProject _ _)) as [result|e]; cbn [fst snd].
    + right. right. exists v, result. split; [|reflexivity].
      apply new_events_app. trace_of Ht.
    + right. left. exists v, e. split; [|reflexivity].
      apply new_events_app. trace_of Ht.
  - cbn [fst snd]. left. exists e. split; [|reflexivity].
    apply new_events_app. trace_of Ht.
Qed.

(** How the first two steps of [create_odk_xform] run. *)
Lemma create_form_step_run odk_id xform_path odk_credentials create_draft w :
  let c := credentials OdkForm odk_credentials in
  let w0 := connect_world OdkForm odk_credentials w in
  let sent := CreateForm c odk_id (path_stem xform_path) xform_path
                create_draft in
  create_form_step odk_id xform_path odk_credentials create_draft w =
    match remote w0 (Connect c) with
    | Raised e =>
        (Raised (HTTPException 500
                   (PyDict [("message",
                             PyStr "Connection failed to odk central")])),
         add_log
           (add_log (add_event w0 (Connect c, Raised e)) (Error, str_exn e))
           (Error, str_exn (creation_error e)))
    | Returned v =>
        let w1 := add_event w0 (Connect c, Returned v) in
        match remote w1 sent with
        | Returned result =>
            (Returned (c, result), add_event w1 (sent, Returned result))
        | Raised e => (Raised e, add_event w1 (sent, Raised e))
        end
    end.
Proof.
  cbv zeta. unfold create_form_step, get_odk_form.
  unfold bind at 1, try_except at 1. rewrite odk_client_run.
  destruct (remote _ (Connect _)); [|reflexivity].
  unfold bind, call, ret; cbn.
  destruct (remote _ _); reflexivity.
Qed.

(** The first two steps leave the local files alone and make exactly
    the two calls [Connect] and [createForm]. *)
Lemma create_form_step_returned odk_id xform_path odk_credentials
    create_draft w xform result w1 :
  create_form_step odk_id xform_path odk_credentials create_draft w
    = (Returned (xform, result), w1) ->
  xform = credentials OdkForm odk_credentials
  /\ (exists v,
        new_events w w1 =
          [(Connect xform, Returned v);
           (CreateForm xform odk_id (path_stem xform_path) xform_path
              create_draft, Returned result)])
  /\ files w1 = files w /\ dirs w1 = dirs w.
Proof.
  rewrite create_form_step_run. cbv zeta.
  pose proof (connect_world_trace OdkForm odk_credentials w) as Ht.
  pose proof (connect_world_files OdkForm odk_credentials w) as Hf.
  pose proof (connect_world_dirs OdkForm odk_credentials w) as Hd.
  destruct (remote _ (Connect _)) as [v|e]; [|discriminate].
  destruct (remote _ _) as [r|e]; [|discriminate].
  intros E. injection E as <- <- <-.
  split; [reflexivity|]. split; [|split; assumption].
  exists v. apply new_events_app. trace_of Ht.
Qed.

(** C2. The result of [createForm] decides how [create_odk_xform] goes
    on.  A result that is neither 200 nor 409 is returned unchanged in
    the world [createForm] left: nothing is staged, uploaded or
    published, the only calls made are [Connect] and [createForm].  On
    200 and on 409 alike, where the staging directory can be created and
    the payload decodes, the function stages the payload at the geojson
    path, uploads it while the staged file holds it, and stops there
    with the file left in place when the upload raises; when the upload
    returns it removes the staged file, publishes the form with the file
    gone, and ends as [publishForm] ends. *)
Theorem create_odk_xform_result_decides
    (odk_id : Z) (xform_path xform_category feature_geojson : string)
    (odk_credentials : option ODKCentralDecrypted)
    (create_draft convert_to_draft_when_publishing : bool)
    (w w1 : World) (xform : Client) (result : PyVal) :
  create_form_step odk_id xform_path odk_credentials create_draft w
    = (Returned (xform, result), w1) ->
  let run :=
    create_odk_xform odk_id xform_path xform_category feature_geojson
      odk_credentials create_draft convert_to_draft_when_publishing w in
  let p := geojson_path_of odk_id xform_category in
  let upload :=
    UploadMedia xform odk_id (path_stem xform_path) p
      convert_to_draft_when_publishing in
  let publish := PublishForm xform odk_id (path_stem xform_path) in
  (py_eq_int result 200 = false -> py_eq_int result 409 = false ->
     run = (Returned result, w1)
     /\ files (snd run) = files w /\ dirs (snd run) = dirs w
     /\ exists v,
          new_events w (snd run) =
            [(Connect xform, Returned v);
             (CreateForm xform odk_id (path_stem xform_path) xform_path
                create_draft, Returned result)])
  /\ (py_eq_int result 200 = true \/ py_eq_int result 409 = true ->
      forall text,
        can_stage w1 p = true ->
        utf8_decode feature_geojson = Some text ->
        exists w_up,
          trace w_up = trace w1
          /\ files w_up !! p = Some text
          /\ is_dir w_up (path_parent p) = true
          /\ match remote w_up upload with
             | Raised e =>
                 fst run = Raised e
                 /\ new_events w1 (snd run) = [(upload, Raised e)]
                 /\ files (snd run) !! p = Some text
             | Returned v =>
                 exists w_pub,
                   trace w_pub = trace w1 ++ [(upload, Returned v)]
                   /\ files w_pub !! p = None
                   /\ fst run = remote w_pub publish
                   /\ new_events w1 (snd run)
                      = [(upload, Returned v); (publish, remote w_pub publish)]
                   /\ files (snd run) !! p = None
             end).
Proof.
  intros Hstep. cbv zeta.
  assert (Hrun :
    create_odk_xform odk_id xform_path xform_category feature_geojson
      odk_credentials create_draft convert_to_draft_when_publishing w
    = if (negb (py_eq_int result 200) && negb (py_eq_int result 409))%bool
      then (Returned result, w1)
      else stage_attach_publish xform odk_id xform_path xform_category
             feature_geojson convert_to_draft_when_publishing w1).
  { unfold create_odk_xform, bind. rewrite Hstep. cbn [fst snd].
    destruct (negb _ && negb _)%bool; reflexivity. }
  rewrite Hrun.
  apply create_form_step_returned in Hstep as (_ & Hev & Hf & Hd).
  split.
  - intros H200 H409. rewrite H200, H409. cbn [negb andb snd].
    split; [reflexivity|]. split; [assumption|]. split; assumption.
  - intros Hacc text Hstage Hdec.
    assert (Hgo : (negb (py_eq_int result 200)
                   && negb (py_eq_int result 409))%bool = false).
    { destruct Hacc as [-> | ->]; [reflexivity|].
      now destruct (py_eq_int result 200). }
    rewrite Hgo. clear Hrun Hgo Hacc Hev Hf Hd.
    set (p := geojson_path_of odk_id xform_category) in *.
    unfold can_stage in Hstage. cbv zeta in Hstage.
    apply andb_prop in Hstage as [Hchain Hfree].
    apply negb_true_iff in Hchain, Hfree.
    assert (Hparent : is_file w1 (path_parent p) = false).
    { destruct (is_file w1 (path_parent p)) eqn:E; [|reflexivity].
      rewrite <- Hchain. symmetry. apply existsb_exists.
      exists (path_parent p). split; [|exact E].
      apply list_elem_of_In, dir_chain_self. }
    set (w_dirs :=
           set_dirs w1
             (list_to_set (dir_chain "" (path_parent p)) ∪ dirs w1)).
    assert (Hin : is_dir w_dirs (path_parent p) = true).
    { unfold is_dir, w_dirs. cbn [dirs set_dirs].
      apply bool_decide_eq_true. apply elem_of_union_l.
      apply elem_of_list_to_set, dir_chain_self. }
    unfold stage_attach_publish. fold p.
    unfold bind, mkdir_parents, open_write, file_write, unlink_missing_ok,
      call, ret, raise.
    rewrite Hparent, Hchain. fold w_dirs.
    assert (Hpfree : is_dir w_dirs p = false) by exact Hfree.
    rewrite Hpfree, Hin. cbn [negb]. rewrite Hdec.
    cbn [files set_files].
    set (w_up := set_files (set_files w_dirs (<[p:=""]> (files w_dirs)))
                   (<[p:=text]> (<[p:=""]> (files w_dirs)))).
    exists w_up.
    split; [reflexivity|]. split; [apply lookup_insert_eq|].
    split; [exact Hin|].
    destruct (remote w_up _) as [v|e].
    + cbn [fst snd].
      assert (Hup : is_dir (add_event w_up
                              (UploadMedia xform odk_id (path_stem xform_path)
                                 p convert_to_draft_when_publishing,
                               Returned v)) p = false) by exact Hfree.
      rewrite Hup.
      set (w_pub := set_files _ (delete p _)).
      exists w_pub.
      split; [reflexivity|]. split; [apply lookup_delete_eq|].
      split; [reflexivity|]. split.
      * apply new_events_app. subst w_pub w_up w_dirs.
        cbn [snd trace add_event set_files set_dirs].
        now rewrite <- app_assoc.
      * subst w_pub. cbn [snd files add_event set_files].
        apply lookup_delete_eq.
    + cbn [fst snd]. split; [reflexivity|]. split.
      * apply new_events_app. reflexivity.
      * subst w_up. cbn [files add_event set_files]. apply lookup_insert_eq.
Qed.

(** What [stage_attach_publish] leaves behind, by the outcome of the
    upload: the calls it made, and the staged file. *)
Lemma stage_attach_publish_upload xform odk_id xform_path xform_category
    feature_geojson convert w :
  let p := geojson_path_of odk_id xform_category in
  let run := stage_attach_publish xform odk_id xform_path xform_category
               feature_geojson convert w in
  let upload := UploadMedia xform odk_id (path_stem xform_path) p convert in
  let publish := PublishForm xform odk_id (path_stem xform_path) in
  (trace (snd run) = trace w
   /\ exists e, fst run = Raised e)
  \/ (exists e text,
        trace (snd run) = trace w ++ [(upload, Raised e)]
        /\ fst run = Raised e
        /\ utf8_decode feature_geojson = Some text
        /\ files (snd run) !! p = Some text)
  \/ (exists v out,
        trace (snd run) = trace w ++ [(upload, Returned v); (publish, out)]
        /\ fst run = out
        /\ files (snd run) !! p = None).
Proof.
  cbv zeta. unfold stage_attach_publish.
  set (p := geojson_path_of odk_id xform_category).
  unfold bind, mkdir_parents, open_write, file_write, unlink_missing_ok,
    call, ret, raise, is_dir.
  destruct (is_file _ _); [raised_early|].
  destruct (existsb _ _); [raised_early|]. world_simpl.
  destruct (bool_decide (p ∈ _)) eqn:Hdir; [raised_early|]. world_simpl.
  destruct (negb _); [raised_early|].
  destruct (utf8_decode feature_geojson) as [text|]; [|raised_early].
  world_simpl.
  destruct (remote _ (UploadMedia _ _ _ _ _)) as [v|e]; world_simpl.
  - right; right. rewrite Hdir. world_simpl.
    exists v. eexists.
    split; [now rewrite <- app_assoc|].
    split; [reflexivity|]. apply lookup_delete_eq.
  - right; left. exists e, text.
    split; [reflexivity|].
    split; [reflexivity|]. split; [reflexivity|]. apply lookup_insert_eq.
Qed.

(** C1 (as the code has it). When the media upload returns, the staged
    file [/tmp/fmtm/odk/<odk_id>/<category>.geojson] is gone once
    [create_odk_xform] completes, whether the publish step that follows
    returns or raises. *)
Theorem create_odk_xform_cleans_up_after_upload
    (odk_id : Z) (xform_path xform_category feature_geojson : string)
    (odk_credentials : option ODKCentralDecrypted)
    (create_draft convert_to_draft_when_publishing : bool) (w : World) :
  let run :=
    create_odk_xform odk_id xform_path xform_category feature_geojson
      odk_credentials create_draft convert_to_draft_when_publishing w in
  let p := geojson_path_of odk_id xform_category in
  (exists c v,
      (UploadMedia c odk_id (path_stem xform_path) p
         convert_to_draft_when_publishing, Returned v)
      ∈ new_events w (snd run)) ->
  files (snd run) !! p = None.
Proof.
  cbv zeta. unfold create_odk_xform, bind.
  rewrite create_form_step_run.
  pose proof (connect_world_trace OdkForm odk_credentials w) as Ht.
  case_remote.
  2:{ cbn [snd]. erewrite new_events_app; [|trace_of Ht].
      intros (c & v & Hin). exfalso. revert Hin. in_events. }
  case_remote.
  2:{ cbn [snd]. erewrite new_events_app; [|trace_of Ht].
      intros (c & v & Hin). exfalso. revert Hin. in_events. }
  cbn [fst snd].
  destruct (negb _ && negb _)%bool.
  { cbn [snd ret]. erewrite new_events_app; [|trace_of Ht].
    intros (c & v & Hin). exfalso. revert Hin. in_events. }
  match goal with
  | |- context [stage_attach_publish ?x ?i ?xp ?cat ?g ?cv ?w1] =>
      destruct (stage_attach_publish_upload x i xp cat g cv w1)
        as [(Htr & _) | [(e & text & Htr & _) | (v & out & Htr & _ & Hgone)]]
  end.
  - erewrite new_events_app; [|rewrite Htr; trace_of Ht].
    intros (c & v & Hin). exfalso. revert Hin. in_events.
  - erewrite new_events_app; [|rewrite Htr; trace_of Ht].
    intros (c & v & Hin). exfalso. revert Hin. in_events.
  - intros _. exact Hgone.
Qed.
End CentralFacts.

Section AuthenticationFailure.
Context `{RT : Runtime}.

(** C5 (the behaviour of the code). When the server answers
    [createProject] with a body carrying the code 401.2, the explicit
    authentication failure raised inside the [try] block is caught by
    its own [except Exception] clause: what reaches the caller is the
    generic creation error wrapped around it, never the authentication
    failure itself. *)
Theorem create_odk_project_auth_failure_is_wrapped
    (name : string) (odk_central : option ODKCentralDecrypted) (w : World) :
  let run := @create_odk_project RT auth_rejecting name odk_central w in
  fst run = Raised (creation_error authentication_failure)
  /\ fst run <> Raised authentication_failure.
Proof.
  cbv zeta.
  assert (E : fst (@create_odk_project RT auth_rejecting name odk_central w)
              = Raised (creation_error authentication_failure)).
  { rewrite (@create_odk_project_run RT auth_rejecting). reflexivity. }
  split; [exact E|].
  rewrite E. unfold creation_error, authentication_failure.
  intros H. injection H as H. discriminate H.
Qed.
End AuthenticationFailure.

(** * The remote operations on concrete servers *)

Example path_examples :
  path_stem "/tmp/form-42.xml" = "form-42"
  /\ path_stem "survey.tar.gz" = "survey.tar"
  /\ path_stem "/home/user/.bashrc" = ".bashrc"
  /\ path_parent "/tmp/fmtm/odk/7/buildings.geojson" = "/tmp/fmtm/odk/7"
  /\ geojson_path_of 7 "buildings" = "/tmp/fmtm/odk/7/buildings.geojson".
Proof. repeat split; reflexivity. Qed.

(** What [pathlib] makes of a text. *)
Example path_str_examples :
  path_str "a//b/./c/" = "a/b/c"
  /\ path_str "/tmp/../x" = "/tmp/../x"
  /\ path_str "//x" = "//x"
  /\ path_str "///x" = "/x"
  /\ path_str "" = "."
  /\ path_name "a/b.xml/" = "b.xml"
  /\ path_name "." = ""
  /\ path_stem "a/b.xml/" = "b"
  /\ geojson_path_of 7 "roads//minor" = "/tmp/fmtm/odk/7/roads/minor.geojson"
  /\ geojson_path_of 7 "../8/roads" = "/tmp/fmtm/odk/7/../8/roads.geojson".
Proof. repeat split; reflexivity. Qed.

Example py_eq_examples :
  py_eq_int (PyInt 409) 409 = true
  /\ py_eq_int (PyFloat 200%float) 200 = true
  /\ py_eq_int (PyStr "200") 200 = false
  /\ py_eq_401_2 (PyFloat 401.2%float) = true
  /\ py_eq_401_2 (PyInt 401) = false.
Proof. repeat split; reflexivity. Qed.

(** One project creation against a server that accepts it. *)
Example create_odk_project_accepted :
  let run := @create_odk_project demo_runtime (answering 200) "Kathmandu" None
               empty_world in
  let c := mkClient OdkProject "https://odk.example.org" "admin" "secret" in
  fst run = Returned (PyInt 200)
  /\ new_events empty_world (snd run)
     = [(Connect c, Returned (PyInt 200));
        (CreateProject c "FMTM Kathmandu", Returned (PyInt 200))].
Proof. vm_compute. split; reflexivity. Qed.

(** Deleting a project on a server that answers, and on one that cannot
    be reached. *)
Example delete_odk_project_runs :
  fst (@delete_odk_project demo_runtime (answering 200) 3 None empty_world)
  = Returned (PyInt 200)
  /\ fst (@delete_odk_project demo_runtime unreachable 3 None empty_world)
     = Returned (PyStr "Could not delete project from central odk").
Proof. vm_compute. split; reflexivity. Qed.

(** What that run does: the upload is called, raises, and the file it
    was given is still on disk. *)
Lemma upload_failure_run_facts :
  fst upload_failure_run = Raised (PyExn "ConnectionError" "upload failed")
  /\ new_events empty_world (snd upload_failure_run) =
       [(Connect demo_form_client, Returned (PyInt 200));
        (CreateForm demo_form_client 7 "form-42" "/tmp/form-42.xml" false,
         Returned (PyInt 200));
        (UploadMedia demo_form_client 7 "form-42"
           "/tmp/fmtm/odk/7/buildings.geojson" true,
         Raised (PyExn "ConnectionError" "upload failed"))]
  /\ files (snd upload_failure_run) !! "/tmp/fmtm/odk/7/buildings.geojson"
     = Some "{}".
Proof. vm_compute. repeat split. Qed.

(** C1 fails as stated: on a server whose media upload raises, the
    exception leaves [create_odk_xform] before the [unlink], and the
    staged file [/tmp/fmtm/odk/7/buildings.geojson] is still there. *)
Lemma create_odk_xform_keeps_file_when_upload_raises :
  ~ cleaned_up_in_every_case.
Proof.
  intros H.
  specialize (H demo_runtime upload_fails 7 "/tmp/form-42.xml" "buildings"
                "{}" None false true empty_world).
  cbv zeta in H.
  destruct upload_failure_run_facts as (_ & Hev & Hfile).
  fold upload_failure_run in H.
  change (geojson_path_of 7 "buildings")
    with "/tmp/fmtm/odk/7/buildings.geojson" in H.
  change (path_stem "/tmp/form-42.xml") with "form-42" in H.
  rewrite Hev, Hfile in H.
  assert (Some "{}" = @None string) as Hno; [|discriminate Hno].
  apply H. do 2 eexists. do 2 apply list_elem_of_further.
  apply list_elem_of_here.
Qed.

(** On a server that answers every call the staged file is gone at the
    end. *)
Lemma create_odk_xform_cleans_up_after_upload_witness :
  files
    (snd (@create_odk_xform demo_runtime (answering 200) 7 "/tmp/form-42.xml"
            "buildings" "{}" None false true empty_world))
    !! "/tmp/fmtm/odk/7/buildings.geojson" = None.
Proof.
  apply (@create_odk_xform_cleans_up_after_upload demo_runtime (answering 200)
           7 "/tmp/form-42.xml" "buildings" "{}" None false true empty_world).
  exists demo_form_client,
    (PyInt 200).
  vm_compute. do 2 apply list_elem_of_further. apply list_elem_of_here.
Defined.

(** A 404 from [createForm] comes back as it is; after a 409 the
    payload is uploaded and the form published. *)
Lemma create_odk_xform_result_decides_witness :
  let w404 :=
    snd (@create_form_step demo_runtime (create_form_answers 404) 7
           "/tmp/form-42.xml" None false empty_world) in
  let w409 :=
    snd (@create_form_step demo_runtime (create_form_answers 409) 7
           "/tmp/form-42.xml" None false empty_world) in
  let run :=
    @create_odk_xform demo_runtime (create_form_answers 409) 7
      "/tmp/form-42.xml" "buildings" "{}" None false true empty_world in
  @create_odk_xform demo_runtime (create_form_answers 404) 7
      "/tmp/form-42.xml" "buildings" "{}" None false true empty_world
    = (Returned (PyInt 404), w404)
  /\ fst run = Returned (PyInt 200)
  /\ new_events w409 (snd run)
     = [(UploadMedia demo_form_client 7 "form-42"
           "/tmp/fmtm/odk/7/buildings.geojson" true, Returned (PyInt 200));
        (PublishForm demo_form_client 7 "form-42", Returned (PyInt 200))]
  /\ files (snd run) !! "/tmp/fmtm/odk/7/buildings.geojson" = None.
Proof.
  cbv zeta. split.
  - refine (proj1 (proj1
      (@create_odk_xform_result_decides demo_runtime (create_form_answers 404)
         7 "/tmp/form-42.xml" "buildings" "{}" None false true empty_world
         _ demo_form_client
         (PyInt 404) _) eq_refl eq_refl)).
    vm_compute. reflexivity.
  - destruct (proj2
      (@create_odk_xform_result_decides demo_runtime (create_form_answers 409)
         7 "/tmp/form-42.xml" "buildings" "{}" None false true empty_world
         (snd (@create_form_step demo_runtime (create_form_answers 409) 7
                 "/tmp/form-42.xml" None false empty_world))
         demo_form_client (PyInt 409) eq_refl)
      (or_intror eq_refl) "{}" eq_refl eq_refl)
      as (w_up & _ & _ & _ & w_pub & _ & _ & Hret & Hev & Hgone).
    split; [exact Hret|]. split; [exact Hev|exact Hgone].
Defined.

(** On a server that accepts the project, the call made carries
    [FMTM Kathmandu]. *)
Lemma create_odk_project_sends_prefixed_name_witness :
  let run := @create_odk_project demo_runtime (answering 200) "Kathmandu" None
               empty_world in
  let project := @credentials demo_runtime OdkProject None in
  exists v out,
    new_events empty_world (snd run)
    = [(Connect project, Returned v);
       (CreateProject project "FMTM Kathmandu", out)].
Proof.
  cbv zeta.
  destruct (@create_odk_project_sends_prefixed_name demo_runtime
              (answering 200) "Kathmandu" None empty_world)
    as (_ & [[e He] | Hsent] & _).
  - vm_compute in He. discriminate He.
  - exact Hsent.
Defined.

(** On a server that cannot be reached the deletion gives the
    soft-failure text. *)
Lemma delete_odk_project_never_raises_witness :
  fst (@delete_odk_project demo_runtime unreachable 3 None empty_world)
  = Returned (PyStr "Could not delete project from central odk").
Proof.
  destruct (@delete_odk_project_never_raises demo_runtime unreachable 3 None
              empty_world)
    as [(e & _ & Hret) | [(v & e & _ & Hret) | (v & result & Hev & _)]].
  - exact Hret.
  - exact Hret.
  - vm_compute in Hev. discriminate Hev.
Defined.

(** * Properties of the rewriting of a form *)

Lemma endswith_app (a b suffix : string) :
  endswith b suffix = true -> endswith (a +:+ b) suffix = true.
Proof.
  intros Hb. induction a as [|c a IH]; [exact Hb|].
  rewrite append_cons. cbn [endswith].
  destruct (String.eqb _ suffix); [reflexivity|exact IH].
Qed.

Lemma endswith_refl (s : string) : endswith s s = true.
Proof. destruct s; cbn [endswith]; now rewrite String.eqb_refl. Qed.

Lemma assoc_get_set {A : Type} (k : string) (v : A) (d : list (string * A)) :
  assoc_get k (assoc_set k v d) = Some v.
Proof.
  induction d as [|[k' v'] d IH]; cbn.
  - now rewrite String.eqb_refl.
  - destruct (String.eqb k k') eqn:E; cbn; rewrite E; [reflexivity|exact IH].
Qed.

Lemma assoc_set_set {A : Type} (k : string) (v : A) (d : list (string * A)) :
  assoc_set k v (assoc_set k v d) = assoc_set k v d.
Proof.
  induction d as [|[k' v'] d IH]; cbn.
  - now rewrite String.eqb_refl.
  - destruct (String.eqb k k') eqn:E; cbn; rewrite E; [reflexivity|].
    now rewrite IH.
Qed.

Lemma assoc_mem_set {A : Type} (k : string) (v : A) (d : list (string * A)) :
  assoc_mem k (assoc_set k v d) = true.
Proof. unfold assoc_mem. now rewrite assoc_get_set. Qed.

Lemma set_children_children (e : Element) : set_children e (children e) = e.
Proof. now destruct e. Qed.

Lemma fold_alter_positions (t : string) (f : Element -> Element)
    (pre l : list Element) :
  fold_left (fun cs i => alter f i cs) (findall_from t (length pre) l)
    (pre ++ l)
  = pre ++ map_tagged t f l.
Proof.
  revert pre. induction l as [|e l IH]; intros pre; [reflexivity|].
  cbn [findall_from map_tagged map].
  assert (Hnext : forall x : Element,
             fold_left (fun cs i => alter f i cs)
               (findall_from t (S (length pre)) l) (pre ++ x :: l)
             = pre ++ x :: map_tagged t f l).
  { intros x. specialize (IH (pre ++ [x])).
    rewrite length_app, Nat.add_1_r, <- !app_assoc in IH. exact IH. }
  destruct (String.eqb (tag e) t).
  - cbn [fold_left].
    replace (alter f (length pre) (pre ++ e :: l)) with (pre ++ f e :: l).
    + apply Hnext.
    + rewrite <- (Nat.add_0_r (length pre)) at 1.
      now rewrite alter_app_r.
  - apply Hnext.
Qed.

Lemma fold_alter_child (f : Element -> Element) (ps : list nat) (e : Element) :
  fold_left (fun m i => alter_child f i m) ps e
  = set_children e (fold_left (fun cs i => alter f i cs) ps (children e)).
Proof.
  revert e. induction ps as [|i ps IH]; intros e; cbn [fold_left].
  - now rewrite set_children_children.
  - rewrite IH. now destruct e.
Qed.

Lemma alter_findall (t : string) (f : Element -> Element) (e : Element) :
  fold_left (fun m i => alter_child f i m) (findall e t) e
  = set_children e (map_tagged t f (children e)).
Proof.
  rewrite fold_alter_child. unfold findall.
  f_equal. exact (fold_alter_positions t f [] (children e)).
Qed.

Lemma find_from_split (t : string) (k j : nat) (l : list Element)
    (e : Element) :
  find_from t k l = Some (j, e) ->
  exists pre post,
    l = pre ++ e :: post /\ j = (k + length pre)%nat /\ tag e = t
    /\ Forall (fun x => String.eqb (tag x) t = false) pre.
Proof.
  revert k. induction l as [|x l IH]; intros k; cbn [find_from];
    [discriminate|].
  destruct (String.eqb (tag x) t) eqn:E.
  - intros [= <- <-]. exists [], l. cbn.
    apply String.eqb_eq in E. repeat split; [lia|assumption|constructor].
  - intros H. apply IH in H as (pre & post & -> & -> & Ht & Hpre).
    exists (x :: pre), post. cbn [length app].
    repeat split; [lia|assumption|now constructor].
Qed.

Lemma find_from_app (t : string) (k : nat) (pre post : list Element)
    (e : Element) :
  Forall (fun x => String.eqb (tag x) t = false) pre -> tag e = t ->
  find_from t k (pre ++ e :: post) = Some ((k + length pre)%nat, e).
Proof.
  intros Hpre He. revert k.
  induction Hpre as [|x pre Hx _ IH]; intros k; cbn [app find_from length].
  - rewrite He, String.eqb_refl. do 2 f_equal. lia.
  - rewrite Hx, IH. do 2 f_equal. lia.
Qed.

(** When a single child carries the tag, [find] gives that child: in a
    form with one head and one model, they are the ones [find] locates. *)
Lemma find_only (e : Element) (t : string) (i : nat) (x : Element) :
  children e !! i = Some x -> tag x = t ->
  (forall j y, children e !! j = Some y -> tag y = t -> j = i) ->
  find e t = Some (i, x).
Proof.
  unfold find. intros Hi Ht Honly.
  destruct (find_from t 0 (children e)) as [[j y]|] eqn:E.
  - apply find_from_split in E as (pre & post & El & -> & Hy & _).
    assert (Hj : children e !! length pre = Some y).
    { rewrite El. now rewrite list_lookup_middle. }
    cbn [Nat.add]. rewrite (Honly _ _ Hj Hy) in Hj |- *.
    congruence.
  - exfalso. clear Honly. revert E. generalize 0%nat.
    revert i Hi. induction (children e) as [|c l IH]; intros i Hi k.
    + discriminate.
    + cbn [find_from]. destruct i as [|i]; cbn in Hi.
      * injection Hi as ->. now rewrite Ht, String.eqb_refl.
      * destruct (String.eqb (tag c) t); [discriminate|]. now apply (IH i).
Qed.

Lemma findall_map_tagged (t t' : string) (f : Element -> Element)
    (k : nat) (l : list Element) :
  (forall e, tag (f e) = tag e) ->
  findall_from t' k (map_tagged t f l) = findall_from t' k l.
Proof.
  intros Hf. revert k. induction l as [|e l IH]; intros k; [reflexivity|].
  cbn [map_tagged map findall_from]. fold (map_tagged t f l).
  rewrite IH.
  destruct (String.eqb (tag e) t); [rewrite Hf|]; reflexivity.
Qed.

Lemma map_tagged_idem (t : string) (f : Element -> Element)
    (l : list Element) :
  (forall e, tag (f e) = tag e) -> (forall e, f (f e) = f e) ->
  map_tagged t f (map_tagged t f l) = map_tagged t f l.
Proof.
  intros Htag Hidem. unfold map_tagged. rewrite map_map.
  apply map_ext. intros e.
  destruct (String.eqb (tag e) t) eqn:E.
  - now rewrite Htag, E, Hidem.
  - now rewrite E.
Qed.

Lemma map_tagged_lookup (t : string) (f : Element -> Element)
    (l : list Element) (i : nat) (e : Element) :
  l !! i = Some e -> tag e = t -> map_tagged t f l !! i = Some (f e).
Proof.
  intros Hi Ht. unfold map_tagged. rewrite list_lookup_fmap_Some.
  exists e. split; [now rewrite Ht, String.eqb_refl|exact Hi].
Qed.

Section RewriteFacts.
Variable xform_path : string.
Variable form_category : string.

Local Abbreviation update_data' := (update_data xform_path).
Local Abbreviation update_src' := (update_src form_category).
Local Abbreviation update_instance' :=
  (update_instance xform_path form_category).
Local Abbreviation rewritten_model' :=
  (rewritten_model xform_path form_category).
Local Abbreviation rewrite_bindings' :=
  (rewrite_bindings xform_path form_category).
Local Abbreviation head_tag := (qname "h" "head").
Local Abbreviation model_tag := (qname "xforms" "model").
Local Abbreviation instance_tag := (qname "xforms" "instance").
Local Abbreviation data_tag := (qname "xforms" "data").

Lemma update_data_tag (dt : Element) : tag (update_data' dt) = tag dt.
Proof. unfold update_data. now destruct (assoc_mem _ _). Qed.

Lemma update_data_idem (dt : Element) :
  update_data' (update_data' dt) = update_data' dt.
Proof.
  unfold update_data. destruct (assoc_mem "id" (attrib dt)) eqn:E.
  - cbn [set_attr set_attrib attrib]. rewrite assoc_mem_set.
    unfold set_attr, set_attrib; cbn. now rewrite assoc_set_set.
  - now rewrite E.
Qed.

Lemma update_data_id (dt : Element) :
  assoc_mem "id" (attrib (update_data' dt)) = true ->
  assoc_get "id" (attrib (update_data' dt)) = Some (path_stem xform_path).
Proof.
  unfold update_data. destruct (assoc_mem "id" (attrib dt)) eqn:E.
  - intros _. cbn [set_attr set_attrib attrib]. apply assoc_get_set.
  - rewrite E. discriminate.
Qed.

Lemma update_src_tag (inst : Element) : tag (update_src' inst) = tag inst.
Proof.
  unfold update_src. destruct (assoc_mem _ _); [|reflexivity].
  now destruct (endswith _ _).
Qed.

Lemma update_src_children (inst : Element) :
  children (update_src' inst) = children inst.
Proof.
  unfold update_src. destruct (assoc_mem _ _); [|reflexivity].
  now destruct (endswith _ _).
Qed.

Lemma update_src_idem (inst : Element) :
  update_src' (update_src' inst) = update_src' inst.
Proof.
  unfold update_src.
  destruct (assoc_mem "src" (attrib inst)) eqn:Hmem; [|now rewrite Hmem].
  cbv zeta. destruct (endswith _ ".geojson") eqn:Hend.
  - cbn [set_attr set_attrib attrib].
    rewrite assoc_mem_set, assoc_get_set. cbn [default from_option].
    unfold id. rewrite endswith_app by (apply endswith_app, endswith_refl).
    unfold set_attr, set_attrib; cbn. now rewrite assoc_set_set.
  - now rewrite Hmem, Hend.
Qed.

Lemma update_src_rewrites (inst : Element) (s : string) :
  assoc_get "src" (attrib inst) = Some s -> endswith s ".geojson" = true ->
  assoc_get "src" (attrib (update_src' inst))
  = Some ("jr://file/" +:+ form_category +:+ ".geojson").
Proof.
  intros Hs Hend. unfold update_src, assoc_mem. rewrite Hs.
  cbn [default from_option]. unfold id. rewrite Hend.
  cbn [set_attr set_attrib attrib]. apply assoc_get_set.
Qed.

(** The loop over the [data] children changes each of them once. *)
Lemma update_instance_eq (inst : Element) :
  update_instance' inst
  = set_children (update_src' inst)
      (map_tagged data_tag update_data' (children inst)).
Proof.
  unfold update_instance. cbv zeta.
  rewrite <- (update_src_children inst).
  rewrite <- alter_findall.
  now destruct (findall (update_src' inst) data_tag).
Qed.

Lemma update_instance_tag (inst : Element) :
  tag (update_instance' inst) = tag inst.
Proof. rewrite update_instance_eq. cbn. apply update_src_tag. Qed.

Lemma update_instance_attrib (inst : Element) :
  attrib (update_instance' inst) = attrib (update_src' inst).
Proof. now rewrite update_instance_eq. Qed.

Lemma update_instance_children (inst : Element) :
  children (update_instance' inst)
  = map_tagged data_tag update_data' (children inst).
Proof. now rewrite update_instance_eq. Qed.

Lemma update_instance_idem (inst : Element) :
  update_instance' (update_instance' inst) = update_instance' inst.
Proof.
  rewrite (update_instance_eq (update_instance' inst)).
  rewrite update_instance_children.
  rewrite map_tagged_idem by auto using update_data_tag, update_data_idem.
  rewrite (update_instance_eq inst) at 1.
  assert (E : forall e cs,
             update_src' (set_children e cs) = set_children (update_src' e) cs).
  { intros e cs. unfold update_src. cbn [attrib set_children].
    destruct (assoc_mem _ _); [|reflexivity].
    now destruct (endswith _ _). }
  rewrite E, update_src_idem. rewrite update_instance_eq.
  reflexivity.
Qed.

Lemma find_lookup (e : Element) (t : string) (i : nat) (c : Element) :
  find e t = Some (i, c) -> children e !! i = Some c /\ tag c = t.
Proof.
  unfold find. intros H.
  apply find_from_split in H as (pre & post & -> & -> & Ht & _).
  split; [|exact Ht]. cbn. now rewrite list_lookup_middle.
Qed.

Lemma lookup_truthy (e : Element) (i : nat) (c : Element) :
  children e !! i = Some c -> truthy e = true.
Proof. unfold truthy. destruct (children e); [discriminate|reflexivity]. Qed.

(** Replacing the child that [find] gives by one with the same tag
    leaves it where [find] looks. *)
Lemma find_replace (e : Element) (t : string) (i : nat) (c c' : Element) :
  find e t = Some (i, c) -> tag c' = t ->
  find (alter_child (fun _ => c') i e) t = Some (i, c')
  /\ truthy (alter_child (fun _ => c') i e) = true.
Proof.
  unfold find. intros H Ht.
  apply find_from_split in H as (pre & post & E & -> & _ & Hpre).
  unfold alter_child. cbn [children set_children truthy]. rewrite E.
  cbn [Nat.add].
  replace (alter (fun _ => c') (length pre) (pre ++ c :: post))
    with (pre ++ c' :: post).
  - split; [now apply find_from_app|]. destruct pre; reflexivity.
  - rewrite <- (Nat.add_0_r (length pre)) at 1. now rewrite alter_app_r.
Qed.

Lemma replace_replace (e : Element) (i : nat) (c : Element) :
  alter_child (fun _ => c) i (alter_child (fun _ => c) i e)
  = alter_child (fun _ => c) i e.
Proof.
  unfold alter_child. cbn [children set_children].
  rewrite list_alter_alter_eq. now destruct e.
Qed.

Lemma located_instances_Some (root : Element) hi head mi model ps :
  located_instances root = Some (hi, head, (mi, model), ps) <->
  find root head_tag = Some (hi, head) /\ truthy head = true
  /\ find head model_tag = Some (mi, model) /\ truthy model = true
  /\ ps = findall model instance_tag.
Proof.
  unfold located_instances. split.
  - destruct (find root head_tag) as [[hi' head']|]; [|discriminate].
    destruct (truthy head') eqn:Hh; [|discriminate].
    destruct (find head' model_tag) as [[mi' model']|] eqn:Hf; [|discriminate].
    destruct (truthy model') eqn:Hm; [|discriminate].
    intros [= -> -> -> -> <-]. repeat split; first [assumption|reflexivity].
  - intros (-> & -> & -> & -> & ->). reflexivity.
Qed.

Lemma rewrite_bindings_eq (root : Element) hi head mi model ps :
  located_instances root = Some (hi, head, (mi, model), ps) ->
  rewrite_bindings' root
  = alter_child
      (fun _ => alter_child (fun _ => rewritten_model' model) mi head) hi root.
Proof.
  intros H. unfold rewrite_bindings. rewrite H.
  apply located_instances_Some in H as (_ & _ & _ & _ & ->).
  now rewrite alter_findall.
Qed.

Lemma rewritten_model_located (root : Element) hi head mi model ps :
  located_instances root = Some (hi, head, (mi, model), ps) ->
  located_instances (rewrite_bindings' root)
  = Some (hi, alter_child (fun _ => rewritten_model' model) mi head,
          (mi, rewritten_model' model), ps).
Proof.
  intros H. rewrite (rewrite_bindings_eq _ _ _ _ _ _ H).
  apply located_instances_Some in H as (Hh & Hth & Hm & Htm & ->).
  apply located_instances_Some.
  pose proof (find_lookup _ _ _ _ Hh) as [_ Htagh].
  pose proof (find_lookup _ _ _ _ Hm) as [_ Htagm].
  destruct (find_replace head model_tag mi model (rewritten_model' model) Hm)
    as [Hm' Htm']; [exact Htagm|].
  destruct (find_replace root head_tag hi head
              (alter_child (fun _ => rewritten_model' model) mi head) Hh)
    as [Hh' _]; [exact Htagh|].
  split; [exact Hh'|]. split; [exact Htm'|]. split; [exact Hm'|].
  split.
  - unfold rewritten_model, truthy in *. cbn [children set_children].
    now destruct (children model).
  - unfold findall, rewritten_model. cbn [children set_children].
    symmetry. apply findall_map_tagged, update_instance_tag.
Qed.

(** C3. Take the instance elements under head/model, as [find] and
    [findall] locate them: the children tagged [xforms:instance] of the
    first [xforms:model] child of the first [h:head] child of the root.
    After the rewriting the same positions hold the rewritten elements:
    an instance whose [src] ended in [.geojson] has
    [src = jr://file/<category>.geojson], and each of its [xforms:data]
    children that carried an [id] has [id] equal to the stem of the
    output path. *)
Theorem rewrite_bindings_rewrites_src_and_id
    (root head model inst : Element) (hi mi i : nat) :
  find root (qname "h" "head") = Some (hi, head) ->
  find head (qname "xforms" "model") = Some (mi, model) ->
  children model !! i = Some inst ->
  tag inst = qname "xforms" "instance" ->
  exists head' model' inst',
    find (rewrite_bindings xform_path form_category root) (qname "h" "head")
    = Some (hi, head')
    /\ find head' (qname "xforms" "model") = Some (mi, model')
    /\ children model' !! i = Some inst'
    /\ tag inst' = qname "xforms" "instance"
    /\ (forall s,
          assoc_get "src" (attrib inst) = Some s ->
          endswith s ".geojson" = true ->
          assoc_get "src" (attrib inst')
          = Some ("jr://file/" +:+ form_category +:+ ".geojson"))
    /\ (forall j d,
          children inst !! j = Some d ->
          tag d = qname "xforms" "data" ->
          assoc_mem "id" (attrib d) = true ->
          exists d',
            children inst' !! j = Some d'
            /\ tag d' = qname "xforms" "data"
            /\ assoc_get "id" (attrib d') = Some (path_stem xform_path)).
Proof.
  intros Hh Hm Hi Htag.
  assert (Hloc : located_instances root
                 = Some (hi, head, (mi, model), findall model instance_tag)).
  { apply located_instances_Some.
    pose proof (find_lookup _ _ _ _ Hm) as [Hmi _].
    split; [exact Hh|]. split; [exact (lookup_truthy _ _ _ Hmi)|].
    split; [exact Hm|]. split; [exact (lookup_truthy _ _ _ Hi)|reflexivity]. }
  apply rewritten_model_located, located_instances_Some in Hloc
    as (Hh' & _ & Hm' & _ & _).
  exists (alter_child (fun _ => rewritten_model' model) mi head),
    (rewritten_model' model), (update_instance' inst).
  split; [exact Hh'|]. split; [exact Hm'|].
  split; [now apply map_tagged_lookup|].
  split; [now rewrite update_instance_tag|].
  split.
  - intros s Hs Hend. rewrite update_instance_attrib.
    now apply update_src_rewrites with s.
  - intros j d Hj Hd Hid. exists (update_data' d).
    rewrite update_instance_children.
    split; [now apply map_tagged_lookup|].
    split; [now rewrite update_data_tag|].
    apply update_data_id. unfold update_data. rewrite Hid.
    cbn [set_attr set_attrib attrib]. apply assoc_mem_set.
Qed.

(** The instance at a position of the located model, after the
    rewriting. *)
Lemma rewritten_instance_at (root head model inst : Element) (hi mi i : nat) :
  find root head_tag = Some (hi, head) ->
  find head model_tag = Some (mi, model) ->
  children model !! i = Some inst ->
  tag inst = instance_tag ->
  find (rewrite_bindings' root) head_tag
  = Some (hi, alter_child (fun _ => rewritten_model' model) mi head)
  /\ find (alter_child (fun _ => rewritten_model' model) mi head) model_tag
     = Some (mi, rewritten_model' model)
  /\ children (rewritten_model' model) !! i = Some (update_instance' inst).
Proof.
  intros Hh Hm Hi Htag.
  assert (Hloc : located_instances root
                 = Some (hi, head, (mi, model), findall model instance_tag)).
  { apply located_instances_Some.
    pose proof (find_lookup _ _ _ _ Hm) as [Hmi _].
    split; [exact Hh|]. split; [exact (lookup_truthy _ _ _ Hmi)|].
    split; [exact Hm|]. split; [exact (lookup_truthy _ _ _ Hi)|reflexivity]. }
  apply rewritten_model_located, located_instances_Some in Hloc
    as (Hh' & _ & Hm' & _ & _).
  split; [exact Hh'|]. split; [exact Hm'|]. now apply map_tagged_lookup.
Qed.

(** C4. The rewriting is idempotent, and one application sets the
    [id] of the data elements.  Take a data element of the document
    that carries an [id]: a child tagged [xforms:data] of an instance
    under head/model, as [find] locates them.  In the output the same
    position holds that element with its [id] set to the stem of the
    output path and nothing else changed.  Conversely no data child of
    such an instance in the output carries another [id]. *)
Theorem rewrite_bindings_idempotent (root : Element) :
  rewrite_bindings xform_path form_category
    (rewrite_bindings xform_path form_category root)
  = rewrite_bindings xform_path form_category root
  /\ (forall head model inst d (hi mi i j : nat),
        find root (qname "h" "head") = Some (hi, head) ->
        find head (qname "xforms" "model") = Some (mi, model) ->
        children model !! i = Some inst ->
        tag inst = qname "xforms" "instance" ->
        children inst !! j = Some d ->
        tag d = qname "xforms" "data" ->
        assoc_mem "id" (attrib d) = true ->
        exists head' model' inst',
          find (rewrite_bindings xform_path form_category root)
            (qname "h" "head") = Some (hi, head')
          /\ find head' (qname "xforms" "model") = Some (mi, model')
          /\ children model' !! i = Some inst'
          /\ tag inst' = qname "xforms" "instance"
          /\ length (children inst') = length (children inst)
          /\ children inst' !! j
             = Some (mkElement (tag d)
                       (assoc_set "id" (path_stem xform_path) (attrib d))
                       (text d) (tail d) (children d))
          /\ assoc_get "id"
               (assoc_set "id" (path_stem xform_path) (attrib d))
             = Some (path_stem xform_path))
  /\ (forall head' model' inst' d' (hi mi i j : nat),
        find (rewrite_bindings xform_path form_category root)
          (qname "h" "head") = Some (hi, head') ->
        find head' (qname "xforms" "model") = Some (mi, model') ->
        children model' !! i = Some inst' ->
        tag inst' = qname "xforms" "instance" ->
        children inst' !! j = Some d' ->
        tag d' = qname "xforms" "data" ->
        assoc_mem "id" (attrib d') = true ->
        assoc_get "id" (attrib d') = Some (path_stem xform_path)).
Proof.
  split; [|split].
  - destruct (located_instances root)
      as [[[[hi0 head0] [mi0 model0]] ps]|] eqn:Hloc.
    + pose proof (rewritten_model_located _ _ _ _ _ _ Hloc) as Hloc'.
      rewrite (rewrite_bindings_eq _ _ _ _ _ _ Hloc') at 1.
      rewrite (rewrite_bindings_eq _ _ _ _ _ _ Hloc).
      assert (E : rewritten_model' (rewritten_model' model0)
                  = rewritten_model' model0).
      { unfold rewritten_model. cbn [children set_children].
        rewrite map_tagged_idem
          by auto using update_instance_tag, update_instance_idem.
        reflexivity. }
      rewrite E, !replace_replace. reflexivity.
    + assert (E : rewrite_bindings' root = root).
      { unfold rewrite_bindings. now rewrite Hloc. }
      now rewrite !E.
  - intros head model inst d hi mi i j Hh Hm Hi Htag Hj Hd Hid.
    destruct (rewritten_instance_at root head model inst hi mi i
                Hh Hm Hi Htag) as (Hh' & Hm' & Hi').
    exists (alter_child (fun _ => rewritten_model' model) mi head),
      (rewritten_model' model), (update_instance' inst).
    split; [exact Hh'|]. split; [exact Hm'|]. split; [exact Hi'|].
    split; [now rewrite update_instance_tag|].
    rewrite update_instance_children. split.
    { unfold map_tagged. now rewrite length_map. }
    split.
    + rewrite (map_tagged_lookup _ _ _ _ _ Hj Hd).
      unfold update_data. rewrite Hid. reflexivity.
    + apply assoc_get_set.
  - destruct (located_instances root)
      as [[[[hi0 head0] [mi0 model0]] ps]|] eqn:Hloc.
    + pose proof (rewritten_model_located _ _ _ _ _ _ Hloc) as Hloc'.
      intros head' model' inst' d' hi mi i j Hh Hm Hi Hti Hj Htd Hid.
      apply located_instances_Some in Hloc' as (Hh' & _ & Hm' & _ & _).
      rewrite Hh' in Hh. injection Hh as <- <-.
      rewrite Hm' in Hm. injection Hm as <- <-.
      unfold rewritten_model, map_tagged in Hi.
      cbn [children set_children] in Hi.
      apply list_lookup_fmap_Some in Hi as (inst & -> & Hi).
      destruct (String.eqb (tag inst) instance_tag) eqn:E.
      2:{ apply String.eqb_neq in E. contradiction. }
      rewrite update_instance_children in Hj. unfold map_tagged in Hj.
      apply list_lookup_fmap_Some in Hj as (d & -> & Hj).
      destruct (String.eqb (tag d) data_tag) eqn:E'.
      2:{ apply String.eqb_neq in E'. contradiction. }
      now apply update_data_id.
    + assert (E : rewrite_bindings' root = root).
      { unfold rewrite_bindings. now rewrite Hloc. }
      rewrite !E.
      intros head' model' inst' d' hi mi i j Hh Hm Hi _ _ _ _. exfalso.
      pose proof (find_lookup _ _ _ _ Hm) as [Hmi _].
      assert (Hsome : located_instances root
                      = Some (hi, head', (mi, model'),
                              findall model' instance_tag)).
      { apply located_instances_Some.
        split; [exact Hh|]. split; [exact (lookup_truthy _ _ _ Hmi)|].
        split; [exact Hm|].
        split; [exact (lookup_truthy _ _ _ Hi)|reflexivity]. }
      congruence.
Qed.
End RewriteFacts.

(** * The rewriting on a concrete form *)

(** Category [buildings], output path [/tmp/form-42.xml]: the whole
    output, computed. *)
Example rewrite_bindings_example_output :
  rewrite_bindings "/tmp/form-42.xml" "buildings" example_form
  = mkElement (qname "h" "html") [] None None
      [mkElement (qname "h" "head") [] None None
         [mkElement (qname "h" "title") [] (Some "survey") None [];
          mkElement (qname "xforms" "model") [] None None
            [mkElement (qname "xforms" "instance") [] None None
               [mkElement (qname "xforms" "data")
                  [("id", "form-42"); ("version", "v1")] None None
                  [mkElement (qname "xforms" "building") [] None None [];
                   mkElement (qname "xforms" "status") [] None None []]];
             mkElement (qname "xforms" "instance")
               [("id", "features"); ("src", "jr://file/buildings.geojson")]
               None None [];
             example_csv_instance;
             mkElement (qname "xforms" "bind")
               [("nodeset", "/data/building"); ("type", "string")]
               None None []]];
       mkElement (qname "h" "body") [] None None []].
Proof. vm_compute. reflexivity. Qed.

(** The example of C3: [src="jr://file/buildings.geojson"] on the data
    extract and [id="form-42"] on the primary [data] element. *)
Lemma rewrite_bindings_rewrites_src_and_id_witness :
  let out := rewrite_bindings "/tmp/form-42.xml" "buildings" example_form in
  (exists head' model' inst',
      find out (qname "h" "head") = Some (0%nat, head')
      /\ find head' (qname "xforms" "model") = Some (1%nat, model')
      /\ children model' !! 1%nat = Some inst'
      /\ assoc_get "src" (attrib inst') = Some "jr://file/buildings.geojson")
  /\ (exists head' model' inst' d',
         find out (qname "h" "head") = Some (0%nat, head')
         /\ find head' (qname "xforms" "model") = Some (1%nat, model')
         /\ children model' !! 0%nat = Some inst'
         /\ children inst' !! 0%nat = Some d'
         /\ assoc_get "id" (attrib d') = Some "form-42").
Proof.
  cbv zeta. split.
  - destruct (rewrite_bindings_rewrites_src_and_id "/tmp/form-42.xml"
                "buildings" example_form example_head example_model
                example_geojson_instance 0 1 1
                eq_refl eq_refl eq_refl eq_refl)
      as (head' & model' & inst' & Hh & Hm & Hi & _ & Hsrc & _).
    exists head', model', inst'.
    split; [exact Hh|]. split; [exact Hm|]. split; [exact Hi|].
    exact (Hsrc "jr://file/features.geojson" eq_refl eq_refl).
  - destruct (rewrite_bindings_rewrites_src_and_id "/tmp/form-42.xml"
                "buildings" example_form example_head example_model
                example_primary_instance 0 1 0
                eq_refl eq_refl eq_refl eq_refl)
      as (head' & model' & inst' & Hh & Hm & Hi & _ & _ & Hdata).
    destruct (Hdata 0%nat
                (mkElement (qname "xforms" "data")
                   [("id", "survey"); ("version", "v1")] None None
                   [mkElement (qname "xforms" "building") [] None None [];
                    mkElement (qname "xforms" "status") [] None None []])
                eq_refl eq_refl eq_refl)
      as (d' & Hj & _ & Hid).
    exists head', model', inst', d'.
    split; [exact Hh|]. split; [exact Hm|]. split; [exact Hi|].
    split; [exact Hj|exact Hid].
Defined.

(** The rewriting applied again to its output changes nothing, and the
    [data] element of the primary instance, which came with
    [id="survey"], is in its place with [id="form-42"]. *)
Lemma rewrite_bindings_idempotent_witness :
  let out := rewrite_bindings "/tmp/form-42.xml" "buildings" example_form in
  rewrite_bindings "/tmp/form-42.xml" "buildings" out = out
  /\ exists head' model' inst',
       find out (qname "h" "head") = Some (0%nat, head')
       /\ find head' (qname "xforms" "model") = Some (1%nat, model')
       /\ children model' !! 0%nat = Some inst'
       /\ children inst' !! 0%nat
          = Some (mkElement (qname "xforms" "data")
                    [("id", "form-42"); ("version", "v1")] None None
                    [mkElement (qname "xforms" "building") [] None None [];
                     mkElement (qname "xforms" "status") [] None None []]).
Proof.
  cbv zeta.
  destruct (rewrite_bindings_idempotent "/tmp/form-42.xml" "buildings"
              example_form) as (Hidem & Hdata & _).
  split; [exact Hidem|].
  destruct (Hdata example_head example_model example_primary_instance
              (mkElement (qname "xforms" "data")
                 [("id", "survey"); ("version", "v1")] None None
                 [mkElement (qname "xforms" "building") [] None None [];
                  mkElement (qname "xforms" "status") [] None None []])
              0%nat 1%nat 0%nat 0%nat
              eq_refl eq_refl eq_refl eq_refl eq_refl eq_refl eq_refl)
    as (head' & model' & inst' & Hh & Hm & Hi & _ & _ & Hj & _).
  exists head', model', inst'.
  split; [exact Hh|]. split; [exact Hm|]. split; [exact Hi|exact Hj].
Defined.

(** * Properties of the form validation *)

Section ValidationFacts.
Context `{RT : Runtime} `{FL : FormLibs}.

(** C10. [test_form_validity] always returns.  Either the form was
    written, converted, read back and parsed, and the result is the dict
    with the message [Your form is valid] listing the media names of the
    instances of the parsed document; or one of these steps raised [e],
    and the result is the 400 response with the message
    [Your form is invalid] and [str(e)] as the reason. *)
Theorem test_form_validity_total
    (xform_content : PyVal) (form_type : string) (w : World) :
  let run := test_form_validity xform_content form_type w in
  (exists xml root,
      files (snd run) !! "/tmp/outfile.xml" = Some xml
      /\ fromstring xml = Returned root
      /\ fst run
         = Returned (valid_form (omap geojson_name (instances_with_src root))))
  \/ (exists e, fst run = Returned (invalid_form e)).
Proof.
  cbv zeta. unfold test_form_validity, try_except, bind.
  unfold open_write.
  destruct (is_dir w _); [right; eexists; reflexivity|].
  destruct (negb _); [right; eexists; reflexivity|].
  unfold file_write_bytes.
  destruct xform_content; try (right; eexists; reflexivity).
  unfold file_write, xls2xform.
  destruct (xls2xform_convert _ _) as [xml|e];
    [|right; eexists; reflexivity].
  unfold read_file. cbn [files set_files].
  rewrite lookup_insert_eq. unfold lift.
  destruct (fromstring xml) as [root|e] eqn:Hparse;
    [|right; eexists; reflexivity].
  left. exists xml, root. cbn [fst snd files set_files ret].
  split; [apply lookup_insert_eq|]. split; [exact Hparse|reflexivity].
Qed.

(** The media name of a data extract. *)
Example geojson_name_of_extract :
  geojson_name example_geojson_instance = Some "features"
  /\ geojson_name example_csv_instance = None
  /\ geojson_name example_primary_instance = None.
Proof. repeat split; reflexivity. Qed.
End ValidationFacts.

(** * The form validation on concrete inputs *)

(** A workbook that converts to [example_form] is valid and asks for the
    media [features]. *)
Example test_form_validity_valid :
  fst (@test_form_validity demo_runtime demo_form_libs (PyBytes "survey")
         "xlsx" tmp_world)
  = Returned (@valid_form ["features"]).
Proof. vm_compute. reflexivity. Qed.

(** An empty workbook, a content that is a [str], a machine without
    [/tmp]: each failure comes back as the 400 response. *)
Example test_form_validity_invalid :
  fst (@test_form_validity demo_runtime demo_form_libs (PyBytes "") "xlsx"
         tmp_world)
  = Returned (@invalid_form demo_runtime
                (PyExn "PyXFormError" "empty workbook"))
  /\ fst (@test_form_validity demo_runtime demo_form_libs (PyStr "survey")
            "xlsx" tmp_world)
     = Returned (@invalid_form demo_runtime
                   (PyExn "TypeError" "a bytes-like object is required"))
  /\ fst (@test_form_validity demo_runtime demo_form_libs (PyBytes "survey")
            "xlsx" empty_world)
     = Returned (@invalid_form demo_runtime
                   (PyExn "FileNotFoundError" "/tmp/validate_form.xlsx")).
Proof. vm_compute. repeat split; reflexivity. Qed.

(** * Properties of the submission converter *)

Section SubmissionFacts.
Context `{RT : Runtime} `{CSV : CSVDumpLib}.

(** What one turn of the loop does to the converter when the record is
    empty, without tags or populated (and the payload has more than one
    byte): a populated record is appended to both outputs, a record
    without tags is logged as a warning, nothing else changes. *)
Lemma convert_entry_run (data : string) (entry : PyVal) (c : CSVDump) :
  (1 < String.length data)%nat ->
  well_formed_or_skipped (createEntry entry) = true ->
  let f := createEntry entry in
  let run := convert_entry data entry c in
  fst run = Returned tt
  /\ osm_out (snd run) = osm_out c ++ (if populated f then [f] else [])
  /\ geojson_out (snd run) = geojson_out c ++ (if populated f then [f] else [])
  /\ warnings (csv_logs (snd run))
     = warnings (csv_logs c) ++ (if missing_tags f then [bad_record f] else [])
  /\ osm_finished (snd run) = osm_finished c
  /\ geojson_finished (snd run) = geojson_finished c
  /\ breakpoints (snd run) = breakpoints c.
Proof.
  intros Hlen Hok. cbv zeta. unfold convert_entry, bind at 1, csv_log at 1.
  destruct (String.length data <=? 1)%nat eqn:Hle.
  { apply Nat.leb_le in Hle. lia. }
  unfold well_formed_or_skipped, populated, missing_tags in *.
  unfold warnings.
  destruct (0 <? length (createEntry entry))%nat eqn:Hne.
  - destruct (assoc_mem "tags" (createEntry entry)) eqn:Htags;
      cbn [negb andb orb] in *.
    + assert (Hlat : has_coordinates (createEntry entry) = true).
      { destruct (length (createEntry entry) =? 0)%nat eqn:E;
          [|exact Hok].
        apply Nat.eqb_eq in E. apply Nat.ltb_lt in Hne. lia. }
      rewrite Hlat. unfold has_coordinates in Hlat.
      unfold subscript, py_in, bind, ret, raise, import_epdb, writeOSM,
        writeGeoJson.
      destruct (assoc_get "attrs" (createEntry entry)) as [[]|];
        try discriminate; cbn; rewrite Hlat; cbn;
        rewrite List.filter_app, ?app_nil_r; repeat split; reflexivity.
    + unfold csv_log, bad_record. cbn.
      rewrite !List.filter_app, ?app_nil_r. repeat split; reflexivity.
  - cbn. rewrite List.filter_app, ?app_nil_r. repeat split; reflexivity.
Qed.

(** The loop over a batch of such records. *)
Lemma convert_batch_run (data : string) (batch : list PyVal) (c : CSVDump) :
  (1 < String.length data)%nat ->
  Forall (fun entry => well_formed_or_skipped (createEntry entry) = true)
    batch ->
  let features := map createEntry batch in
  let run := for_each batch (convert_entry data) c in
  fst run = Returned tt
  /\ osm_out (snd run) = osm_out c ++ List.filter populated features
  /\ geojson_out (snd run) = geojson_out c ++ List.filter populated features
  /\ warnings (csv_logs (snd run))
     = warnings (csv_logs c)
       ++ map bad_record (List.filter missing_tags features)
  /\ osm_finished (snd run) = osm_finished c
  /\ geojson_finished (snd run) = geojson_finished c
  /\ breakpoints (snd run) = breakpoints c.
Proof.
  intros Hlen Hall. revert c.
  induction Hall as [|entry batch Hentry _ IH]; intros c; cbv zeta.
  - cbn. rewrite !app_nil_r. repeat split; reflexivity.
  - cbn [for_each]. unfold bind.
    destruct (convert_entry_run data entry c Hlen Hentry)
      as (Hret & Hosm & Hjson & Hwarn & Hfo & Hfj & Hbp).
    destruct (convert_entry data entry c) as [o c1].
    cbn [fst snd] in *. subst o. cbv beta iota.
    destruct (IH c1) as (Hret' & Hosm' & Hjson' & Hwarn' & Hfo' & Hfj' & Hbp').
    cbv zeta in *.
    rewrite Hosm', Hjson', Hwarn', Hfo', Hfj', Hbp'.
    rewrite Hosm, Hjson, Hwarn, Hfo, Hfj, Hbp.
    cbn [map List.filter].
    split; [exact Hret'|].
    destruct (populated (createEntry entry)),
      (missing_tags (createEntry entry));
      cbn [map]; rewrite <- ?app_assoc, ?app_nil_r;
      repeat split; reflexivity.
Qed.

(** Both outputs receive the same entries whatever the record is and
    however the turn of the loop ends. *)
Lemma convert_entry_outputs_equal (data : string) (entry : PyVal)
    (c : CSVDump) :
  osm_out c = geojson_out c ->
  osm_out (snd (convert_entry data entry c))
  = geojson_out (snd (convert_entry data entry c)).
Proof.
  intros Heq. unfold convert_entry, bind at 1, csv_log at 1.
  destruct (String.length data <=? 1)%nat; [exact Heq|].
  destruct (0 <? length (createEntry entry))%nat; [|exact Heq].
  destruct (negb _); [exact Heq|].
  unfold subscript, py_in, bind, ret, raise, import_epdb, epdb_st, writeOSM,
    writeGeoJson.
  destruct (assoc_get "attrs" (createEntry entry)) as [attrs|]; [|exact Heq].
  destruct attrs; cbn; try exact Heq;
    match goal with
    | |- context [negb ?b] => destruct b
    end; cbn; try (destruct epdb_installed; cbn);
    first [exact Heq | now rewrite Heq].
Qed.

Lemma convert_batch_outputs_equal (data : string) (batch : list PyVal)
    (c : CSVDump) :
  osm_out c = geojson_out c ->
  osm_out (snd (for_each batch (convert_entry data) c))
  = geojson_out (snd (for_each batch (convert_entry data) c)).
Proof.
  revert c. induction batch as [|entry batch IH]; intros c Heq; [exact Heq|].
  cbn [for_each]. unfold bind.
  pose proof (convert_entry_outputs_equal data entry c Heq) as H1.
  destruct (convert_entry data entry c) as [[[]|e] c1]; cbn [snd] in *.
  - now apply IH.
  - exact H1.
Qed.

(** After every call the two outputs hold the same entries.  When the
    batch comes as a payload of more than one byte and each of its
    records is empty, without tags, or populated, [convert_csv] returns
    [True], both outputs hold exactly the populated records in the order
    of the batch, and both streams are finished, however many records
    were skipped. *)
Lemma convert_csv_outputs_in_step (filespec data : string) :
  let run := convert_csv filespec data in
  osm_out (snd run) = geojson_out (snd run)
  /\ ((1 < String.length data)%nat ->
      Forall (fun entry => well_formed_or_skipped (createEntry entry) = true)
        (parse filespec (Some data)) ->
      let features := map createEntry (parse filespec (Some data)) in
      fst run = Returned true
      /\ osm_out (snd run) = List.filter populated features
      /\ geojson_out (snd run) = List.filter populated features
      /\ osm_finished (snd run) = true
      /\ geojson_finished (snd run) = true
      /\ warnings (csv_logs (snd run))
         = map bad_record (List.filter missing_tags features)).
Proof.
  cbv zeta. unfold convert_csv, convert_csv_steps, new_CSVDump.
  unfold bind, createOSM, createGeoJson, finishOSM, finishGeoJson, ret.
  cbn [yaml osm_file geojson_file osm_out geojson_out osm_finished
       geojson_finished csv_logs breakpoints].
  set (c0 := mkCSVDump _ _ _ _ _ _ _ _ _).
  assert (H0 : osm_out c0 = geojson_out c0) by reflexivity.
  destruct (String.length data =? 0)%nat eqn:Hzero.
  - split; [reflexivity|]. apply Nat.eqb_eq in Hzero. intros Hlen. lia.
  - split.
    + pose proof (convert_batch_outputs_equal data
                    (parse filespec (Some data)) c0 H0) as Heq.
      destruct (for_each _ _ c0) as [[[]|e] c1]; cbn [snd] in *; exact Heq.
    + intros Hlen Hall.
      destruct (convert_batch_run data (parse filespec (Some data)) c0
                  Hlen Hall)
        as (Hret & Hosm & Hjson & Hwarn & Hfo & Hfj & Hbp).
      destruct (for_each _ _ c0) as [o c1]. cbn [fst snd] in *. subst o.
      cbn [fst snd yaml osm_file geojson_file osm_out geojson_out
           osm_finished geojson_finished csv_logs breakpoints].
      rewrite Hosm, Hjson, Hwarn. repeat split; reflexivity.
Qed.
(** C7 (the behaviour of the code). Called without a payload,
    [convert_csv] parses the file and drops what it parsed: the batch is
    stored and never looped over.  Whatever the file holds, the call
    returns [True] with both streams finished and both outputs empty, so
    no populated record of the batch has an entry in either output. *)
Theorem convert_csv_file_batch_not_written (filespec : string) :
  let run := convert_csv filespec "" in
  fst run = Returned true
  /\ osm_finished (snd run) = true /\ geojson_finished (snd run) = true
  /\ osm_out (snd run) = [] /\ geojson_out (snd run) = []
  /\ (forall entry,
        entry ∈ parse filespec None ->
        populated (createEntry entry) = true ->
        (createEntry entry ∉ osm_out (snd run))
        /\ (createEntry entry ∉ geojson_out (snd run))).
Proof.
  cbv zeta.
  assert (Hosm : osm_out (snd (convert_csv filespec "")) = [])
    by reflexivity.
  assert (Hjson : geojson_out (snd (convert_csv filespec "")) = [])
    by reflexivity.
  split; [reflexivity|]. split; [reflexivity|]. split; [reflexivity|].
  split; [exact Hosm|]. split; [exact Hjson|].
  intros entry _ _. rewrite Hosm, Hjson.
  split; apply not_elem_of_nil.
Qed.
End SubmissionFacts.

(** * The submission converter on concrete batches *)

Section MissingCoordinates.
Context `{RT : Runtime}.

(** C6 (the behaviour of the code). A record with tags and without
    coordinates is not dropped with a warning.  Where the [epdb] module
    is absent the [import] raises and ends the batch: nothing is written,
    not even the populated record that follows, and the streams are left
    unfinished.  Where it is present the debugger is entered and, once it
    lets the run continue, the record is written to both outputs.  No
    warning is logged in either case. *)
Theorem convert_csv_missing_coordinates_not_dropped :
  let batch := [no_coordinates_record; building_record] in
  let absent := @convert_csv RT (csv_lib [] batch false) "subs.csv" "id,lat" in
  let present := @convert_csv RT (csv_lib [] batch true) "subs.csv" "id,lat" in
  (fst absent = Raised (PyExn "ModuleNotFoundError" "No module named 'epdb'")
   /\ osm_out (snd absent) = [] /\ geojson_out (snd absent) = []
   /\ osm_finished (snd absent) = false
   /\ geojson_finished (snd absent) = false
   /\ warnings (csv_logs (snd absent)) = [])
  /\ (fst present = Returned true
      /\ osm_out (snd present)
         = [open_record no_coordinates_record; open_record building_record]
      /\ geojson_out (snd present)
         = [open_record no_coordinates_record; open_record building_record]
      /\ breakpoints (snd present) = 1%nat
      /\ warnings (csv_logs (snd present)) = []).
Proof. cbv zeta. repeat split; reflexivity. Qed.

(** A record without tags, by contrast, is dropped with a warning and
    the records after it are converted. *)
Example convert_csv_missing_tags_dropped :
  let run :=
    @convert_csv RT (csv_lib [] [no_tags_record; building_record] false)
      "subs.csv" "id,lat" in
  fst run = Returned true
  /\ osm_out (snd run) = [open_record building_record]
  /\ geojson_out (snd run) = [open_record building_record]
  /\ warnings (csv_logs (snd run))
     = [(Warning,
         "Bad record! " +:+ str_val (PyDict (open_record no_tags_record)))].
Proof. cbv zeta. repeat split; reflexivity. Qed.
End MissingCoordinates.

(** The failing input of C7: the file holds one populated record and
    the call comes without a payload; the record reaches neither
    output. *)
Lemma convert_csv_skips_file_batch : ~ every_populated_record_is_written.
Proof.
  intros H.
  destruct (H demo_runtime (csv_lib [building_record] [] true) "subs.csv" ""
              building_record) as [Hosm _].
  - apply list_elem_of_here.
  - reflexivity.
  - vm_compute in Hosm. inversion Hosm.
Qed.

(** A payload of one byte is looped over, and every record skipped. *)
Example convert_csv_one_byte_payload :
  let run := @convert_csv demo_runtime (csv_lib [] [building_record] true)
               "subs.csv" "x" in
  fst run = Returned true
  /\ osm_out (snd run) = [] /\ geojson_out (snd run) = []
  /\ osm_finished (snd run) = true /\ geojson_finished (snd run) = true.
Proof. cbv zeta. repeat split; reflexivity. Qed.

(** A payload with two populated records, one without tags and an
    empty one. *)
Lemma convert_csv_outputs_in_step_witness :
  let run :=
    @convert_csv demo_runtime
      (csv_lib [] [building_record; no_tags_record; empty_record;
                   school_record] false)
      "subs.csv" "id,lat,lon" in
  fst run = Returned true
  /\ osm_out (snd run)
     = [open_record building_record; open_record school_record]
  /\ geojson_out (snd run)
     = [open_record building_record; open_record school_record]
  /\ osm_finished (snd run) = true
  /\ geojson_finished (snd run) = true.
Proof.
  cbv zeta.
  destruct (proj2
              (@convert_csv_outputs_in_step demo_runtime
                 (csv_lib [] [building_record; no_tags_record; empty_record;
                              school_record] false)
                 "subs.csv" "id,lat,lon"))
    as (Hret & Hosm & Hjson & Hfo & Hfj & _).
  - cbn. lia.
  - repeat constructor.
  - split; [exact Hret|]. split; [exact Hosm|]. split; [exact Hjson|].
    split; [exact Hfo|exact Hfj].
Defined.

(** * Further properties of the remote operations *)

Section MoreCentralFacts.
Context `{RT : Runtime} `{ODK : OdkCentral}.

(** [stage_attach_publish] touches no file but the staged one, and
    removes no directory. *)
Lemma stage_attach_publish_other_files xform odk_id xform_path xform_category
    feature_geojson convert w :
  let run := stage_attach_publish xform odk_id xform_path xform_category
               feature_geojson convert w in
  (forall q, q <> geojson_path_of odk_id xform_category ->
             files (snd run) !! q = files w !! q)
  /\ dirs w ⊆ dirs (snd run).
Proof.
  cbv zeta. unfold stage_attach_publish.
  set (p := geojson_path_of odk_id xform_category).
  unfold bind, mkdir_parents, open_write, file_write, unlink_missing_ok,
    call, ret, raise, is_dir.
  destruct (is_file _ _); [split; [reflexivity|set_solver]|].
  destruct (existsb _ _); [split; [reflexivity|set_solver]|]. world_simpl.
  destruct (bool_decide (p ∈ _)) eqn:Hdir;
    [split; [reflexivity|cbn; set_solver]|].
  world_simpl.
  destruct (negb _); [split; [reflexivity|cbn; set_solver]|].
  destruct (utf8_decode feature_geojson) as [text|]; world_simpl.
  2:{ split; [|set_solver]. intros q Hq. now rewrite lookup_insert_ne. }
  destruct (remote _ (UploadMedia _ _ _ _ _)) as [v|e]; world_simpl.
  - rewrite Hdir. world_simpl. split; [|set_solver].
    intros q Hq.
    now rewrite lookup_delete_ne, !lookup_insert_ne.
  - split; [|set_solver]. intros q Hq. now rewrite !lookup_insert_ne.
Qed.

(** X1. The remote calls of [create_odk_xform] always come in the order
    connect, createForm, uploadMedia, publishForm, each one made only
    when the one before returned; media is uploaded only after a
    [createForm] that answered 200 or 409.  Only the failure to connect
    is translated (into the 500 "Connection failed to odk central"): an
    exception of [createForm], [uploadMedia] or [publishForm] reaches
    the caller as it was raised, and a completed sequence returns what
    [publishForm] returned. *)
Theorem create_odk_xform_call_order
    (odk_id : Z) (xform_path xform_category feature_geojson : string)
    (odk_credentials : option ODKCentralDecrypted)
    (create_draft convert_to_draft_when_publishing : bool) (w : World) :
  let run :=
    create_odk_xform odk_id xform_path xform_category feature_geojson
      odk_credentials create_draft convert_to_draft_when_publishing w in
  let evs := new_events w (snd run) in
  let c := credentials OdkForm odk_credentials in
  let create :=
    CreateForm c odk_id (path_stem xform_path) xform_path create_draft in
  let upload :=
    UploadMedia c odk_id (path_stem xform_path)
      (geojson_path_of odk_id xform_category)
      convert_to_draft_when_publishing in
  let publish := PublishForm c odk_id (path_stem xform_path) in
  (exists e,
      evs = [(Connect c, Raised e)] /\ fst run = Raised connection_failed)
  \/ (exists v e,
         evs = [(Connect c, Returned v); (create, Raised e)]
         /\ fst run = Raised e)
  \/ (exists v r,
         evs = [(Connect c, Returned v); (create, Returned r)]
         /\ if accepted r then exists e, fst run = Raised e
            else fst run = Returned r)
  \/ (exists v r e,
         evs = [(Connect c, Returned v); (create, Returned r);
                (upload, Raised e)]
         /\ accepted r = true /\ fst run = Raised e)
  \/ (exists v r u out,
         evs = [(Connect c, Returned v); (create, Returned r);
                (upload, Returned u); (publish, out)]
         /\ accepted r = true /\ fst run = out).
Proof.
  cbv zeta. unfold create_odk_xform, bind.
  rewrite create_form_step_run.
  pose proof (connect_world_trace OdkForm odk_credentials w) as Ht.
  case_remote.
  2:{ left. eexists. cbn [fst snd].
      split; [apply new_events_app; trace_of Ht|reflexivity]. }
  case_remote.
  2:{ right; left. do 2 eexists. cbn [fst snd].
      split; [apply new_events_app; trace_of Ht|reflexivity]. }
  cbn [fst snd]. unfold accepted.
  destruct (py_eq_int a0 200) eqn:H200, (py_eq_int a0 409) eqn:H409;
    cbn [negb andb orb].
  4:{ right; right; left. exists a, a0. rewrite H200, H409. cbn [orb].
      unfold ret. cbn [fst snd].
      split; [apply new_events_app; trace_of Ht|reflexivity]. }
  all: match goal with
       | |- context [stage_attach_publish ?x ?i ?xp ?cat ?g ?cv ?w1] =>
           destruct (stage_attach_publish_upload x i xp cat g cv w1)
             as [(Htr & e & He)
                | [(e & text & Htr & He & _)
                  | (u & out & Htr & He & _)]]
       end.
  all: try (right; right; left; exists a, a0; rewrite H200, H409;
            cbn [orb];
            split; [apply new_events_app; rewrite Htr; trace_of Ht
                   |exists e; exact He]).
  all: try (right; right; right; left; exists a, a0, e;
            rewrite H200, H409; cbn [orb];
            split; [apply new_events_app; rewrite Htr; trace_of Ht
                   |split; [reflexivity|exact He]]).
  all: right; right; right; right; exists a, a0, u, out;
       rewrite H200, H409; cbn [orb];
       (split; [apply new_events_app; rewrite Htr; trace_of Ht
               |split; [reflexivity|exact He]]).
Qed.

(** X2. [create_odk_xform] writes and deletes no file but the staged
    geojson file, and removes no directory.  Files are told apart by
    their canonical paths: the statement is for a category whose staged
    path has no [..] component and for another file given by its
    canonical path. *)
Theorem create_odk_xform_other_files_untouched
    (odk_id : Z) (xform_path xform_category feature_geojson : string)
    (odk_credentials : option ODKCentralDecrypted)
    (create_draft convert_to_draft_when_publishing : bool) (w : World)
    (q : string) :
  let run :=
    create_odk_xform odk_id xform_path xform_category feature_geojson
      odk_credentials create_draft convert_to_draft_when_publishing w in
  canonical (geojson_path_of odk_id xform_category) = true ->
  canonical q = true ->
  q <> geojson_path_of odk_id xform_category ->
  files (snd run) !! q = files w !! q /\ dirs w ⊆ dirs (snd run).
Proof.
  cbv zeta. intros _ _ Hq. unfold create_odk_xform, bind.
  rewrite create_form_step_run.
  pose proof (connect_world_files OdkForm odk_credentials w) as Hf.
  pose proof (connect_world_dirs OdkForm odk_credentials w) as Hd.
  case_remote; [|world_simpl; rewrite Hf, Hd; split; [reflexivity|set_solver]].
  case_remote; [|world_simpl; rewrite Hf, Hd; split; [reflexivity|set_solver]].
  cbn [fst snd].
  destruct (negb _ && negb _)%bool.
  { cbn [ret snd]. world_simpl. rewrite Hf, Hd.
    split; [reflexivity|set_solver]. }
  match goal with
  | |- context [stage_attach_publish ?x ?i ?xp ?cat ?g ?cv ?w1] =>
      destruct (stage_attach_publish_other_files x i xp cat g cv w1)
        as [Hfiles Hdirs]
  end.
  rewrite (Hfiles q Hq). world_simpl. rewrite Hf. split; [reflexivity|].
  etransitivity; [|exact Hdirs]. world_simpl. now rewrite Hd.
Qed.

Lemma stage_attach_publish_undecodable xform odk_id xform_path xform_category
    feature_geojson convert w :
  utf8_decode feature_geojson = None ->
  let run := stage_attach_publish xform odk_id xform_path xform_category
               feature_geojson convert w in
  trace (snd run) = trace w
  /\ (exists e, fst run = Raised e)
  /\ (fst run = Raised (PyExn "UnicodeDecodeError" "utf-8") ->
      files (snd run) !! geojson_path_of odk_id xform_category = Some "").
Proof.
  intros Hdec. cbv zeta. unfold stage_attach_publish.
  set (p := geojson_path_of odk_id xform_category).
  unfold bind, mkdir_parents, open_write, file_write, unlink_missing_ok,
    call, ret, raise, is_dir.
  destruct (is_file _ _);
    [split; [reflexivity|split; [eexists; reflexivity|discriminate]]|].
  destruct (existsb _ _);
    [split; [reflexivity|split; [eexists; reflexivity|discriminate]]|].
  world_simpl.
  destruct (bool_decide (p ∈ _));
    [split; [reflexivity|split; [eexists; reflexivity|discriminate]]|].
  world_simpl.
  destruct (negb _);
    [split; [reflexivity|split; [eexists; reflexivity|discriminate]]|].
  rewrite Hdec. world_simpl.
  split; [reflexivity|]. split; [eexists; reflexivity|].
  intros _. apply lookup_insert_eq.
Qed.

(** X3. A geodata payload that is not valid UTF-8 is never uploaded:
    [create_odk_xform] makes no [uploadMedia] and no [publishForm] call,
    and when it ends with the [UnicodeDecodeError] after a [createForm]
    that returned, the staged file has been created and is left empty
    on disk. *)
Theorem create_odk_xform_undecodable_payload
    (odk_id : Z) (xform_path xform_category feature_geojson : string)
    (odk_credentials : option ODKCentralDecrypted)
    (create_draft convert_to_draft_when_publishing : bool) (w : World) :
  utf8_decode feature_geojson = None ->
  let run :=
    create_odk_xform odk_id xform_path xform_category feature_geojson
      odk_credentials create_draft convert_to_draft_when_publishing w in
  let evs := new_events w (snd run) in
  Forall (fun ev => after_create (fst ev) = false) evs
  /\ ((exists c r,
         (CreateForm c odk_id (path_stem xform_path) xform_path create_draft,
          Returned r) ∈ evs) ->
      fst run = Raised (PyExn "UnicodeDecodeError" "utf-8") ->
      files (snd run) !! geojson_path_of odk_id xform_category = Some "").
Proof.
  intros Hdec. cbv zeta. unfold create_odk_xform, bind.
  rewrite create_form_step_run.
  pose proof (connect_world_trace OdkForm odk_credentials w) as Ht.
  case_remote.
  2:{ cbn [fst snd]. split; [|discriminate].
      erewrite new_events_app; [|trace_of Ht]. repeat constructor. }
  case_remote.
  2:{ cbn [fst snd]. erewrite new_events_app; [|trace_of Ht].
      split; [repeat constructor|].
      intros (c & r & Hin). exfalso. revert Hin. in_events. }
  cbn [fst snd].
  destruct (negb _ && negb _)%bool.
  { unfold ret. cbn [fst snd]. split; [|discriminate].
    erewrite new_events_app; [|trace_of Ht]. repeat constructor. }
  match goal with
  | |- context [stage_attach_publish ?x ?i ?xp ?cat ?g ?cv ?w1] =>
      destruct (stage_attach_publish_undecodable x i xp cat g cv w1 Hdec)
        as (Htr & _ & Hfile)
  end.
  split.
  - erewrite new_events_app; [|rewrite Htr; trace_of Ht]. repeat constructor.
  - intros _. exact Hfile.
Qed.

(** X4. Every failure of [create_odk_project] reaches the caller as a
    500 whose detail is "Error creating project on ODK Central: "
    followed by the text of the cause, the failure to connect included;
    a value it returns is the server's answer to [createProject],
    unchanged, and that answer is not the authentication failure. *)
Theorem create_odk_project_outcomes
    (name : string) (odk_central : option ODKCentralDecrypted) (w : World) :
  let run := create_odk_project name odk_central w in
  match fst run with
  | Returned v =>
      (CreateProject (credentials OdkProject odk_central) ("FMTM " +:+ name),
       Returned v) ∈ new_events w (snd run)
      /\ (is_dict v && py_eq_401_2 (dict_get v "code"))%bool = false
  | Raised e => exists cause, e = creation_error cause
  end.
Proof.
  cbv zeta. rewrite create_odk_project_run.
  pose proof (connect_world_trace OdkProject odk_central w) as Ht.
  case_remote; [|cbn [fst]; eexists; reflexivity].
  case_remote; [|cbn [fst]; eexists; reflexivity].
  destruct (is_dict a0 && py_eq_401_2 (dict_get a0 "code"))%bool eqn:Hauth;
    cbn [fst snd]; [eexists; reflexivity|].
  split; [|exact Hauth].
  erewrite new_events_app; [|trace_of Ht].
  apply list_elem_of_further, list_elem_of_here.
Qed.

(** Without credentials of its own an operation connects with the
    configured ones. *)
Lemma odk_client_events kind odk_central w :
  exists out,
    new_events w (snd (odk_client kind odk_central w))
    = [(Connect (credentials kind odk_central), out)].
Proof.
  rewrite odk_client_run.
  pose proof (connect_world_trace kind odk_central w) as Ht.
  cbv zeta. destruct (remote _ _); cbn [snd]; eexists;
    apply new_events_app; trace_of Ht.
Qed.
End MoreCentralFacts.

(** X5. Credentials given by the caller take precedence over the
    configured ones: with explicit credentials no operation depends on
    the settings, and the one connection an operation opens uses the
    caller's URL, user and password; without them it uses the
    settings'. *)
Theorem explicit_credentials_take_precedence
    (str_of_exn : Exn -> string) (str_of_val : PyVal -> string)
    (decode : string -> option string) (s1 s2 : Settings)
    (ODK : OdkCentral) (oc : ODKCentralDecrypted) (w : World) :
  let RT1 := Build_Runtime str_of_exn str_of_val decode s1 in
  let RT2 := Build_Runtime str_of_exn str_of_val decode s2 in
  (forall kind,
      @odk_client RT1 ODK kind (Some oc) w = @odk_client RT2 ODK kind (Some oc) w
      /\ exists out,
           new_events w (snd (@odk_client RT1 ODK kind (Some oc) w))
           = [(Connect (mkClient kind (odk_central_url oc)
                          (odk_central_user oc) (odk_central_password oc)),
               out)])
  /\ (forall kind, exists out,
         new_events w (snd (@odk_client RT1 ODK kind None w))
         = [(Connect (mkClient kind (ODK_CENTRAL_URL s1) (ODK_CENTRAL_USER s1)
                        (ODK_CENTRAL_PASSWD s1)), out)])
  /\ (forall name,
         @create_odk_project RT1 ODK name (Some oc) w
         = @create_odk_project RT2 ODK name (Some oc) w)
  /\ (forall project_id,
         @delete_odk_project RT1 ODK project_id (Some oc) w
         = @delete_odk_project RT2 ODK project_id (Some oc) w)
  /\ (forall odk_id xform_path xform_category feature_geojson draft convert,
         @create_odk_xform RT1 ODK odk_id xform_path xform_category
           feature_geojson (Some oc) draft convert w
         = @create_odk_xform RT2 ODK odk_id xform_path xform_category
             feature_geojson (Some oc) draft convert w).
Proof.
  cbv zeta. split; [|split; [|split; [|split]]].
  - intros kind. split; [reflexivity|].
    exact (@odk_client_events _ ODK kind (Some oc) w).
  - intros kind. exact (@odk_client_events _ ODK kind None w).
  - reflexivity.
  - reflexivity.
  - reflexivity.
Qed.

(** * Properties of the form transformer *)

Section TransformerFacts.
Context `{RT : Runtime} `{FL : FormLibs}.

Lemma rewrite_and_write_run (xform_path form_category data : string)
    (w : World) :
  rewrite_and_write xform_path form_category data w
  = let w1 :=
      add_log w
        (Debug, "Updating XML keys in XForm with data extract file & form id")
    in
    match fromstring data with
    | Raised e => (Raised e, w1)
    | Returned root =>
        if is_dir w xform_path
        then (Raised (PyExn "IsADirectoryError" xform_path), w1)
        else if negb (is_dir w (path_parent xform_path))
        then (Raised (PyExn "FileNotFoundError" xform_path), w1)
        else (Returned xform_path,
              set_files w1
                (<[xform_path :=
                     tostring (rewrite_bindings xform_path form_category root)]>
                   (files w)))
    end.
Proof.
  unfold rewrite_and_write, bind, log, lift, open_write, file_write, ret,
    is_dir.
  world_simpl.
  destruct (fromstring data); [|reflexivity].
  destruct (bool_decide (xform_path ∈ dirs w)); [reflexivity|].
  destruct (negb _); [reflexivity|].
  world_simpl. unfold set_files. world_simpl.
  now rewrite insert_insert_eq.
Qed.

(** How [generate_updated_xform] runs, by the mode and by what the
    converter gives. *)
Lemma generate_updated_xform_run (input_path xform_path : string)
    (form_file_extension form_category : string) (w : World) :
  generate_updated_xform input_path xform_path form_file_extension
    form_category w
  = if String.eqb form_file_extension "xml" then
      match files w !! input_path with
      | None => (Raised (PyExn "FileNotFoundError" input_path), w)
      | Some data =>
          rewrite_and_write xform_path form_category data
            (add_log w (Debug, "Reading XForm directly: " +:+ input_path))
      end
    else
      let w0 := conversion_world input_path w in
      match xls2xform_convert w0 input_path with
      | Raised e =>
          (Raised (conversion_error input_path),
           add_log (add_log w0 (Error, str_exn e))
             (Error, "Couldn't convert " +:+ input_path +:+ " to an XForm!"))
      | Returned xml =>
          let w1 := set_files w0 (<[xform_path := xml]> (files w)) in
          if (String.length xml <=? 0)%nat
          then (Raised (empty_output_error xform_path),
                add_log w1 (Warning, xform_path +:+ " is empty!"))
          else rewrite_and_write xform_path form_category xml w1
      end.
Proof.
  unfold generate_updated_xform.
  change (fun data : string =>
            log Debug
              "Updating XML keys in XForm with data extract file & form id" ;;;
            root <- lift (fromstring data) ;;
            let newxml :=
              tostring (rewrite_bindings xform_path form_category root) in
            open_write xform_path ;;; file_write xform_path newxml ;;;
            ret xform_path)
    with (rewrite_and_write xform_path form_category).
  unfold bind at 1.
  destruct (String.eqb form_file_extension "xml"); cbn [negb].
  - unfold bind, read_file, log, ret.
    destruct (files w !! input_path); reflexivity.
  - unfold bind, try_except, log, xls2xform, stat_size, read_file, raise,
      conversion_world, conversion_error, empty_output_error.
    world_simpl.
    destruct (xls2xform_convert _ _) as [xml|e]; [|reflexivity].
    world_simpl. rewrite lookup_insert_eq.
    destruct (String.length xml <=? 0)%nat; [reflexivity|].
    world_simpl. now rewrite lookup_insert_eq.
Qed.

(** X6. A spreadsheet the converter rejects is a client error: outside
    the [xml] mode, when [xls2xform_convert] raises,
    [generate_updated_xform] raises the 400 "Couldn't convert <input> to
    an XForm!", logs the cause, and writes no file itself. *)
Theorem generate_updated_xform_conversion_failure
    (input_path xform_path form_file_extension form_category : string)
    (w : World) (e : Exn) :
  form_file_extension <> "xml" ->
  xls2xform_convert (conversion_world input_path w) input_path = Raised e ->
  let run := generate_updated_xform input_path xform_path form_file_extension
               form_category w in
  fst run = Raised (conversion_error input_path)
  /\ files (snd run) = files w
  /\ (Error, str_exn e) ∈ logs (snd run).
Proof.
  intros Hext Hconv. cbv zeta. rewrite generate_updated_xform_run.
  apply String.eqb_neq in Hext. rewrite Hext. cbv zeta. rewrite Hconv.
  cbn [fst snd]. split; [reflexivity|]. split; [reflexivity|].
  world_simpl. unfold conversion_world. world_simpl.
  rewrite !elem_of_app, !list_elem_of_singleton. auto.
Qed.

(** X7. A conversion that writes an empty document is a client error
    too: the 400 "<xform_path> is empty!" is raised, and the empty file
    stays at [xform_path]. *)
Theorem generate_updated_xform_empty_output
    (input_path xform_path form_file_extension form_category : string)
    (w : World) :
  form_file_extension <> "xml" ->
  xls2xform_convert (conversion_world input_path w) input_path = Returned "" ->
  let run := generate_updated_xform input_path xform_path form_file_extension
               form_category w in
  fst run = Raised (empty_output_error xform_path)
  /\ files (snd run) !! xform_path = Some "".
Proof.
  intros Hext Hconv. cbv zeta. rewrite generate_updated_xform_run.
  apply String.eqb_neq in Hext. rewrite Hext. cbv zeta. rewrite Hconv.
  cbn [String.length Nat.leb fst snd]. split; [reflexivity|].
  world_simpl. apply lookup_insert_eq.
Qed.


(** X9. In the [xml] mode [generate_updated_xform] writes as its last
    step only: whenever it raises, be it on reading the input, on
    parsing it or on opening the output, every file and directory is as
    it was, the file at [xform_path] included, and no remote call was
    made. *)
Theorem generate_updated_xform_xml_failure_writes_nothing
    (input_path xform_path form_category : string) (w : World) (e : Exn) :
  let run := generate_updated_xform input_path xform_path "xml"
               form_category w in
  fst run = Raised e ->
  files (snd run) = files w
  /\ dirs (snd run) = dirs w
  /\ trace (snd run) = trace w.
Proof.
  cbv zeta. rewrite generate_updated_xform_run. cbn [String.eqb Ascii.eqb].
  change (String.eqb "xml" "xml") with true. cbv iota.
  destruct (files w !! input_path) as [data|] eqn:Hin.
  - rewrite rewrite_and_write_run. cbv zeta.
    destruct (fromstring data) as [root|e'] eqn:Hparse.
    + unfold is_dir. world_simpl.
      destruct (bool_decide (xform_path ∈ dirs w)).
      * intros _. repeat split.
      * destruct (negb _); [|discriminate].
        intros _. repeat split.
    + intros _. repeat split.
  - intros _. repeat split.
Qed.
End TransformerFacts.

(** Rewriting twice is rewriting once. *)
Lemma rewrite_bindings_twice (xform_path form_category : string)
    (root : Element) :
  rewrite_bindings xform_path form_category
    (rewrite_bindings xform_path form_category root)
  = rewrite_bindings xform_path form_category root.
Proof.
  destruct (located_instances root)
    as [[[[hi head] [mi model]] ps]|] eqn:Hloc.
  - pose proof (rewritten_model_located xform_path form_category
                  _ _ _ _ _ _ Hloc) as Hloc'.
    rewrite (rewrite_bindings_eq _ _ _ _ _ _ _ _ Hloc') at 1.
    rewrite (rewrite_bindings_eq _ _ _ _ _ _ _ _ Hloc).
    assert (E : rewritten_model xform_path form_category
                  (rewritten_model xform_path form_category model)
                = rewritten_model xform_path form_category model).
    { unfold rewritten_model. cbn [children set_children].
      rewrite map_tagged_idem
        by auto using update_instance_tag, update_instance_idem.
      reflexivity. }
    rewrite E, !replace_replace. reflexivity.
  - unfold rewrite_bindings. now rewrite Hloc, Hloc.
Qed.

Section RerunFacts.
Context `{RT : Runtime} `{FL : FormLibs}.

(** X10. Rewriting in place a file that [generate_updated_xform] wrote
    changes nothing: when [xform_path] holds the serialisation of a
    rewritten tree and the parser reads that text back as the same
    tree, a run in the [xml] mode on [xform_path] itself returns and
    leaves every file as it was. *)
Theorem generate_updated_xform_rerun_in_place
    (xform_path form_category : string) (w : World) (root : Element) :
  let written := rewrite_bindings xform_path form_category root in
  files w !! xform_path = Some (tostring written) ->
  fromstring (tostring written) = Returned written ->
  is_dir w xform_path = false ->
  is_dir w (path_parent xform_path) = true ->
  let run := generate_updated_xform xform_path xform_path "xml"
               form_category w in
  fst run = Returned xform_path /\ files (snd run) = files w.
Proof.
  cbv zeta. intros Hfile Hparse Hnodir Hparent.
  rewrite generate_updated_xform_run.
  change (String.eqb "xml" "xml") with true. cbv iota.
  rewrite Hfile, rewrite_and_write_run. cbv zeta. rewrite Hparse.
  unfold is_dir in *. world_simpl. rewrite Hnodir, Hparent. cbn [negb].
  cbn [fst snd]. split; [reflexivity|]. world_simpl.
  rewrite rewrite_bindings_twice. now apply insert_id.
Qed.
End RerunFacts.

(** * The transformer and the validation together *)

Lemma append_nil_l (s : string) : "" +:+ s = s.
Proof. reflexivity. Qed.

Lemma contains_char_cons (c a : ascii) (s : string) :
  contains (String a s) (String c "") = false ->
  Ascii.eqb a c = false /\ contains s (String c "") = false.
Proof.
  cbn [contains startswith].
  destruct (Ascii.eqb a c); cbn [andb].
  - destruct s; discriminate.
  - destruct s; cbn [startswith]; auto.
Qed.

Lemma contains_char_cons_false (c a : ascii) (s : string) :
  Ascii.eqb a c = false -> contains s (String c "") = false ->
  contains (String a s) (String c "") = false.
Proof.
  intros Ha Hs. cbn [contains startswith]. rewrite Ha. cbn [andb]. exact Hs.
Qed.

Lemma contains_char_app (c : ascii) (s t : string) :
  contains s (String c "") = false -> contains t (String c "") = false ->
  contains (s +:+ t) (String c "") = false.
Proof.
  intros Hs Ht. induction s as [|a s IH]; [exact Ht|].
  apply contains_char_cons in Hs as [Ha Hs]. rewrite append_cons.
  apply contains_char_cons_false; auto.
Qed.

(** A text without the separator is one piece. *)
Lemma split_none (c : ascii) (s : string) :
  contains s (String c "") = false -> split c s = [s].
Proof.
  induction s as [|a s IH]; intros H; [reflexivity|].
  apply contains_char_cons in H as [Ha Hs].
  cbn [split]. rewrite Ha, (IH Hs). reflexivity.
Qed.

(** The first piece ends at the first separator. *)
Lemma split_app (c : ascii) (s t : string) :
  contains s (String c "") = false ->
  split c (s +:+ String c t) = s :: split c t.
Proof.
  induction s as [|a s IH]; intros H.
  - rewrite append_nil_l. cbn [split]. now rewrite Ascii.eqb_refl.
  - apply contains_char_cons in H as [Ha Hs].
    rewrite append_cons. cbn [split]. rewrite Ha, (IH Hs). reflexivity.
Qed.

(** No piece holds the separator. *)
Lemma split_pieces (c : ascii) (s : string) :
  Forall (fun x => contains x (String c "") = false) (split c s).
Proof.
  induction s as [|a s IH]; [repeat constructor|].
  cbn [split]. destruct (Ascii.eqb a c) eqn:Ha.
  - constructor; [reflexivity|exact IH].
  - destruct (split c s) as [|h t]; [repeat constructor; cbn [contains startswith];
      now rewrite Ha|].
    inversion IH as [|? ? Hh Ht]; subst.
    constructor; [|exact Ht]. now apply contains_char_cons_false.
Qed.

(** A piece of a text without [d] is without [d]. *)
Lemma split_pieces_without (c d : ascii) (s : string) :
  contains s (String d "") = false ->
  Forall (fun x => contains x (String d "") = false) (split c s).
Proof.
  induction s as [|a s IH]; intros H; [repeat constructor|].
  apply contains_char_cons in H as [Ha Hs]. specialize (IH Hs).
  cbn [split]. destruct (Ascii.eqb a c).
  - constructor; [reflexivity|exact IH].
  - destruct (split c s) as [|h t]; [repeat constructor;
      now apply contains_char_cons_false|].
    inversion IH as [|? ? Hh Ht]; subst.
    constructor; [|exact Ht]. now apply contains_char_cons_false.
Qed.

Lemma descendants_eq (e : Element) :
  descendants e = List.flat_map (fun c => c :: descendants c) (children e).
Proof.
  destruct e as [t a tx tl cs]. cbn [children descendants].
  induction cs as [|c cs IH]; [reflexivity|].
  cbn [List.flat_map app]. now rewrite IH.
Qed.

(** A child is a descendant, and so are the child's descendants. *)
Lemma descendants_child (e c : Element) (i : nat) :
  children e !! i = Some c ->
  c ∈ descendants e /\ (forall x, x ∈ descendants c -> x ∈ descendants e).
Proof.
  intros Hi. rewrite descendants_eq.
  apply list_elem_of_lookup_2, list_elem_of_In in Hi.
  split.
  - apply list_elem_of_In, in_flat_map. exists c. split; [exact Hi|now left].
  - intros x Hx. apply list_elem_of_In, in_flat_map. exists c.
    split; [exact Hi|]. right. now apply list_elem_of_In.
Qed.

(** X11. A media name [test_form_validity] reports holds neither a dot
    nor a slash: it is the last path component of what precedes the first
    dot of the [src]. *)
Theorem geojson_name_has_no_separator (inst : Element) (name : string) :
  geojson_name inst = Some name ->
  contains name "." = false /\ contains name "/" = false.
Proof.
  unfold geojson_name, index.
  destruct (assoc_get "src" (attrib inst)) as [src|]; [|discriminate].
  destruct (split "." src !! 1%nat) as [ext|]; [|discriminate].
  destruct (String.eqb ext "geojson"); [|discriminate].
  destruct (split "." src !! 0%nat) as [base|] eqn:Hbase; [|discriminate].
  intros Hlast.
  assert (Hdot : contains base "." = false).
  { pose proof (split_pieces "." src) as Hall.
    rewrite Forall_forall in Hall. apply Hall.
    eapply list_elem_of_lookup_2. exact Hbase. }
  apply last_Some in Hlast as [pre Hpre].
  assert (Hin : name ∈ split "/" base).
  { rewrite Hpre. apply elem_of_app. right. apply list_elem_of_here. }
  split.
  - pose proof (split_pieces_without "/" "." base Hdot) as Hall.
    rewrite Forall_forall in Hall. now apply Hall.
  - pose proof (split_pieces "/" base) as Hall.
    rewrite Forall_forall in Hall. now apply Hall.
Qed.

Section ReportedExtract.
Variable xform_path : string.
Variable form_category : string.
Hypothesis category_without_dot : contains form_category "." = false.
Hypothesis category_without_slash : contains form_category "/" = false.

Lemma geojson_name_of_reference :
  last (split "/" ("jr://file/" +:+ form_category)) = Some form_category.
Proof.
  change ("jr://file/" +:+ form_category)
    with ("jr:" +:+ String "/" ("" +:+ String "/"
            ("file" +:+ String "/" form_category))).
  rewrite !split_app by reflexivity.
  rewrite split_none by exact category_without_slash. reflexivity.
Qed.

(** The media name of an instance whose [src] was rewritten. *)
Lemma geojson_name_rewritten (inst : Element) (s : string) :
  assoc_get "src" (attrib inst) = Some s ->
  endswith s ".geojson" = true ->
  geojson_name (update_instance xform_path form_category inst)
  = Some form_category.
Proof.
  intros Hs Hend. unfold geojson_name.
  rewrite update_instance_attrib.
  rewrite (update_src_rewrites form_category inst s Hs Hend).
  change ("jr://file/" +:+ form_category +:+ ".geojson")
    with ("jr://file/" +:+ (form_category +:+ String "." "geojson")).
  assert (E : "jr://file/" +:+ (form_category +:+ String "." "geojson")
              = ("jr://file/" +:+ form_category) +:+ String "." "geojson").
  { reflexivity. }
  rewrite E. rewrite split_app.
  - cbn [index]. change (split "." "geojson") with ["geojson"].
    cbn [lookup list_lookup]. change (String.eqb "geojson" "geojson") with true.
    cbv iota. apply geojson_name_of_reference.
  - apply contains_char_app; [reflexivity|exact category_without_dot].
Qed.

(** X12. The validation finds the data extract the transformer bound:
    for a category without dot and slash, the media names
    [test_form_validity] collects from the rewritten document include
    the category as soon as an instance under head/model had a [src]
    ending in [.geojson]. *)
Theorem rewritten_extract_is_reported
    (root head model inst : Element) (hi mi i : nat) (s : string) :
  find root (qname "h" "head") = Some (hi, head) ->
  find head (qname "xforms" "model") = Some (mi, model) ->
  children model !! i = Some inst ->
  tag inst = qname "xforms" "instance" ->
  assoc_get "src" (attrib inst) = Some s ->
  endswith s ".geojson" = true ->
  form_category
  ∈ omap geojson_name
      (instances_with_src (rewrite_bindings xform_path form_category root)).
Proof.
  intros Hh Hm Hi Htag Hs Hend.
  assert (Hloc : located_instances root
                 = Some (hi, head, (mi, model),
                         findall model (qname "xforms" "instance"))).
  { apply located_instances_Some.
    pose proof (find_lookup _ _ _ _ Hm) as [Hmi _].
    split; [exact Hh|]. split; [exact (lookup_truthy _ _ _ Hmi)|].
    split; [exact Hm|]. split; [exact (lookup_truthy _ _ _ Hi)|reflexivity]. }
  apply (rewritten_model_located xform_path form_category) in Hloc.
  apply located_instances_Some in Hloc as (Hh' & _ & Hm' & _ & _).
  apply find_lookup in Hh' as [Hh' _]. apply find_lookup in Hm' as [Hm' _].
  set (inst' := update_instance xform_path form_category inst).
  assert (Hi' : children (rewritten_model xform_path form_category model) !! i
                = Some inst').
  { unfold rewritten_model. cbn [children]. now apply map_tagged_lookup. }
  apply descendants_child in Hh' as [_ Hhead].
  apply descendants_child in Hm' as [_ Hmodel].
  apply descendants_child in Hi' as [Hinst _].
  apply list_elem_of_omap. exists inst'. split.
  - unfold instances_with_src. apply list_elem_of_filter. split.
    + split; [unfold inst'; now rewrite update_instance_tag|].
      unfold inst'. rewrite update_instance_attrib.
      rewrite (update_src_rewrites form_category inst s Hs Hend). eauto.
    + auto.
  - now apply geojson_name_rewritten with s.
Qed.
End ReportedExtract.

(** * What the validation leaves behind *)

Section ValidationFiles.
Context `{RT : Runtime} `{FL : FormLibs}.

Lemma validate_path_not_outfile (form_type : string) :
  "/tmp/validate_form." +:+ form_type <> "/tmp/outfile.xml".
Proof. rewrite !append_cons. discriminate. Qed.



(** X15. A form reported valid was uploaded as bytes, and both working
    files are left in place: the upload file holds the content and the
    output file exists. *)
Theorem test_form_validity_keeps_working_files
    (xform_content : PyVal) (form_type : string) (w : World) (v : PyVal) :
  let run := test_form_validity xform_content form_type w in
  fst run = Returned (Plain v) ->
  exists b,
    xform_content = PyBytes b
    /\ files (snd run) !! ("/tmp/validate_form." +:+ form_type) = Some b
    /\ is_Some (files (snd run) !! "/tmp/outfile.xml").
Proof.
  cbv zeta.
  pose proof (validate_path_not_outfile form_type) as Hne.
  unfold test_form_validity, try_except, bind, open_write.
  destruct (is_dir w _); [discriminate|].
  destruct (negb _); [discriminate|].
  unfold file_write_bytes.
  destruct xform_content; try discriminate.
  unfold file_write, xls2xform.
  destruct (xls2xform_convert _ _) as [xml|e]; [|discriminate].
  unfold read_file. cbn [files set_files].
  rewrite lookup_insert_eq. unfold lift.
  destruct (fromstring xml); [|discriminate].
  intros _. exists b. cbn [fst snd ret files set_files].
  split; [reflexivity|]. split.
  - rewrite lookup_insert_ne by congruence. apply lookup_insert_eq.
  - rewrite lookup_insert_eq. eauto.
Qed.
End ValidationFiles.

(** * The submission converter: short payloads, failures, the debugger *)

Section MoreSubmissionFacts.
Context `{RT : Runtime} `{CSV : CSVDumpLib}.

(** With a payload of at most one byte a turn of the loop only logs. *)
Lemma convert_entry_short (data : string) (entry : PyVal) (c : CSVDump) :
  (String.length data <= 1)%nat ->
  let run := convert_entry data entry c in
  fst run = Returned tt
  /\ osm_out (snd run) = osm_out c
  /\ geojson_out (snd run) = geojson_out c
  /\ warnings (csv_logs (snd run)) = warnings (csv_logs c)
  /\ osm_finished (snd run) = osm_finished c
  /\ geojson_finished (snd run) = geojson_finished c
  /\ breakpoints (snd run) = breakpoints c
  /\ osm_file (snd run) = osm_file c
  /\ geojson_file (snd run) = geojson_file c.
Proof.
  intros Hlen. cbv zeta. unfold convert_entry, bind at 1, csv_log at 1.
  apply Nat.leb_le in Hlen. rewrite Hlen.
  unfold warnings. cbn.
  rewrite List.filter_app, ?app_nil_r. repeat split; reflexivity.
Qed.

Lemma convert_batch_short (data : string) (batch : list PyVal) (c : CSVDump) :
  (String.length data <= 1)%nat ->
  let run := for_each batch (convert_entry data) c in
  fst run = Returned tt
  /\ osm_out (snd run) = osm_out c
  /\ geojson_out (snd run) = geojson_out c
  /\ warnings (csv_logs (snd run)) = warnings (csv_logs c)
  /\ osm_finished (snd run) = osm_finished c
  /\ geojson_finished (snd run) = geojson_finished c
  /\ breakpoints (snd run) = breakpoints c
  /\ osm_file (snd run) = osm_file c
  /\ geojson_file (snd run) = geojson_file c.
Proof.
  intros Hlen. revert c.
  induction batch as [|entry batch IH]; intros c; cbv zeta.
  - cbn. repeat split; reflexivity.
  - cbn [for_each]. unfold bind.
    destruct (convert_entry_short data entry c Hlen)
      as (Hret & H1 & H2 & H3 & H4 & H5 & H6 & H7 & H8).
    destruct (convert_entry data entry c) as [o c1].
    cbn [fst snd] in *. subst o. cbv beta iota.
    destruct (IH c1) as (Hret' & K1 & K2 & K3 & K4 & K5 & K6 & K7 & K8).
    cbv zeta in *.
    rewrite K1, K2, K3, K4, K5, K6, K7, K8, H1, H2, H3, H4, H5, H6, H7, H8.
    repeat split. exact Hret'.
Qed.

(** X16. A payload of at most one byte converts nothing, whatever the
    file or the payload parses to: [convert_csv] returns [True], both
    outputs are opened under the names derived from [filespec], stay
    empty and are finished; no warning is logged and the debugger is not
    called. *)
Theorem convert_csv_short_payload (filespec data : string) :
  (String.length data <= 1)%nat ->
  let run := convert_csv filespec data in
  fst run = Returned true
  /\ osm_file (snd run) = Some (filespec +:+ ".osm")
  /\ geojson_file (snd run) = Some (filespec +:+ ".geojson")
  /\ osm_out (snd run) = [] /\ geojson_out (snd run) = []
  /\ osm_finished (snd run) = true /\ geojson_finished (snd run) = true
  /\ warnings (csv_logs (snd run)) = []
  /\ breakpoints (snd run) = 0%nat.
Proof.
  intros Hlen. cbv zeta. unfold convert_csv, convert_csv_steps, new_CSVDump.
  unfold bind, createOSM, createGeoJson, finishOSM, finishGeoJson, ret.
  cbn [yaml osm_file geojson_file osm_out geojson_out osm_finished
       geojson_finished csv_logs breakpoints].
  set (c0 := mkCSVDump _ _ _ _ _ _ _ _ _).
  destruct (String.length data =? 0)%nat.
  - cbn. repeat split; reflexivity.
  - destruct (convert_batch_short data (parse filespec (Some data)) c0 Hlen)
      as (Hret & H1 & H2 & H3 & H4 & H5 & H6 & H7 & H8).
    destruct (for_each _ _ c0) as [o c1]. cbn [fst snd] in *. subst o.
    cbn [fst snd yaml osm_file geojson_file osm_out geojson_out
         osm_finished geojson_finished csv_logs breakpoints].
    rewrite H1, H2, H3, H6, H7, H8. repeat split; reflexivity.
Qed.

(** A turn of the loop, by the record: it raises the error of the
    record, or writes the record when it is tagged; the streams stay as
    open or finished as they were. *)
Lemma convert_entry_outcome (data : string) (entry : PyVal) (c : CSVDump) :
  (1 < String.length data)%nat ->
  let f := createEntry entry in
  let run := convert_entry data entry c in
  osm_finished (snd run) = osm_finished c
  /\ geojson_finished (snd run) = geojson_finished c
  /\ match entry_error f with
     | None =>
         fst run = Returned tt
         /\ osm_out (snd run) = osm_out c ++ (if tagged f then [f] else [])
         /\ geojson_out (snd run)
            = geojson_out c ++ (if tagged f then [f] else [])
     | Some e =>
         fst run = Raised e
         /\ osm_out (snd run) = osm_out c
         /\ geojson_out (snd run) = geojson_out c
     end.
Proof.
  intros Hlen. cbv zeta.
  unfold convert_entry, bind at 1, csv_log at 1.
  destruct (String.length data <=? 1)%nat eqn:Hle.
  { apply Nat.leb_le in Hle. lia. }
  unfold entry_error, tagged, attrs_testable, has_coordinates.
  destruct (0 <? length (createEntry entry))%nat;
    [|cbn; rewrite !app_nil_r; now repeat split].
  destruct (assoc_mem "tags" (createEntry entry)); cbn [negb andb];
    [|cbn; rewrite !app_nil_r; now repeat split].
  unfold subscript, py_in, bind, ret, raise, import_epdb, epdb_st, writeOSM,
    writeGeoJson.
  destruct (assoc_get "attrs" (createEntry entry)) as [[]|];
    cbn; try now repeat split.
  all: match goal with
       | |- context [negb ?b] => destruct b
       end; cbn; try (destruct epdb_installed; cbn); now repeat split.
Qed.

(** The loop up to the first record that fails. *)
Lemma convert_batch_stops (data : string) (pre post : list PyVal)
    (entry : PyVal) (e : Exn) (c : CSVDump) :
  (1 < String.length data)%nat ->
  Forall (fun x => entry_error (createEntry x) = None) pre ->
  entry_error (createEntry entry) = Some e ->
  let run := for_each (pre ++ entry :: post) (convert_entry data) c in
  fst run = Raised e
  /\ osm_out (snd run) = osm_out c ++ List.filter tagged (map createEntry pre)
  /\ geojson_out (snd run)
     = geojson_out c ++ List.filter tagged (map createEntry pre)
  /\ osm_finished (snd run) = osm_finished c
  /\ geojson_finished (snd run) = geojson_finished c.
Proof.
  intros Hlen Hpre Hentry. revert c.
  induction Hpre as [|x pre Hx _ IH]; intros c; cbv zeta.
  - cbn [app for_each map List.filter]. unfold bind.
    destruct (convert_entry_outcome data entry c Hlen) as (Hfo & Hfj & Hout).
    cbv zeta in Hout. rewrite Hentry in Hout.
    destruct Hout as (Hret & Hosm & Hjson).
    destruct (convert_entry data entry c) as [o c1].
    cbn [fst snd] in *. subst o. cbn [fst snd].
    rewrite !app_nil_r. auto.
  - cbn [app for_each]. unfold bind.
    destruct (convert_entry_outcome data x c Hlen) as (Hfo & Hfj & Hout).
    cbv zeta in Hout. rewrite Hx in Hout.
    destruct Hout as (Hret & Hosm & Hjson).
    destruct (convert_entry data x c) as [o c1].
    cbn [fst snd] in *. subst o. cbv beta iota.
    destruct (IH c1) as (Hret' & Hosm' & Hjson' & Hfo' & Hfj').
    cbv zeta in *.
    rewrite Hosm', Hjson', Hfo', Hfj', Hosm, Hjson, Hfo, Hfj.
    cbn [map List.filter].
    split; [exact Hret'|].
    destruct (tagged (createEntry x)); cbn [app];
      rewrite <- ?app_assoc, ?app_nil_r; cbn [app]; auto.
Qed.

(** X17. [convert_csv] has no handler around its loop: the first
    record that fails ends the call with the error of that record, the
    [KeyError] of a tagged record without [attrs], the [TypeError] of
    attributes that cannot be searched, or the failed [import epdb] for
    a tagged record without [lat].  Both outputs then hold the tagged
    records that came before it and nothing of what follows, and neither
    stream is finished. *)
Theorem convert_csv_stops_at_first_failing_record
    (filespec data : string) (i : nat) (entry : PyVal) (e : Exn) :
  (1 < String.length data)%nat ->
  let batch := parse filespec (Some data) in
  batch !! i = Some entry ->
  Forall (fun x => entry_error (createEntry x) = None) (take i batch) ->
  entry_error (createEntry entry) = Some e ->
  let run := convert_csv filespec data in
  fst run = Raised e
  /\ osm_out (snd run) = List.filter tagged (map createEntry (take i batch))
  /\ geojson_out (snd run)
     = List.filter tagged (map createEntry (take i batch))
  /\ osm_finished (snd run) = false
  /\ geojson_finished (snd run) = false.
Proof.
  intros Hlen batch Hi Hpre Hentry. cbv zeta.
  unfold convert_csv, convert_csv_steps, new_CSVDump.
  unfold bind, createOSM, createGeoJson, finishOSM, finishGeoJson, ret.
  cbn [yaml osm_file geojson_file osm_out geojson_out osm_finished
       geojson_finished csv_logs breakpoints].
  set (c0 := mkCSVDump _ _ _ _ _ _ _ _ _).
  destruct (String.length data =? 0)%nat eqn:Hzero.
  { apply Nat.eqb_eq in Hzero. lia. }
  pose proof (convert_batch_stops data (take i batch) (drop (S i) batch)
                entry e c0 Hlen Hpre Hentry) as Hrun.
  cbv zeta in Hrun. rewrite (take_drop_middle batch i entry Hi) in Hrun.
  destruct Hrun as (Hret & Hosm & Hjson & Hfo & Hfj).
  fold batch.
  destruct (for_each batch (convert_entry data) c0) as [o c1].
  cbn [fst snd] in *. subst o.
  cbn [fst snd]. rewrite Hosm, Hjson, Hfo, Hfj. repeat split.
Qed.

(** With the debugger module installed, a turn of the loop writes every
    tagged record whose attributes can be searched. *)
Lemma convert_entry_debugger (data : string) (entry : PyVal) (c : CSVDump) :
  epdb_installed = true ->
  (1 < String.length data)%nat ->
  (tagged (createEntry entry) = true ->
   attrs_testable (createEntry entry) = true) ->
  let f := createEntry entry in
  let run := convert_entry data entry c in
  fst run = Returned tt
  /\ osm_out (snd run) = osm_out c ++ (if tagged f then [f] else [])
  /\ geojson_out (snd run) = geojson_out c ++ (if tagged f then [f] else [])
  /\ breakpoints (snd run)
     = (breakpoints c + (if needs_debugger f then 1 else 0))%nat.
Proof.
  intros Hepdb Hlen Hok. cbv zeta.
  unfold convert_entry, bind at 1, csv_log at 1.
  destruct (String.length data <=? 1)%nat eqn:Hle.
  { apply Nat.leb_le in Hle. lia. }
  unfold needs_debugger, tagged, attrs_testable, has_coordinates in *.
  destruct (0 <? length (createEntry entry))%nat;
    [|cbn; rewrite !app_nil_r, Nat.add_0_r; now repeat split].
  destruct (assoc_mem "tags" (createEntry entry)); cbn [negb andb] in *;
    [|cbn; rewrite !app_nil_r, Nat.add_0_r; now repeat split].
  specialize (Hok eq_refl).
  unfold subscript, py_in, bind, ret, raise, import_epdb, epdb_st, writeOSM,
    writeGeoJson.
  rewrite Hepdb.
  destruct (assoc_get "attrs" (createEntry entry)) as [[]|];
    try discriminate; cbn;
    match goal with
    | |- context [negb ?b] => destruct b
    end; cbn; rewrite ?Nat.add_0_r, ?Nat.add_1_r; now repeat split.
Qed.

Lemma convert_batch_debugger (data : string) (batch : list PyVal)
    (c : CSVDump) :
  epdb_installed = true ->
  (1 < String.length data)%nat ->
  Forall (fun entry => tagged (createEntry entry) = true ->
                       attrs_testable (createEntry entry) = true) batch ->
  let features := map createEntry batch in
  let run := for_each batch (convert_entry data) c in
  fst run = Returned tt
  /\ osm_out (snd run) = osm_out c ++ List.filter tagged features
  /\ geojson_out (snd run) = geojson_out c ++ List.filter tagged features
  /\ breakpoints (snd run)
     = (breakpoints c + length (List.filter needs_debugger features))%nat.
Proof.
  intros Hepdb Hlen Hall. revert c.
  induction Hall as [|entry batch Hentry _ IH]; intros c; cbv zeta.
  - cbn. rewrite !app_nil_r, Nat.add_0_r. repeat split; reflexivity.
  - cbn [for_each]. unfold bind.
    destruct (convert_entry_debugger data entry c Hepdb Hlen Hentry)
      as (Hret & Hosm & Hjson & Hbp).
    destruct (convert_entry data entry c) as [o c1].
    cbn [fst snd] in *. subst o. cbv beta iota.
    destruct (IH c1) as (Hret' & Hosm' & Hjson' & Hbp').
    cbv zeta in *.
    rewrite Hosm', Hjson', Hbp', Hosm, Hjson, Hbp.
    cbn [map List.filter].
    split; [exact Hret'|].
    destruct (tagged (createEntry entry)),
      (needs_debugger (createEntry entry));
      cbn [length app]; rewrite <- ?app_assoc; cbn [app];
      rewrite ?app_nil_r; repeat split; lia.
Qed.

(** X18. Where the debugger module is installed, the test for missing
    coordinates drops nothing: for a payload of more than one byte whose
    tagged records have searchable attributes, [convert_csv] returns
    [True], both outputs hold every tagged record in the order of the
    batch, with or without coordinates, and the debugger was entered once
    for each tagged record without them. *)
Theorem convert_csv_with_debugger_writes_all_tagged (filespec data : string) :
  epdb_installed = true ->
  (1 < String.length data)%nat ->
  Forall (fun entry => tagged (createEntry entry) = true ->
                       attrs_testable (createEntry entry) = true)
    (parse filespec (Some data)) ->
  let features := map createEntry (parse filespec (Some data)) in
  let run := convert_csv filespec data in
  fst run = Returned true
  /\ osm_out (snd run) = List.filter tagged features
  /\ geojson_out (snd run) = List.filter tagged features
  /\ breakpoints (snd run) = length (List.filter needs_debugger features).
Proof.
  intros Hepdb Hlen Hall. cbv zeta.
  unfold convert_csv, convert_csv_steps, new_CSVDump.
  unfold bind, createOSM, createGeoJson, finishOSM, finishGeoJson, ret.
  cbn [yaml osm_file geojson_file osm_out geojson_out osm_finished
       geojson_finished csv_logs breakpoints].
  set (c0 := mkCSVDump _ _ _ _ _ _ _ _ _).
  destruct (String.length data =? 0)%nat eqn:Hzero.
  { apply Nat.eqb_eq in Hzero. lia. }
  destruct (convert_batch_debugger data (parse filespec (Some data)) c0
              Hepdb Hlen Hall) as (Hret & Hosm & Hjson & Hbp).
  destruct (for_each _ _ c0) as [o c1]. cbn [fst snd] in *. subst o.
  cbn [fst snd yaml osm_file geojson_file osm_out geojson_out
       osm_finished geojson_finished csv_logs breakpoints].
  rewrite Hosm, Hjson, Hbp. repeat split; reflexivity.
Qed.
End MoreSubmissionFacts.

(** * Listing projects and submissions, uploading media *)

Ltac in_keys :=
  solve [repeat first [apply list_elem_of_here | apply list_elem_of_further]].

Section MoreCentralOperations.
Context `{RT : Runtime} `{ODK : OdkCentral} `{MORE : OdkCentralMore}
  `{UNI : Unicode} `{JSON : JsonRenderer}.

(** Constructing a client inside a session: no request is made, and the
    client is the one of the credentials unless the constructor failed. *)
Lemma in_world_client kind odk_central (s : Session) :
  let run := in_world (odk_client kind odk_central) s in
  requests (snd run) = requests s
  /\ (fst run = Returned (credentials kind odk_central)
      \/ exists cause, fst run = Raised (creation_error cause)).
Proof.
  cbv zeta. unfold in_world. rewrite odk_client_run. cbv zeta.
  destruct (remote _ _) as [v|e]; cbn [fst snd requests].
  - split; [reflexivity|left; reflexivity].
  - split; [reflexivity|right; exists e; reflexivity].
Qed.

(** X19. [GET /central/projects] makes one [listProjects] request with
    the configured credentials.  It answers [No projects found] only
    when the server answered [None]; every other answer, an empty list
    included, goes under [projects] into a [JSONResponse], which is
    returned with status 200 when the content renders and raises the
    renderer's error when it does not.  A failure of the request is
    raised as it is, a failure to connect as the 500 of
    [get_odk_project], without any request. *)
Theorem list_projects_outcomes (s : Session) :
  let run := list_projects s in
  let project := credentials OdkProject None in
  (exists cause,
      fst run = Raised (creation_error cause)
      /\ requests (snd run) = requests s)
  \/ (exists e,
         fst run = Raised e
         /\ requests (snd run) = requests s ++ [(ListProjects project, Raised e)])
  \/ (exists v,
         requests (snd run)
         = requests s ++ [(ListProjects project, Returned v)]
         /\ (v = PyNone -> fst run = Returned no_projects_found)
         /\ (v <> PyNone ->
             fst run
             = match render (PyDict [("projects", v)]) with
               | Returned _ =>
                   Returned (JSONResponse (PyDict [("projects", v)]) 200)
               | Raised e => Raised e
               end)).
Proof.
  cbv zeta. remember (list_projects s) as run eqn:Hrun.
  unfold list_projects, list_odk_projects, get_odk_project in Hrun.
  unfold bind in Hrun.
  destruct (in_world_client OdkProject None s) as [Hreq Hout].
  destruct (in_world (odk_client OdkProject None) s) as [[c|e0] s1].
  - cbn [fst snd] in *. destruct Hout as [[= ->]|[cause [=]]].
    unfold request in Hrun. cbv zeta in Hrun.
    destruct (answer s1 _) as [v|e]; subst run.
    + right. right. exists v. split.
      { destruct v; unfold json_response, ret;
          try destruct (render _); cbn [fst snd requests];
          now rewrite Hreq. }
      split; [intros ->; reflexivity|].
      intros Hv.
      destruct v; try (now destruct Hv);
        unfold json_response; destruct (render _); reflexivity.
    + right. left. exists e. cbn [fst snd requests]. rewrite Hreq.
      split; reflexivity.
  - cbn [fst snd] in *. destruct Hout as [[=]|[cause [= ->]]].
    subst run. left. exists cause. split; [reflexivity|exact Hreq].
Qed.

Lemma append_all_app (submissions subms : list PyVal) :
  append_all submissions subms = submissions ++ subms.
Proof.
  unfold append_all. revert submissions.
  induction subms as [|x subms IH]; intros submissions; cbn [fold_left].
  - now rewrite app_nil_r.
  - rewrite IH, <- app_assoc. reflexivity.
Qed.

(** The loop over the app users: it stops at the first user without a
    display name, at the first failed request and at the first answer
    that cannot be visited; until then every user has one recorded
    request, and the result gathers the answers in order. *)
Lemma collect_submissions_run (xform : Client) (project_id : Z)
    (users acc : list PyVal) (s : Session) :
  let run := collect_submissions xform project_id users acc s in
  world (snd run) = world s
  /\ exists evs,
       requests (snd run) = requests s ++ evs
       /\ ((fst run = Returned (acc ++ flat_map submissions_of evs)
            /\ Forall2 (listed_for xform project_id) users evs)
           \/ (exists e k u,
                  fst run = Raised e
                  /\ users !! k = Some u
                  /\ Forall (fun u' => exists name,
                                display_name u' = Returned name)
                       (take k users)
                  /\ ((display_name u = Raised e /\ length evs = k)
                      \/ ((exists name, display_name u = Returned name)
                          /\ length evs = S k)))).
Proof.
  revert acc s. induction users as [|user users IH]; intros acc s; cbv zeta.
  - cbn. split; [reflexivity|]. exists []. rewrite !app_nil_r.
    split; [reflexivity|]. left. split; [reflexivity|constructor].
  - remember (collect_submissions xform project_id (user :: users) acc s)
      as run eqn:Hrun.
    cbn [collect_submissions] in Hrun. unfold bind at 1 in Hrun.
    destruct (display_name user) as [name|e] eqn:Hname.
    2:{ subst run. cbn [fst snd]. split; [reflexivity|]. exists [].
        rewrite app_nil_r. split; [reflexivity|]. right.
        exists e, 0%nat, user. split; [reflexivity|].
        split; [reflexivity|]. split; [constructor|].
        left. split; [exact Hname|reflexivity]. }
    unfold bind at 1 in Hrun. unfold request at 1 in Hrun. cbv zeta in Hrun.
    set (r := ListSubmissions xform project_id name) in *.
    destruct (answer s r) as [a|e] eqn:Hans.
    2:{ subst run. cbn [fst snd world requests]. split; [reflexivity|].
        exists [(r, Raised e)]. split; [reflexivity|]. right.
        exists e, 0%nat, user. split; [reflexivity|].
        split; [reflexivity|]. split; [constructor|].
        right. split; [eauto|reflexivity]. }
    unfold bind at 1 in Hrun. unfold py_iter at 1 in Hrun.
    destruct (iterate a) as [l|] eqn:Hiter.
    2:{ subst run. cbn [fst snd world requests raise]. split; [reflexivity|].
        exists [(r, Returned a)]. split; [reflexivity|]. right.
        eexists _, 0%nat, user. split; [reflexivity|].
        split; [reflexivity|]. split; [constructor|].
        right. split; [eauto|reflexivity]. }
    unfold ret at 1 in Hrun. cbv beta iota in Hrun.
    set (s1 := mkSession (world s) (requests s ++ [(r, Returned a)])) in *.
    destruct (IH (append_all acc l) s1) as [Hw [evs [Hreq Hcases]]].
    cbv zeta in *. rewrite <- Hrun in *.
    split; [rewrite Hw; reflexivity|].
    exists ((r, Returned a) :: evs). split.
    { rewrite Hreq. subst s1. cbn [requests].
      rewrite <- app_assoc. reflexivity. }
    destruct Hcases as [[Hret Hall]|(e & k & u & Hret & Hu & Hnamed & Hlen)].
    + left. split.
      * rewrite Hret, append_all_app. cbn [flat_map].
        unfold submissions_of at 2. cbn [snd]. rewrite Hiter.
        cbn [default]. rewrite <- app_assoc. reflexivity.
      * constructor; [|exact Hall]. exists name, a, l. auto.
    + right. exists e, (S k), u. split; [exact Hret|].
      split; [exact Hu|]. split; [constructor; eauto|]. cbn [length].
      destruct Hlen as [[H1 H2]|[H1 H2]]; [left|right]; split; auto.
Qed.

(** X20. What [list_submissions] returns is the concatenation, in the
    order of the app users, of the answers to one [listSubmissions]
    request per user: after the [listAppUsers] request the session
    records, for each user in turn, the request made with the user's
    display name and the form client, and nothing else. *)
Theorem list_submissions_concatenates (project_id : Z)
    (odk_central : option ODKCentralDecrypted) (s : Session)
    (submissions : list PyVal) :
  let run := list_submissions project_id odk_central s in
  fst run = Returned submissions ->
  exists listed users evs,
    requests (snd run)
    = requests s
      ++ (ListAppUsers (credentials OdkProject odk_central) project_id,
          Returned listed) :: evs
    /\ iterate listed = Some users
    /\ Forall2 (listed_for (credentials OdkForm odk_central) project_id)
         users evs
    /\ submissions = flat_map submissions_of evs.
Proof.
  cbv zeta. remember (list_submissions project_id odk_central s) as run eqn:Hrun.
  unfold list_submissions, get_odk_project, get_odk_form in Hrun.
  unfold bind at 1 in Hrun.
  destruct (in_world_client OdkProject odk_central s) as [Hreq1 Hout1].
  destruct (in_world (odk_client OdkProject odk_central) s) as [[c1|e1] s1];
    cbn [fst snd] in *; [|subst run; discriminate].
  destruct Hout1 as [[= ->]|[cause [=]]].
  unfold bind at 1 in Hrun.
  destruct (in_world_client OdkForm odk_central s1) as [Hreq2 Hout2].
  destruct (in_world (odk_client OdkForm odk_central) s1) as [[c2|e2] s2];
    cbn [fst snd] in *; [|subst run; discriminate].
  destruct Hout2 as [[= ->]|[cause [=]]].
  unfold bind at 1 in Hrun. unfold request at 1 in Hrun. cbv zeta in Hrun.
  set (r := ListAppUsers _ _) in *.
  destruct (answer s2 r) as [listed|e]; [|subst run; discriminate].
  unfold bind at 1 in Hrun. unfold py_iter at 1 in Hrun.
  destruct (iterate listed) as [users|] eqn:Hiter; [|subst run; discriminate].
  unfold ret at 1 in Hrun. cbv beta iota in Hrun.
  set (s3 := mkSession _ _) in *.
  destruct (collect_submissions_run (credentials OdkForm odk_central)
              project_id users [] s3) as [_ [evs [Hreq Hcases]]].
  cbv zeta in *. rewrite <- Hrun in *. intros Hret.
  destruct Hcases as [[Hret' Hall]|(e & k & u & Hret' & _)];
    [|rewrite Hret' in Hret; discriminate].
  rewrite Hret' in Hret. injection Hret as <-.
  exists listed, users, evs. split.
  { rewrite Hreq. subst s3. cbn [requests]. rewrite Hreq2, Hreq1.
    rewrite <- app_assoc. reflexivity. }
  split; [exact Hiter|]. split; [exact Hall|reflexivity].
Qed.

(** X21. One app user without a display name fails the whole listing:
    when the answer to [listAppUsers] holds, at position [i], a user
    whose [displayName] cannot be read, [list_submissions] raises, and
    it has asked for the submissions of at most the [i] users before. *)
Theorem list_submissions_stops_at_nameless_user (project_id : Z)
    (odk_central : option ODKCentralDecrypted) (s : Session)
    (listed : PyVal) (users : list PyVal) (i : nat) (u : PyVal) (e : Exn) :
  let run := list_submissions project_id odk_central s in
  requests (snd run) !! length (requests s)
  = Some (ListAppUsers (credentials OdkProject odk_central) project_id,
          Returned listed) ->
  iterate listed = Some users ->
  users !! i = Some u ->
  display_name u = Raised e ->
  (exists e', fst run = Raised e')
  /\ (length (requests (snd run)) <= length (requests s) + 1 + i)%nat.
Proof.
  cbv zeta. remember (list_submissions project_id odk_central s) as run eqn:Hrun.
  unfold list_submissions, get_odk_project, get_odk_form in Hrun.
  unfold bind at 1 in Hrun.
  destruct (in_world_client OdkProject odk_central s) as [Hreq1 Hout1].
  destruct (in_world (odk_client OdkProject odk_central) s) as [[c1|e1] s1];
    cbn [fst snd] in *.
  2:{ subst run. cbn [fst snd]. rewrite Hreq1. intros Hl.
      apply lookup_lt_Some in Hl. lia. }
  destruct Hout1 as [[= ->]|[cause [=]]].
  unfold bind at 1 in Hrun.
  destruct (in_world_client OdkForm odk_central s1) as [Hreq2 Hout2].
  destruct (in_world (odk_client OdkForm odk_central) s1) as [[c2|e2] s2];
    cbn [fst snd] in *.
  2:{ subst run. cbn [fst snd]. rewrite Hreq2, Hreq1. intros Hl.
      apply lookup_lt_Some in Hl. lia. }
  destruct Hout2 as [[= ->]|[cause [=]]].
  unfold bind at 1 in Hrun. unfold request at 1 in Hrun. cbv zeta in Hrun.
  set (r := ListAppUsers _ _) in *.
  assert (Hs2 : requests s2 = requests s) by congruence.
  destruct (answer s2 r) as [listed'|e0].
  2:{ subst run. cbn [fst snd requests]. rewrite Hs2.
      rewrite list_lookup_middle by reflexivity. discriminate. }
  unfold bind at 1 in Hrun. unfold py_iter at 1 in Hrun.
  destruct (iterate listed') as [users'|] eqn:Hiter.
  2:{ subst run. cbn [fst snd requests raise]. rewrite Hs2.
      rewrite list_lookup_middle by reflexivity.
      intros [= <-] Hiter'. congruence. }
  unfold ret at 1 in Hrun. cbv beta iota in Hrun.
  set (s3 := mkSession _ _) in *.
  destruct (collect_submissions_run (credentials OdkForm odk_central)
              project_id users' [] s3) as [_ [evs [Hreq Hcases]]].
  cbv zeta in *. rewrite <- Hrun in *. rewrite Hreq. subst s3.
  cbn [requests]. rewrite Hs2.
  rewrite <- app_assoc. cbn [app].
  rewrite list_lookup_middle by reflexivity.
  intros [= <-] Hiter' Hu He.
  assert (users' = users) as -> by congruence.
  rewrite !length_app. cbn [length].
  destruct Hcases as [[Hret Hall]|(e' & k & u' & Hret & Hu' & Hnamed & Hlen)].
  - exfalso.
    destruct (Forall2_lookup_l _ _ _ _ _ Hall Hu)
      as (ev & _ & name & a & l & Hn & _).
    congruence.
  - split; [eauto|].
    assert (Hik : (k <= i)%nat).
    { destruct (Nat.le_gt_cases k i) as [Hle|Hgt]; [exact Hle|exfalso].
      rewrite Forall_lookup in Hnamed.
      destruct (Hnamed i u) as [name Hname]; [|congruence].
      rewrite lookup_take_lt by lia. exact Hu. }
    assert (Hk : (length evs <= i)%nat); [|lia].
    destruct Hlen as [[_ Hlen]|[[name Hname] Hlen]]; [lia|].
    assert (k <> i) by (intros ->; congruence). lia.
Qed.
(** The credentials of [upload_xform_media]: a form client, or the
    [KeyError] of a key the dict lacks; nothing is called or written. *)
Lemma media_credentials_run (odk_credentials : option (list (string * string)))
    (w : World) :
  let run := media_credentials odk_credentials w in
  trace (snd run) = trace w
  /\ files (snd run) = files w
  /\ dirs (snd run) = dirs w
  /\ ((exists c, fst run = Returned c /\ client_kind c = OdkForm)
      \/ (exists k d,
             fst run = Raised (PyExn "KeyError" k)
             /\ k ∈ credential_keys
             /\ odk_credentials = Some d
             /\ assoc_get k d = None)).
Proof.
  cbv zeta. unfold media_credentials, credential_keys.
  destruct odk_credentials as [[|kv d]|];
    try (cbn; repeat split; left; eexists; split; reflexivity).
  unfold bind, str_subscript, ret, raise.
  destruct (assoc_get "odk_central_url" (kv :: d)) eqn:H1.
  2:{ cbn [fst snd]. repeat split. right.
      exists "odk_central_url", (kv :: d). repeat split; [in_keys|exact H1]. }
  destruct (assoc_get "odk_central_user" (kv :: d)) eqn:H2.
  2:{ cbn [fst snd]. repeat split. right.
      exists "odk_central_user", (kv :: d). repeat split; [in_keys|exact H2]. }
  destruct (assoc_get "odk_central_password" (kv :: d)) eqn:H3.
  2:{ cbn [fst snd]. repeat split. right.
      exists "odk_central_password", (kv :: d).
      repeat split; [in_keys|exact H3]. }
  cbn [fst snd]. repeat split. left. eexists. split; reflexivity.
Qed.

(** X22. [upload_xform_media] connects, uploads, publishes, in this
    order and no further than the first failure.  A dict of credentials
    that lacks a key raises [KeyError] before anything is contacted; a
    failed connection raises the 500 [Connection failed to odk central]
    and nothing is uploaded; a failed upload is raised as it is and
    nothing is published; otherwise the outcome is the one of
    [publishForm].  The title of both requests is derived from
    [filespec], and no local file is written. *)
Theorem upload_xform_media_outcomes (project_id : Z) (xform_id filespec : string)
    (odk_credentials : option (list (string * string))) (s : Session) :
  let run := upload_xform_media project_id xform_id filespec odk_credentials s in
  let title := media_title filespec in
  let evs := new_events (world s) (world (snd run)) in
  let reqs := drop (length (requests s)) (requests (snd run)) in
  files (world (snd run)) = files (world s)
  /\ ((exists k d,
          fst run = Raised (PyExn "KeyError" k)
          /\ k ∈ credential_keys
          /\ odk_credentials = Some d /\ assoc_get k d = None
          /\ evs = [] /\ reqs = [])
      \/ (exists xform,
             client_kind xform = OdkForm
             /\ ((exists cause,
                     evs = [(Connect xform, Raised cause)]
                     /\ reqs = []
                     /\ fst run = Raised connection_failed)
                 \/ (exists v e,
                        evs = [(Connect xform, Returned v)]
                        /\ reqs = [(UploadMediaFile xform project_id title
                                      filespec, Raised e)]
                        /\ fst run = Raised e)
                 \/ (exists v r out,
                        evs = [(Connect xform, Returned v);
                               (PublishForm xform project_id title, out)]
                        /\ reqs = [(UploadMediaFile xform project_id title
                                      filespec, Returned r)]
                        /\ fst run = out)))).
Proof.
  cbv zeta.
  remember (upload_xform_media project_id xform_id filespec odk_credentials s)
    as run eqn:Hrun.
  unfold upload_xform_media, bind, in_world, try_except, call, request, log,
    raise, ret in Hrun.
  cbv zeta in Hrun.
  destruct (media_credentials_run odk_credentials (world s))
    as (Ht & Hf & _ & Hout).
  destruct (media_credentials odk_credentials (world s)) as [o w1].
  cbn [fst snd world requests] in *.
  destruct Hout as [(xform & -> & Hkind)|(k & d & -> & Hk & Hd & Hnone)].
  2:{ subst run. cbn [fst snd world requests]. split; [exact Hf|]. left.
      exists k, d. repeat split; try assumption.
      - apply new_events_app. rewrite Ht, app_nil_r. reflexivity.
      - apply drop_all. }
  destruct (remote w1 (Connect xform)) as [v|cause];
    cbn [fst snd world requests] in Hrun.
  2:{ subst run. cbn [fst snd world requests files add_log add_event].
      split; [exact Hf|]. right. exists xform. split; [exact Hkind|].
      left. exists cause. repeat split.
      - apply new_events_app. cbn [trace add_log add_event]. now rewrite Ht.
      - apply drop_all. }
  match type of Hrun with
  | context [answer ?x ?y] => destruct (answer x y) as [r|e]
  end; cbn [fst snd world requests] in Hrun.
  2:{ subst run. cbn [fst snd world requests files add_log add_event].
      split; [exact Hf|]. right. exists xform. split; [exact Hkind|].
      right. left. exists v, e. repeat split.
      - apply new_events_app. cbn [trace add_log add_event]. now rewrite Ht.
      - apply drop_app_length. }
  match type of Hrun with
  | context [remote ?x ?y] => destruct (remote x y) as [p|e]
  end; cbn [fst snd world requests] in Hrun; subst run;
    cbn [fst snd world requests files add_log add_event].
  - split; [exact Hf|]. right. exists xform. split; [exact Hkind|].
    right. right. exists v, r, (Returned p). repeat split.
    + apply new_events_app. cbn [trace add_log add_event].
      rewrite Ht, <- app_assoc. reflexivity.
    + apply drop_app_length.
  - split; [exact Hf|]. right. exists xform. split; [exact Hkind|].
    right. right. exists v, r, (Raised e). repeat split.
    + apply new_events_app. cbn [trace add_log add_event].
      rewrite Ht, <- app_assoc. reflexivity.
    + apply drop_app_length.
Qed.
End MoreCentralOperations.

(** * File names: the title of an upload and the name of a form *)

Lemma append_assoc_cons (s t u : string) (c : ascii) :
  (s +:+ String c t) +:+ u = s +:+ String c (t +:+ u).
Proof.
  induction s as [|a s IH]; [reflexivity|].
  rewrite !append_cons. now rewrite IH.
Qed.

Lemma contains_char_here (c : ascii) (s t : string) :
  contains (s +:+ String c t) (String c "") = true.
Proof.
  induction s as [|a s IH].
  - rewrite append_nil_l. cbn [contains startswith].
    rewrite Ascii.eqb_refl. now destruct t.
  - rewrite append_cons. cbn [contains startswith].
    destruct (Ascii.eqb a c); cbn [andb].
    + now destruct (s +:+ String c t).
    + destruct (s +:+ String c t) eqn:E; exact IH.
Qed.

Lemma contains_char_app_inv (c : ascii) (s t : string) :
  contains (s +:+ t) (String c "") = false ->
  contains s (String c "") = false /\ contains t (String c "") = false.
Proof.
  induction s as [|a s IH]; intros H.
  - split; [reflexivity|exact H].
  - rewrite append_cons in H. apply contains_char_cons in H as [Ha Hs].
    destruct (IH Hs) as [H1 H2]. split; [|exact H2].
    now apply contains_char_cons_false.
Qed.

(** [rsplit] cuts at the last separator. *)
Lemma rsplit_None (c : ascii) (s : string) :
  rsplit c s = None -> contains s (String c "") = false.
Proof.
  induction s as [|a s IH]; [reflexivity|].
  cbn [rsplit]. destruct (rsplit c s) as [[pre post]|]; [discriminate|].
  destruct (Ascii.eqb a c) eqn:Ha; [discriminate|]. intros _.
  apply contains_char_cons_false; auto.
Qed.

Lemma rsplit_free (c : ascii) (s : string) :
  contains s (String c "") = false -> rsplit c s = None.
Proof.
  induction s as [|a s IH]; intros H; [reflexivity|].
  apply contains_char_cons in H as [Ha Hs].
  cbn [rsplit]. now rewrite (IH Hs), Ha.
Qed.

Lemma rsplit_Some (c : ascii) (s pre post : string) :
  rsplit c s = Some (pre, post) ->
  s = pre +:+ String c post /\ contains post (String c "") = false.
Proof.
  revert pre. induction s as [|a s IH]; intros pre; [discriminate|].
  cbn [rsplit]. destruct (rsplit c s) as [[pre' post']|] eqn:E.
  - intros [= <- <-]. destruct (IH pre' eq_refl) as [-> Hpost].
    split; [reflexivity|exact Hpost].
  - destruct (Ascii.eqb a c) eqn:Ha; [|discriminate].
    intros [= <- <-]. apply Ascii.eqb_eq in Ha as ->.
    split; [reflexivity|]. now apply rsplit_None.
Qed.

Lemma rsplit_app (c : ascii) (pre post : string) :
  contains post (String c "") = false ->
  rsplit c (pre +:+ String c post) = Some (pre, post).
Proof.
  intros Hpost. induction pre as [|a pre IH].
  - rewrite append_nil_l. cbn [rsplit].
    now rewrite (rsplit_free c post Hpost), Ascii.eqb_refl.
  - rewrite append_cons. cbn [rsplit]. now rewrite IH.
Qed.

(** A cut at [c] of a text that ends in a piece without [c]. *)
Lemma rsplit_before (c b : ascii) (s t : string) :
  Ascii.eqb b c = false ->
  contains t (String c "") = false ->
  rsplit c (s +:+ String b t)
  = match rsplit c s with
    | Some (pre, post) => Some (pre, post +:+ String b t)
    | None => None
    end.
Proof.
  intros Hb Ht. induction s as [|a s IH].
  - rewrite append_nil_l. cbn [rsplit].
    now rewrite (rsplit_free c t Ht), Hb.
  - rewrite append_cons. cbn [rsplit]. rewrite IH.
    destruct (rsplit c s) as [[pre post]|]; [reflexivity|].
    destruct (Ascii.eqb a c); reflexivity.
Qed.

Lemma basename_free (s : string) :
  contains s "/" = false -> basename s = s.
Proof. intros H. unfold basename. now rewrite (rsplit_free "/" s H). Qed.

Lemma basename_app (dir name : string) :
  contains name "/" = false -> basename (dir +:+ String "/" name) = name.
Proof. intros H. unfold basename. now rewrite (rsplit_app "/" dir name H). Qed.

(** The title of a file name without directory. *)
Lemma media_title_of_name (name : string) :
  contains name "/" = false ->
  media_title name
  = match rsplit "." name with
    | Some (pre, post) => if all_dots pre then name else pre
    | None => name
    end.
Proof.
  intros Hname. unfold media_title, splitext_root.
  destruct (rsplit "." name) as [[pre post]|] eqn:E;
    [|now apply basename_free].
  apply rsplit_Some in E as [-> _].
  apply contains_char_app_inv in Hname as [Hpre Hpost].
  apply contains_char_cons in Hpost as [_ Hpost].
  rewrite Hpost, (basename_free pre Hpre).
  destruct (all_dots pre).
  - apply basename_free. apply contains_char_app; [exact Hpre|].
    now apply contains_char_cons_false.
  - now apply basename_free.
Qed.

(** The title of a file in a directory is the title of its name. *)
Lemma media_title_in_directory (dir name : string) :
  contains name "/" = false ->
  media_title (dir +:+ String "/" name) = media_title name.
Proof.
  intros Hname.
  rewrite (media_title_of_name name Hname).
  unfold media_title, splitext_root.
  destruct (rsplit "." name) as [[pre post]|] eqn:E.
  - apply rsplit_Some in E as [-> Hdot].
    pose proof Hname as Hparts.
    apply contains_char_app_inv in Hparts as [Hpre Hpost].
    apply contains_char_cons in Hpost as [_ Hpost].
    rewrite <- append_assoc_cons.
    rewrite (rsplit_app "." (dir +:+ String "/" pre) post Hdot).
    rewrite Hpost, (basename_app dir pre Hpre).
    destruct (all_dots pre).
    + rewrite append_assoc_cons. now apply basename_app.
    + now apply basename_app.
  - apply rsplit_None in E.
    rewrite (rsplit_before "." "/" dir name eq_refl E).
    destruct (rsplit "." dir) as [[pre post]|].
    + rewrite contains_char_here. now apply basename_app.
    + now apply basename_app.
Qed.

(** X23. The title [upload_xform_media] derives from a file does not
    depend on the directory the file is in, and never holds a slash. *)
Theorem media_title_ignores_directory (dir name : string) :
  contains name "/" = false ->
  media_title (dir +:+ "/" +:+ name) = media_title name
  /\ contains (media_title name) "/" = false.
Proof.
  intros Hname. split.
  - rewrite append_cons, append_nil_l.
    now apply media_title_in_directory.
  - rewrite (media_title_of_name name Hname).
    destruct (rsplit "." name) as [[pre post]|] eqn:E; [|exact Hname].
    destruct (all_dots pre); [exact Hname|].
    apply rsplit_Some in E as [-> _].
    now apply contains_char_app_inv in Hname as [Hpre _].
Qed.

Lemma all_dots_starts (pre post : string) :
  all_dots pre = true -> pre <> "" ->
  startswith (pre +:+ String "." post) ".." = true.
Proof.
  destruct pre as [|a pre]; [congruence|]. intros H _.
  cbn [all_dots] in H. apply andb_prop in H as [Ha Hpre].
  rewrite append_cons. cbn [startswith]. rewrite Ha. cbn [andb].
  destruct pre as [|b pre].
  - rewrite append_nil_l. now destruct post.
  - cbn [all_dots] in Hpre. apply andb_prop in Hpre as [Hb _].
    rewrite append_cons. cbn [startswith]. rewrite Hb. cbn [andb].
    now destruct (pre +:+ String "." post).
Qed.

Lemma split_nonempty (c : ascii) (s : string) : split c s <> [].
Proof.
  destruct s as [|a s]; cbn [split]; [discriminate|].
  destruct (Ascii.eqb a c); [discriminate|].
  destruct (split c s); discriminate.
Qed.

(** The last piece of a text is what follows its last separator. *)
Lemma split_snoc (c : ascii) (dir name : string) :
  contains name (String c "") = false ->
  split c (dir +:+ String c name) = split c dir ++ [name].
Proof.
  intros Hname. induction dir as [|a dir IH].
  - rewrite append_nil_l. cbn [split]. rewrite Ascii.eqb_refl.
    now rewrite (split_none c name Hname).
  - rewrite append_cons. cbn [split]. rewrite IH.
    destruct (Ascii.eqb a c); [reflexivity|].
    pose proof (split_nonempty c dir) as Hne.
    destruct (split c dir) as [|h t]; [contradiction|reflexivity].
Qed.

(** The name of a path whose text ends in a component. *)
Lemma path_name_free (p : string) :
  contains p "/" = false -> p <> "." -> path_name p = p.
Proof.
  intros Hp Hdot. unfold path_name, path_parts.
  rewrite (split_none "/" p Hp). cbn [List.filter].
  destruct (String.eqb p "") eqn:E1.
  - apply String.eqb_eq in E1 as ->. reflexivity.
  - destruct (String.eqb p ".") eqn:E2.
    + apply String.eqb_eq in E2. contradiction.
    + reflexivity.
Qed.

Lemma path_name_in_directory (dir name : string) :
  contains name "/" = false -> name <> "" -> name <> "." ->
  path_name (dir +:+ String "/" name) = name.
Proof.
  intros Hname Hne Hdot. unfold path_name, path_parts.
  rewrite (split_snoc "/" dir name Hname), List.filter_app.
  cbn [List.filter].
  destruct (String.eqb name "") eqn:E1.
  { apply String.eqb_eq in E1. contradiction. }
  destruct (String.eqb name ".") eqn:E2.
  { apply String.eqb_eq in E2. contradiction. }
  cbn [orb negb]. now rewrite last_snoc.
Qed.

(** X24. [upload_xform_media] and [create_odk_xform] name the same form
    for the same file: when the text of the path does not end in a
    separator and its last component neither ends in a dot nor starts
    with two, the title the one derives with [os.path] is the stem the
    other takes from [pathlib]. *)
Theorem media_title_is_path_stem (p : string) :
  endswith p "/" = false ->
  endswith (basename p) "." = false ->
  startswith (basename p) ".." = false ->
  media_title p = path_stem p.
Proof.
  intros Hslash Hend Hstart.
  assert (Hred : exists name,
             basename p = name /\ contains name "/" = false
             /\ media_title p = media_title name
             /\ path_name p = name).
  { unfold basename in *. destruct (rsplit "/" p) as [[dir name]|] eqn:E.
    - apply rsplit_Some in E as [-> Hname]. exists name.
      split; [reflexivity|]. split; [exact Hname|].
      split; [now apply media_title_in_directory|].
      apply path_name_in_directory; [exact Hname| |].
      + intros ->. rewrite endswith_app in Hslash by reflexivity.
        discriminate.
      + intros ->. discriminate.
    - apply rsplit_None in E. exists p.
      split; [reflexivity|]. split; [exact E|]. split; [reflexivity|].
      apply path_name_free; [exact E|]. intros ->. discriminate. }
  destruct Hred as (name & Hbase & Hname & -> & Hpn).
  rewrite Hbase in Hend, Hstart.
  unfold path_stem. rewrite Hpn. cbv zeta.
  rewrite (media_title_of_name name Hname).
  destruct (rsplit "." name) as [[pre post]|] eqn:E; [|reflexivity].
  apply rsplit_Some in E as [-> _].
  destruct (String.eqb pre "") eqn:Hpre.
  - apply String.eqb_eq in Hpre as ->. reflexivity.
  - assert (Hne : pre <> "") by (intros ->; discriminate).
    destruct (all_dots pre) eqn:Hdots.
    + rewrite (all_dots_starts pre post Hdots Hne) in Hstart. discriminate.
    + destruct (String.eqb post "") eqn:Hpost; [|reflexivity].
      apply String.eqb_eq in Hpost as ->.
      rewrite endswith_app in Hend by reflexivity. discriminate.
Qed.

(** * The further properties on concrete runs *)

(** Which paths count as canonical. *)
Example canonical_examples :
  canonical "/tmp/notes.txt" = true
  /\ canonical (geojson_path_of 7 "buildings") = true
  /\ canonical (geojson_path_of 7 "../8/roads") = false
  /\ canonical "/tmp//notes.txt" = false
  /\ canonical "notes.txt" = false.
Proof. repeat split; reflexivity. Qed.

(** A file of notes in [/tmp] survives the creation of a form. *)
Lemma create_odk_xform_other_files_untouched_witness :
  let run :=
    @create_odk_xform demo_runtime (answering 200) 7 "/tmp/form-42.xml"
      "buildings" "{}" None false true kept_world in
  files (snd run) !! "/tmp/notes.txt" = files kept_world !! "/tmp/notes.txt"
  /\ dirs kept_world ⊆ dirs (snd run).
Proof.
  apply (@create_odk_xform_other_files_untouched demo_runtime (answering 200)
           7 "/tmp/form-42.xml" "buildings" "{}" None false true kept_world
           "/tmp/notes.txt").
  - reflexivity.
  - reflexivity.
  - vm_compute. discriminate.
Defined.

(** A payload that does not decode: no upload, no publication. *)
Lemma create_odk_xform_undecodable_payload_witness :
  let run :=
    @create_odk_xform undecodable_runtime (answering 200) 7
      "/tmp/form-42.xml" "buildings" "{}" None false true empty_world in
  Forall (fun ev => after_create (fst ev) = false)
    (new_events empty_world (snd run)).
Proof.
  apply (@create_odk_xform_undecodable_payload undecodable_runtime
           (answering 200) 7 "/tmp/form-42.xml" "buildings" "{}" None false
           true empty_world).
  reflexivity.
Defined.

(** A workbook that is not there. *)
Lemma generate_updated_xform_conversion_failure_witness :
  let run :=
    @generate_updated_xform demo_runtime demo_form_libs "/tmp/in.xlsx"
      "/tmp/out.xml" "xlsx" "buildings" tmp_world in
  fst run = Raised (conversion_error "/tmp/in.xlsx")
  /\ files (snd run) = files tmp_world.
Proof.
  destruct (@generate_updated_xform_conversion_failure demo_runtime
              demo_form_libs "/tmp/in.xlsx" "/tmp/out.xml" "xlsx" "buildings"
              tmp_world (PyExn "FileNotFoundError" "/tmp/in.xlsx"))
    as (Hret & Hfiles & _).
  - discriminate.
  - reflexivity.
  - split; [exact Hret|exact Hfiles].
Defined.

(** A conversion that writes an empty file. *)
Lemma generate_updated_xform_empty_output_witness :
  let run :=
    @generate_updated_xform demo_runtime blank_form_libs "/tmp/in.xlsx"
      "/tmp/out.xml" "xlsx" "buildings" workbook_world in
  fst run = Raised (empty_output_error "/tmp/out.xml")
  /\ files (snd run) !! "/tmp/out.xml" = Some "".
Proof.
  apply (@generate_updated_xform_empty_output demo_runtime blank_form_libs
           "/tmp/in.xlsx" "/tmp/out.xml" "xlsx" "buildings" workbook_world).
  - discriminate.
  - reflexivity.
Defined.


(** An XML form that does not parse, with an older output in place. *)
Lemma generate_updated_xform_xml_failure_writes_nothing_witness :
  let run :=
    @generate_updated_xform demo_runtime demo_form_libs "/tmp/in.xlsx"
      "/tmp/form-42.xml" "xml" "buildings" unparsable_world in
  files (snd run) = files unparsable_world
  /\ dirs (snd run) = dirs unparsable_world
  /\ trace (snd run) = trace unparsable_world.
Proof.
  apply (@generate_updated_xform_xml_failure_writes_nothing demo_runtime
           demo_form_libs "/tmp/in.xlsx" "/tmp/form-42.xml" "buildings"
           unparsable_world (PyExn "ParseError" "syntax error")).
  reflexivity.
Defined.

(** Rewriting [/tmp/form-42.xml] in place a second time. *)
Lemma generate_updated_xform_rerun_in_place_witness :
  let run :=
    @generate_updated_xform demo_runtime round_trip_form_libs
      "/tmp/form-42.xml" "/tmp/form-42.xml" "xml" "buildings"
      rewritten_world in
  fst run = Returned "/tmp/form-42.xml"
  /\ files (snd run) = files rewritten_world.
Proof.
  apply (@generate_updated_xform_rerun_in_place demo_runtime
           round_trip_form_libs "/tmp/form-42.xml" "buildings"
           rewritten_world example_form); reflexivity.
Defined.

(** The data extract of [example_form] is reported as [features]. *)
Lemma geojson_name_has_no_separator_witness :
  contains "features" "." = false /\ contains "features" "/" = false.
Proof.
  apply (geojson_name_has_no_separator example_geojson_instance "features").
  reflexivity.
Defined.

(** After the rewriting for [buildings], the validation asks for
    [buildings]. *)
Lemma rewritten_extract_is_reported_witness :
  "buildings"
  ∈ omap geojson_name
      (instances_with_src
         (rewrite_bindings "/tmp/form-42.xml" "buildings" example_form)).
Proof.
  apply (rewritten_extract_is_reported "/tmp/form-42.xml" "buildings"
           eq_refl eq_refl example_form example_head example_model
           example_geojson_instance 0 1 1 "jr://file/features.geojson");
    reflexivity.
Defined.



(** A valid form: both working files are there afterwards. *)
Lemma test_form_validity_keeps_working_files_witness :
  let run :=
    @test_form_validity demo_runtime demo_form_libs (PyBytes "survey") "xlsx"
      tmp_world in
  exists b,
    PyBytes "survey" = PyBytes b
    /\ files (snd run) !! ("/tmp/validate_form." +:+ "xlsx") = Some b
    /\ is_Some (files (snd run) !! "/tmp/outfile.xml").
Proof.
  apply (@test_form_validity_keeps_working_files demo_runtime demo_form_libs
           (PyBytes "survey") "xlsx" tmp_world
           (PyDict [("required media", PyList [PyStr "features"]);
                    ("message", PyStr "Your form is valid")])).
  vm_compute. reflexivity.
Defined.

(** A payload of one byte. *)
Lemma convert_csv_short_payload_witness :
  let run :=
    @convert_csv demo_runtime (csv_lib [] [building_record] true)
      "subs.csv" "x" in
  fst run = Returned true
  /\ osm_file (snd run) = Some ("subs.csv" +:+ ".osm")
  /\ geojson_file (snd run) = Some ("subs.csv" +:+ ".geojson")
  /\ osm_out (snd run) = [] /\ geojson_out (snd run) = []
  /\ osm_finished (snd run) = true /\ geojson_finished (snd run) = true
  /\ warnings (csv_logs (snd run)) = []
  /\ breakpoints (snd run) = 0%nat.
Proof.
  apply (@convert_csv_short_payload demo_runtime
           (csv_lib [] [building_record] true) "subs.csv" "x").
  cbn. lia.
Defined.

(** A record without coordinates between two populated ones, without
    the debugger: the first record is written, the call ends there. *)
Lemma convert_csv_stops_at_first_failing_record_witness :
  let run :=
    @convert_csv demo_runtime
      (csv_lib [] [building_record; no_coordinates_record; school_record]
         false)
      "subs.csv" "id,lat,lon" in
  fst run = Raised (PyExn "ModuleNotFoundError" "No module named 'epdb'")
  /\ osm_out (snd run) = [open_record building_record]
  /\ geojson_out (snd run) = [open_record building_record]
  /\ osm_finished (snd run) = false
  /\ geojson_finished (snd run) = false.
Proof.
  apply (@convert_csv_stops_at_first_failing_record demo_runtime
           (csv_lib [] [building_record; no_coordinates_record;
                        school_record] false)
           "subs.csv" "id,lat,lon" 1 no_coordinates_record
           (PyExn "ModuleNotFoundError" "No module named 'epdb'")).
  - cbn. lia.
  - reflexivity.
  - repeat constructor.
  - reflexivity.
Defined.

(** A record without coordinates between two populated ones, with the
    debugger installed. *)
Lemma convert_csv_with_debugger_writes_all_tagged_witness :
  let run :=
    @convert_csv demo_runtime
      (csv_lib [] [building_record; no_coordinates_record; no_tags_record;
                   school_record] true)
      "subs.csv" "id,lat,lon" in
  fst run = Returned true
  /\ osm_out (snd run)
     = [open_record building_record; open_record no_coordinates_record;
        open_record school_record]
  /\ geojson_out (snd run)
     = [open_record building_record; open_record no_coordinates_record;
        open_record school_record]
  /\ breakpoints (snd run) = 1%nat.
Proof.
  apply (@convert_csv_with_debugger_writes_all_tagged demo_runtime
           (csv_lib [] [building_record; no_coordinates_record;
                        no_tags_record; school_record] true)
           "subs.csv" "id,lat,lon").
  - reflexivity.
  - cbn. lia.
  - repeat (constructor;
            [first [intros _; reflexivity
                   |intros H; vm_compute in H; discriminate H]|]).
    constructor.
Defined.

(** Two app users: the submissions of [alice], then the one of [bob]. *)
Lemma list_submissions_concatenates_witness :
  let run :=
    @list_submissions demo_runtime (answering 200)
      (submissions_server [alice; bob]) ascii_unicode 7 None empty_session in
  exists listed users evs,
    requests (snd run)
    = requests empty_session
      ++ (ListAppUsers (@credentials demo_runtime OdkProject None) 7,
          Returned listed) :: evs
    /\ @iterate ascii_unicode listed = Some users
    /\ Forall2
         (@listed_for ascii_unicode (@credentials demo_runtime OdkForm None) 7)
         users evs
    /\ [PyStr "a-1"; PyStr "a-2"; PyStr "bob-1"]
       = flat_map (@submissions_of ascii_unicode) evs.
Proof.
  apply (@list_submissions_concatenates demo_runtime (answering 200)
           (submissions_server [alice; bob]) ascii_unicode 7 None
           empty_session [PyStr "a-1"; PyStr "a-2"; PyStr "bob-1"]).
  vm_compute. reflexivity.
Defined.

(** A user without a display name between [alice] and [bob]: the
    listing fails after the request for [alice]. *)
Lemma list_submissions_stops_at_nameless_user_witness :
  let run :=
    @list_submissions demo_runtime (answering 200)
      (submissions_server [alice; nameless; bob]) ascii_unicode 7 None
      empty_session in
  (exists e', fst run = Raised e')
  /\ (length (requests (snd run)) <= length (requests empty_session) + 1 + 1)%nat.
Proof.
  apply (@list_submissions_stops_at_nameless_user demo_runtime (answering 200)
           (submissions_server [alice; nameless; bob]) ascii_unicode 7 None
           empty_session (PyList [alice; nameless; bob])
           [alice; nameless; bob] 1 nameless
           (PyExn "KeyError" "displayName")); reflexivity.
Defined.

(** The extract of a project, in its staging directory. *)
Lemma media_title_ignores_directory_witness :
  media_title ("/tmp/fmtm/odk/7" +:+ "/" +:+ "buildings.geojson")
  = media_title "buildings.geojson"
  /\ contains (media_title "buildings.geojson") "/" = false.
Proof.
  apply (media_title_ignores_directory "/tmp/fmtm/odk/7" "buildings.geojson").
  reflexivity.
Defined.

(** The form file of the examples. *)
Lemma media_title_is_path_stem_witness :
  media_title "/tmp/form-42.xml" = path_stem "/tmp/form-42.xml".
Proof.
  apply (media_title_is_path_stem "/tmp/form-42.xml"); reflexivity.
Defined.
